(** * map2size: the symbol post-processing passes of tools/binary_size/map2size.py

    A shallow embedding of the passes that turn the raw symbol table of a
    linker map into the reconciled, renamed symbol group of a [SizeInfo]:

    - [_RemoveDuplicatesAndCalculatePadding] (the interval reconciler),
    - [_UnmangleRemainingSymbols] (the batch call to c++filt),
    - [_NormalizeNames], [_NormalizeObjectPaths], [_NormalizeSourcePath],
      [_ExtractSourcePaths],
    - [Analyze] and the tail of [main] that validates section sizes,
    - the helpers of the metadata: [_DetectGitRevision], [BuildIdFromElf],
      [_ParseGnArgs] and, in the module [Elf], [_SectionSizesFromElf].

    Python exceptions are values of [PyError]; a function that can raise
    returns a [result].  The collaborators whose code is in other modules
    (models, function_signature, ninja_parser, file_format, paths, the
    spawned tools) are parameters: Section variables of the passes and the
    record [Collaborators] of the pipeline. *)

From Stdlib Require Import ZArith Ascii Lia Bool.
From stdpp Require Import base list gmap strings sorting.

Open Scope Z_scope.

(** ** Exceptions and the error monad *)

Inductive PyError : Type :=
| AssertionError (msg : string)
| AttributeError (msg : string)
| IndexError
| ValueError
| UnboundLocalError
| SystemExit (msg : string)
| Exception (msg : string)
| ExternalError (msg : string).

Inductive result (A : Type) : Type :=
| Ok (a : A)
| Err (e : PyError).

Arguments Ok {A} a.
Arguments Err {A} e.

#[global] Instance result_ret : MRet result := fun _ a => Ok a.

#[global] Instance result_bind : MBind result := fun _ _ f m =>
  match m with
  | Ok a => f a
  | Err e => Err e
  end.

Definition is_ok {A} (r : result A) : bool :=
  match r with Ok _ => true | Err _ => false end.

(** ** Python 2 byte strings

    The operations of [str] that the passes use, on Rocq strings (lists of
    8-bit characters). *)

Module PyStr.

Definition LF : ascii := "010"%char.
Definition CR : ascii := "013"%char.

(** [s.startswith(prefix)] *)
Fixpoint startswith (prefix s : string) : bool :=
  match prefix, s with
  | EmptyString, _ => true
  | String _ _, EmptyString => false
  | String a p, String b r => Ascii.eqb a b && startswith p r
  end.

(** [s[:n]] for [0 <= n] *)
Fixpoint take (n : nat) (s : string) : string :=
  match n, s with
  | O, _ => EmptyString
  | S _, EmptyString => EmptyString
  | S k, String c r => String c (take k r)
  end.

(** [s[n:]] for [0 <= n] *)
Fixpoint drop (n : nat) (s : string) : string :=
  match n, s with
  | O, _ => s
  | S _, EmptyString => EmptyString
  | S k, String _ r => drop k r
  end.

(** [s.endswith(suffix)] *)
Definition endswith (suffix s : string) : bool :=
  (String.length suffix <=? String.length s)%nat
  && String.eqb (drop (String.length s - String.length suffix) s) suffix.

(** [s.find(sub)]: the lowest index at which [sub] occurs in [s];
    [None] stands for Python's -1. *)
Fixpoint find (sub s : string) : option nat :=
  if startswith sub s then Some O
  else match s with
       | EmptyString => None
       | String _ r => S <$> find sub r
       end.

(** [s.find(sub, 0, stop)]: the occurrence must lie inside [s[0:stop]]. *)
Definition find_upto (sub s : string) (stop : nat) : option nat :=
  find sub (take stop s).

(** [sub in s] *)
Definition contains (sub s : string) : bool :=
  match find sub s with Some _ => true | None => false end.

(** [s.index(sub)]: as [find], but raises ValueError when absent. *)
Definition index (sub s : string) : result nat :=
  match find sub s with Some i => Ok i | None => Err ValueError end.

(** [s.replace(old, new)] for a non-empty [old]: occurrences are replaced
    left to right without overlap.  [skip] counts the characters of a
    matched occurrence that are still to be dropped. *)
Fixpoint replace_aux (old new : string) (skip : nat) (s : string) : string :=
  match s with
  | EmptyString => EmptyString
  | String c r =>
      match skip with
      | S k => replace_aux old new k r
      | O =>
          if startswith old s
          then new +:+ replace_aux old new (String.length old - 1) r
          else String c (replace_aux old new O r)
      end
  end.

Definition replace (old new s : string) : string := replace_aux old new O s.

(** The index of the last [")"] of the first line of [s], if any: where
    the greedy [.*] of the pattern [\(.*\)] ends, since [.] matches every
    character but the newline. *)
Fixpoint last_close (s : string) : option nat :=
  match s with
  | EmptyString => None
  | String c r =>
      if Ascii.eqb c LF then None
      else match last_close r with
           | Some j => Some (S j)
           | None => if Ascii.eqb c ")" then Some O else None
           end
  end.

(** [re.sub(r'\(.*\)', '', s)]: on every line, the text from the first
    ["("] that has a [")"] after it up to the last [")"] is removed. *)
Fixpoint re_sub_parens_aux (skip : nat) (s : string) : string :=
  match s with
  | EmptyString => EmptyString
  | String c r =>
      match skip with
      | S k => re_sub_parens_aux k r
      | O =>
          if Ascii.eqb c "("
          then match last_close r with
               | Some j => re_sub_parens_aux (S j) r
               | None => String c (re_sub_parens_aux O r)
               end
          else String c (re_sub_parens_aux O r)
      end
  end.

Definition re_sub_parens (s : string) : string := re_sub_parens_aux O s.

(** [sep.join(l)] *)
Fixpoint join (sep : string) (l : list string) : string :=
  match l with
  | [] => EmptyString
  | [x] => x
  | x :: rest => x +:+ sep +:+ join sep rest
  end.

(** [s.splitlines()]: lines end at LF, CR or CR LF; the terminators are
    dropped, and a final empty piece is not a line.  [after_cr] tells that
    the previous character was a CR, [cur] is the line read so far. *)
Fixpoint splitlines_aux (after_cr : bool) (cur s : string) : list string :=
  match s with
  | EmptyString => if String.eqb cur EmptyString then [] else [cur]
  | String c r =>
      if Ascii.eqb c LF then
        if after_cr then splitlines_aux false cur r
        else cur :: splitlines_aux false EmptyString r
      else if Ascii.eqb c CR then cur :: splitlines_aux true EmptyString r
      else splitlines_aux false (cur +:+ String c EmptyString) r
  end.

Definition splitlines (s : string) : list string :=
  splitlines_aux false EmptyString s.

(** Truth value of a string: empty strings are falsy. *)
Definition truthy (s : string) : bool := negb (String.eqb s EmptyString).

End PyStr.

(** ** The data model (models.py)

    [Symbol] carries the attributes the passes read and assign.  Two
    symbol objects are told apart by their position in the group. *)

Record Symbol : Type := mkSymbol {
  name : string;
  full_name : string;
  address : Z;
  size : Z;
  padding : Z;
  section : string;
  section_name : string;
  object_path : string;
  source_path : string;
  is_anonymous : bool
}.

Definition set_name (v : string) (s : Symbol) : Symbol :=
  mkSymbol v (full_name s) (address s) (size s) (padding s) (section s)
    (section_name s) (object_path s) (source_path s) (is_anonymous s).

Definition set_full_name (v : string) (s : Symbol) : Symbol :=
  mkSymbol (name s) v (address s) (size s) (padding s) (section s)
    (section_name s) (object_path s) (source_path s) (is_anonymous s).

Definition set_size (v : Z) (s : Symbol) : Symbol :=
  mkSymbol (name s) (full_name s) (address s) v (padding s) (section s)
    (section_name s) (object_path s) (source_path s) (is_anonymous s).

Definition set_padding (v : Z) (s : Symbol) : Symbol :=
  mkSymbol (name s) (full_name s) (address s) (size s) v (section s)
    (section_name s) (object_path s) (source_path s) (is_anonymous s).

Definition set_object_path (v : string) (s : Symbol) : Symbol :=
  mkSymbol (name s) (full_name s) (address s) (size s) (padding s) (section s)
    (section_name s) v (source_path s) (is_anonymous s).

Definition set_source_path (v : string) (s : Symbol) : Symbol :=
  mkSymbol (name s) (full_name s) (address s) (size s) (padding s) (section s)
    (section_name s) (object_path s) v (is_anonymous s).

Definition set_is_anonymous (v : bool) (s : Symbol) : Symbol :=
  mkSymbol (name s) (full_name s) (address s) (size s) (padding s) (section s)
    (section_name s) (object_path s) (source_path s) v.

(** A [SymbolGroup] is the ordered sequence of its symbols. *)
Abbreviation SymbolGroup := (list Symbol).

(** [enumerate(l)]: the elements of [l] with their positions. *)
Definition enumerate {A} (l : list A) : list (nat * A) :=
  List.combine (List.seq 0 (length l)) l.

(** The metadata record that [main] assembles for a fresh ELF input. *)
Record Metadata : Type := mkMetadata {
  git_revision : option string;
  map_filename : string;
  elf_filename : string;
  elf_mtime : Z;
  elf_build_id : string;
  gn_args : list string
}.

Record SizeInfo : Type := mkSizeInfo {
  section_sizes : gmap string Z;
  symbols : SymbolGroup;
  metadata : option Metadata
}.

(** Modelled from the spec: [Symbol.end_address], a property of
    models.Symbol, which is not among the sources; section 4.1 gives it as
    [end_address = address + size]. *)
Definition spec_end_address (s : Symbol) : Z := address s + size s.

(** Modelled from the spec: [Symbol.size_without_padding], a property of
    models.Symbol, which is not among the sources; section 3 describes it
    as the original size before padding absorption. *)
Definition spec_size_without_padding (s : Symbol) : Z := size s - padding s.

(** Modelled from the spec: the difference of two symbol groups, an
    operator of models.SymbolGroup, which is not among the sources; section
    4.1 describes the removal as a set difference on the group.  The
    symbols to drop are given by their positions. *)
Definition group_difference (g : SymbolGroup) (to_remove : list nat) : SymbolGroup :=
  List.map snd
    (List.filter (fun p => negb (existsb (Nat.eqb (fst p)) to_remove))
       (enumerate g)).

(** ** The interval reconciler *)

Section Reconciler.

(** The two properties of models.Symbol that the pass reads. *)
Variable size_without_padding : Symbol -> Z.
Variable end_address : Symbol -> Z.

Definition msg_unsorted : string :=
  "Input symbols must be sorted by section, then address.".

Definition msg_negative_size : string :=
  "Symbol has negative size (likely not sorted propertly)".

Definition msg_list_add : string :=
  "'list' object has no attribute 'add'".

(** The condition of lines 186-188 under which a gap is left
    unattributed. *)
Definition large_padding (symbol : Symbol) (gap : Z) : bool :=
  negb (PyStr.startswith "*" (name symbol))
  && ((PyStr.contains (section symbol) "rd" && (256 <=? gap))
      || (PyStr.contains (section symbol) "t" && (64 <=? gap))).

(** One iteration of the loop of lines 164-202: [prev_symbol] is
    [symbol_group[i]] as the previous iteration left it, [symbol] the
    element of [symbol_group[1:]] being visited.  The result is the new
    [seen_sections] and the symbol after the iteration.  [to_remove] is
    the list created at line 162: the call [to_remove.add(symbol)] of line
    177 raises AttributeError, so no iteration ever changes it. *)
Definition loop_body (seen_sections : list string) (prev_symbol symbol : Symbol)
  : result (list string * Symbol) :=
  if negb (String.eqb (section_name prev_symbol) (section_name symbol)) then
    if existsb (String.eqb (section_name symbol)) seen_sections
    then Err (AssertionError msg_unsorted)
    else Ok (seen_sections ++ [section_name symbol], symbol)
  else if (address symbol <=? 0) || (address prev_symbol <=? 0) then
    Ok (seen_sections, symbol)
  else
    let prev_is_padding_only := size_without_padding prev_symbol =? 0 in
    if (address symbol =? address prev_symbol) && negb prev_is_padding_only then
      let symbol := set_size (Z.max (size prev_symbol) (size symbol)) symbol in
      Err (AttributeError msg_list_add)
    else
      let gap := address symbol - end_address prev_symbol in
      if large_padding symbol gap then Ok (seen_sections, symbol)
      else
        let symbol := set_padding gap symbol in
        let symbol := set_size (size symbol + gap) symbol in
        if size symbol <? 0
        then Err (AssertionError msg_negative_size)
        else Ok (seen_sections, symbol).

(** The loop over [enumerate(symbol_group[1:])]. *)
Fixpoint loop (seen_sections : list string) (prev_symbol : Symbol)
  (rest : list Symbol) : result (list string * list Symbol) :=
  match rest with
  | [] => Ok (seen_sections, [])
  | symbol :: rest' =>
      '(seen_sections, symbol) ← loop_body seen_sections prev_symbol symbol;
      '(seen_sections, out) ← loop seen_sections symbol rest';
      Ok (seen_sections, symbol :: out)
  end.

Definition _RemoveDuplicatesAndCalculatePadding (symbol_group : SymbolGroup)
  : result SymbolGroup :=
  let to_remove : list nat := [] in
  match symbol_group with
  | [] => Ok (symbol_group)
  | first :: rest =>
      '(_, out) ← loop [] first rest;
      let symbol_group := first :: out in
      if negb (Nat.eqb (length to_remove) 0)
      then Ok (group_difference symbol_group to_remove)
      else Ok symbol_group
  end.

End Reconciler.

(** ** The unmangler *)

Section Unmangler.

(** The c++filt process spawned at line 44, as the function from what is
    written to its standard input to its exit code and standard output. *)
Variable cxxfilt : string -> Z * string.

(** [to_process], line 39: the symbols whose name starts with "_Z", each
    with its position in the group (a Python list of references). *)
Definition to_process_of (symbol_group : SymbolGroup) : list (nat * Symbol) :=
  List.filter (fun p => PyStr.startswith "_Z" (name (snd p)))
    (enumerate symbol_group).

(** The loop of lines 49-50 from line number [i] on: [to_process[i]]
    raises IndexError when there is no such element. *)
Fixpoint assign_lines (to_process : list nat) (i : nat) (lines : list string)
  (symbol_group : SymbolGroup) : result SymbolGroup :=
  match lines with
  | [] => Ok symbol_group
  | line :: rest =>
      match to_process !! i with
      | None => Err IndexError
      | Some pos =>
          assign_lines to_process (S i) rest (alter (set_name line) pos symbol_group)
      end
  end.

(** The first component lists the standard input of every process the
    call spawned. *)
Definition _UnmangleRemainingSymbols (symbol_group : SymbolGroup)
  : list string * result SymbolGroup :=
  let to_process := to_process_of symbol_group in
  match to_process with
  | [] => ([], Ok symbol_group)
  | _ :: _ =>
      let stdin :=
        PyStr.join (String PyStr.LF "") ((fun p => name (snd p)) <$> to_process) in
      let '(returncode, stdout) := cxxfilt stdin in
      ([stdin],
       if negb (returncode =? 0) then Err (AssertionError "")
       else assign_lines (fst <$> to_process) 0 (PyStr.splitlines stdout) symbol_group)
  end.

End Unmangler.

(** ** The name normalizer *)

Section Normalizer.

(** [function_signature.Parse], whose module is not among the sources:
    it returns the pair [(full_name, name)]. *)
Variable Parse : string -> string * string.

Definition anonymous_namespace : string := "(anonymous namespace)::".

(** Lines 70-73 with [sep] = " for " and lines 76-79 with [sep] = " to ":
    the constants 4 and 5 (3 and 4) of the source are the length of
    [sep] less one and the length of [sep]. *)
Definition move_prefix (sep : string) (found_prefixes : gset string) (symbol : Symbol)
  : gset string * Symbol :=
  match PyStr.find_upto sep (name symbol) 30 with
  | Some idx =>
      (found_prefixes ∪ {[ PyStr.take (idx + (String.length sep - 1)) (name symbol) ]},
       set_name (PyStr.drop (idx + String.length sep) (name symbol)
                 +:+ " [" +:+ PyStr.take idx (name symbol) +:+ "]") symbol)
  | None => (found_prefixes, symbol)
  end.

(** Lines 81-83: strip the return type and find the parameter list. *)
Definition parse_signature (symbol : Symbol) : Symbol :=
  if String.eqb (section symbol) "t"
  then let '(f, n) := Parse (name symbol) in set_name n (set_full_name f symbol)
  else symbol.

(** Lines 85-91: remove anonymous namespaces. *)
Definition remove_anonymous (symbol : Symbol) : Symbol :=
  let non_anonymous := PyStr.replace anonymous_namespace "" (name symbol) in
  if negb (String.eqb (name symbol) non_anonymous)
  then set_full_name (PyStr.replace anonymous_namespace "" (full_name symbol))
         (set_name non_anonymous (set_is_anonymous true symbol))
  else symbol.

(** Lines 93-97: a name with parentheses outside the code sections. *)
Definition strip_parens (symbol : Symbol) : Symbol :=
  if negb (String.eqb (section symbol) "t") && PyStr.contains "(" (name symbol)
  then let symbol := set_full_name (name symbol) symbol in
       set_name (PyStr.re_sub_parens (full_name symbol)) symbol
  else symbol.

(** Lines 99-101: do not store both names when they are the same. *)
Definition drop_same_full_name (symbol : Symbol) : Symbol :=
  if String.eqb (full_name symbol) (name symbol)
  then set_full_name "" symbol
  else symbol.

(** The body of the loop of lines 63-101 for one symbol. *)
Definition normalize_symbol (found_prefixes : gset string) (symbol : Symbol)
  : gset string * Symbol :=
  if PyStr.startswith "*" (name symbol) then (found_prefixes, symbol)
  else
    let '(found_prefixes, symbol) := move_prefix " for " found_prefixes symbol in
    let '(found_prefixes, symbol) := move_prefix " to " found_prefixes symbol in
    let symbol := parse_signature symbol in
    let symbol := remove_anonymous symbol in
    let symbol := strip_parens symbol in
    let symbol := drop_same_full_name symbol in
    (found_prefixes, symbol).

(** The loop itself, threading [found_prefixes] (which is only logged). *)
Fixpoint normalize_loop (found_prefixes : gset string) (symbol_group : SymbolGroup)
  : gset string * SymbolGroup :=
  match symbol_group with
  | [] => (found_prefixes, [])
  | symbol :: rest =>
      let '(found_prefixes, symbol) := normalize_symbol found_prefixes symbol in
      let '(found_prefixes, rest) := normalize_loop found_prefixes rest in
      (found_prefixes, symbol :: rest)
  end.

Definition _NormalizeNames (symbol_group : SymbolGroup) : SymbolGroup :=
  snd (normalize_loop ∅ symbol_group).

End Normalizer.

(** ** Object and source paths *)

(** [os.path.join(a, b)] of posixpath. *)
Definition posixpath_join (a b : string) : string :=
  if PyStr.startswith "/" b then b
  else if String.eqb a "" || PyStr.endswith "/" a then a +:+ b
  else a +:+ "/" +:+ b.

(** The body of the loop of lines 108-120. *)
Definition normalize_object_path (symbol : Symbol) : result Symbol :=
  let path := object_path symbol in
  let path :=
    if PyStr.startswith "obj/" path then PyStr.drop 4 path
    else if PyStr.startswith "../../" path then PyStr.drop 6 path
    else path in
  path ←
    (if PyStr.endswith ")" path then
       start_idx ← PyStr.index "(" path;
       Ok (posixpath_join (PyStr.take start_idx path)
             (PyStr.take (String.length path - 1 - (start_idx + 1))
                (PyStr.drop (start_idx + 1) path)))
     else Ok path);
  Ok (set_object_path path symbol).

Fixpoint _NormalizeObjectPaths (symbol_group : SymbolGroup) : result SymbolGroup :=
  match symbol_group with
  | [] => Ok []
  | symbol :: rest =>
      symbol ← normalize_object_path symbol;
      rest ← _NormalizeObjectPaths rest;
      Ok (symbol :: rest)
  end.

Definition _NormalizeSourcePath (path : string) : string :=
  if PyStr.startswith "gen/" path then PyStr.drop 4 path
  else if PyStr.startswith "../../" path then PyStr.drop 6 path
  else path.

Section SourcePaths.

(** [ninja_parser.SourceFileMapper(output_directory).FindSourceForPath]:
    [None] when the mapper knows no source for the object. *)
Variable FindSourceForPath : string -> option string.

(** The body of the loop of lines 141-152, threading [all_found]. *)
Definition extract_source_path (all_found : bool) (symbol : Symbol) : bool * Symbol :=
  let object_path := object_path symbol in
  if PyStr.truthy (source_path symbol) || negb (PyStr.truthy object_path)
  then (all_found, symbol)
  else if negb (PyStr.startswith ".." object_path) then
    match FindSourceForPath object_path with
    | Some source_path =>
        if PyStr.truthy source_path
        then (all_found, set_source_path (_NormalizeSourcePath source_path) symbol)
        else (false, symbol)
    | None => (false, symbol)
    end
  else (all_found, symbol).

Fixpoint extract_loop (all_found : bool) (symbol_group : SymbolGroup)
  : bool * SymbolGroup :=
  match symbol_group with
  | [] => (all_found, [])
  | symbol :: rest =>
      let '(all_found, symbol) := extract_source_path all_found symbol in
      let '(all_found, rest) := extract_loop all_found rest in
      (all_found, symbol :: rest)
  end.

(** Returns [all_found] and the group with the source paths filled in. *)
Definition _ExtractSourcePaths (symbol_group : SymbolGroup) : bool * SymbolGroup :=
  extract_loop true symbol_group.

End SourcePaths.

(** ** The pipeline: [Analyze] and [main] *)

(** The parsed command line. *)
Record Args : Type := mkArgs {
  elf_file : string;
  output_file : string;
  map_file : option string
}.

(** What the pipeline calls in other modules and processes. *)
Record Collaborators : Type := mkCollaborators {
  (** The properties [size_without_padding] and [end_address] of
      models.Symbol. *)
  models_size_without_padding : Symbol -> Z;
  models_end_address : Symbol -> Z;
  (** The c++filt process: standard input to exit code and output. *)
  cxxfilt_process : string -> Z * string;
  (** [function_signature.Parse]. *)
  function_signature_Parse : string -> string * string;
  (** [ninja_parser.SourceFileMapper(output_directory).FindSourceForPath]. *)
  ninja_FindSourceForPath : string -> option string;
  (** [file_format.LoadSizeInfo(path)]. *)
  file_format_LoadSizeInfo : string -> result SizeInfo;
  (** [linker_map_parser.MapFileParser().Parse] on the opened map file:
      the section sizes and the raw symbols. *)
  linker_map_Parse : string -> result (gmap string Z * list Symbol);
  (** [lazy_paths.VerifyOutputDirectory()] and
      [lazy_paths.VerifyToolPrefix()]. *)
  VerifyOutputDirectory : result string;
  VerifyToolPrefix : result string;
  (** [os.path.exists]. *)
  os_path_exists : string -> bool;
  (** The metadata construction of lines 333-350, which runs git and
      readelf and reads args.gn: it may raise. *)
  ConstructMetadata : Args -> string -> result Metadata;
  (** [_SectionSizesFromElf(elf_file, tool_prefix)]: the section sizes
      that readelf reports for the ELF file. *)
  _SectionSizesFromElf : string -> result (gmap string Z)
}.

Definition msg_sources_not_found : string :=
  "One or more source file paths could not be found. Likely caused by .ninja files being generated at a different time than the .map file.".

Definition msg_elf_mismatch : string := "ELF file and .map file do not match.".

Definition with_symbols (size_info : SizeInfo) (g : SymbolGroup) : SizeInfo :=
  mkSizeInfo (section_sizes size_info) g (metadata size_info).

Definition with_metadata (size_info : SizeInfo) (m : option Metadata) : SizeInfo :=
  mkSizeInfo (section_sizes size_info) (symbols size_info) m.

(** The loop of lines 358-360 over the items of [elf_section_sizes]:
    [section_sizes.get(k)] is None for an absent key, which equals no
    integer. *)
Fixpoint validate_section_sizes (items : list (string * Z)) (sizes : gmap string Z)
  : result unit :=
  match items with
  | [] => Ok tt
  | (k, v) :: rest =>
      match sizes !! k with
      | Some v' =>
          if v =? v' then validate_section_sizes rest sizes
          else Err (AssertionError msg_elf_mismatch)
      | None => Err (AssertionError msg_elf_mismatch)
      end
  end.

Section Pipeline.

Variable c : Collaborators.

(** The reconciler with the two properties of models.Symbol. *)
Definition reconcile (symbol_group : SymbolGroup) : result SymbolGroup :=
  _RemoveDuplicatesAndCalculatePadding
    (models_size_without_padding c) (models_end_address c) symbol_group.

(** Lines 209-259; the logging of the last lines is left out. *)
Definition Analyze (path : string) : result SizeInfo :=
  if PyStr.endswith ".size" path then
    size_info ← file_format_LoadSizeInfo c path;
    g ← reconcile (symbols size_info);
    let g := _NormalizeNames (function_signature_Parse c) g in
    Ok (with_symbols size_info g)
  else if negb (PyStr.endswith ".map" path) && negb (PyStr.endswith ".map.gz" path) then
    Err (Exception "Expected input to be a .map or a .size")
  else
    _ ← VerifyOutputDirectory c;
    _ ← VerifyToolPrefix c;
    '(sizes, raw_symbols) ← linker_map_Parse c path;
    let size_info := mkSizeInfo sizes raw_symbols None in
    g ← reconcile (symbols size_info);
    g ← snd (_UnmangleRemainingSymbols (cxxfilt_process c) g);
    let '(all_found, g) := _ExtractSourcePaths (ninja_FindSourceForPath c) g in
    if negb all_found then Err (AssertionError msg_sources_not_found)
    else
      let g := _NormalizeNames (function_signature_Parse c) g in
      g ← _NormalizeObjectPaths g;
      Ok (with_symbols size_info g).

(** Lines 313-327: the choice of the map file; [None] is the branch of
    line 321 that leaves [map_file_path] unbound. *)
Definition choose_map_file_path (args : Args) : result (option string) :=
  let given := match map_file args with Some m => PyStr.truthy m | None => false end in
  if given then Ok (map_file args)
  else if PyStr.endswith ".size" (elf_file args) then Ok None
  else
    let map_file_path := elf_file args +:+ ".map" in
    let map_file_path :=
      if negb (os_path_exists c map_file_path) then map_file_path +:+ ".gz"
      else map_file_path in
    if negb (os_path_exists c map_file_path)
    then Err (SystemExit "Could not find .map(.gz)? file. Use --map-file.")
    else Ok (Some map_file_path).

(** [main] after argument parsing.  [Ok size_info] means that line 367
    was reached: [file_format.SaveSizeInfo(size_info, args.output_file)]
    wrote the snapshot. *)
Definition main (args : Args) : result SizeInfo :=
  if negb (PyStr.endswith ".size" (output_file args))
  then Err (SystemExit "output_file must end with .size")
  else
    map_file_path ← choose_map_file_path args;
    metadata ←
      (if PyStr.truthy (elf_file args) && negb (PyStr.endswith ".size" (elf_file args))
       then m ← ConstructMetadata c args (default "" map_file_path); Ok (Some m)
       else Ok None);
    path ← (match map_file_path with
            | Some p => Ok p
            | None => Err UnboundLocalError
            end);
    size_info ← Analyze path;
    size_info ←
      (match metadata with
       | Some m =>
           elf_section_sizes ← _SectionSizesFromElf c (elf_file args);
           _ ← validate_section_sizes (map_to_list elf_section_sizes)
                 (section_sizes size_info);
           Ok (with_metadata size_info (Some m))
       | None => Ok size_info
       end);
    Ok size_info.

End Pipeline.

(** ** The helpers of the metadata (lines 262-301)

    [main] calls them while it builds the metadata of a fresh ELF input.
    The processes they start and the file they read are parameters. *)

(** Further operations of [str] and of [re]. *)
Module PyText.

(** [s.split(sep)] for a separator of one character: never empty. *)
Fixpoint split (sep : ascii) (s : string) : list string :=
  match s with
  | EmptyString => [EmptyString]
  | String c r =>
      if Ascii.eqb c sep then EmptyString :: split sep r
      else match split sep r with
           | piece :: pieces => String c piece :: pieces
           | [] => [String c EmptyString]
           end
  end.

(** [s.lstrip()]: without the leading whitespace. *)
Fixpoint lstrip (s : string) : string :=
  match s with
  | EmptyString => EmptyString
  | String c r => if Ascii.is_space c then lstrip r else s
  end.

(** [s.rstrip()]: without the trailing whitespace. *)
Fixpoint rstrip (s : string) : string :=
  match s with
  | EmptyString => EmptyString
  | String c r =>
      match rstrip r with
      | EmptyString => if Ascii.is_space c then EmptyString else String c EmptyString
      | kept => String c kept
      end
  end.

(** [s.strip()] *)
Definition strip (s : string) : string := rstrip (lstrip s).

(** The class [\w] of a byte-string pattern: letters, digits and the
    underscore. *)
Definition is_word (c : ascii) : bool :=
  let n := nat_of_ascii c in
  ((48 <=? n) && (n <=? 57) || (65 <=? n) && (n <=? 90)
   || (97 <=? n) && (n <=? 122) || (n =? 95))%nat.

(** What a greedy [\w*] matches at the start of [s]. *)
Fixpoint word_prefix (s : string) : string :=
  match s with
  | EmptyString => EmptyString
  | String c r => if is_word c then String c (word_prefix r) else EmptyString
  end.

(** [re.search(r'Build ID: (\w+)', s)]: group 1 of the leftmost match,
    [None] without a match. *)
Fixpoint search_build_id (s : string) : option string :=
  let here :=
    if PyStr.startswith "Build ID: " s then word_prefix (PyStr.drop 10 s)
    else EmptyString in
  if PyStr.truthy here then Some here
  else match s with
       | EmptyString => None
       | String _ r => search_build_id r
       end.

End PyText.

Section MetadataHelpers.

(** [subprocess.check_output(args)]: the standard output of the process,
    or the exception it raises. *)
Variable check_output : list string -> result string.

(** Lines 262-269.  [except Exception] does not catch SystemExit. *)
Definition _DetectGitRevision (directory : string) : result (option string) :=
  match check_output ["git"; "-C"; directory; "rev-parse"; "HEAD"] with
  | Ok git_rev => Ok (Some (PyText.rstrip git_rev))
  | Err (SystemExit msg) => Err (SystemExit msg)
  | Err _ => Ok None
  end.

(** Lines 272-277. *)
Definition BuildIdFromElf (elf_path tool_prefix : string) : result string :=
  let args := [tool_prefix +:+ "readelf"; "-n"; elf_path] in
  stdout ← check_output args;
  match PyText.search_build_id stdout with
  | Some build_id => Ok build_id
  | None =>
      Err (AssertionError ("Build ID not found from running: " +:+ PyStr.join " " args))
  end.

End MetadataHelpers.

(** Lines 280-288.  The name is that of the collaborator of the
    pipeline, which this function is when [main] runs: hence the module. *)
Module Elf.

(** The class [\d] of a byte-string pattern. *)
Definition is_digit (c : ascii) : bool :=
  let n := nat_of_ascii c in ((48 <=? n) && (n <=? 57))%nat.

(** The longest prefix of [s] whose characters satisfy [P], and what
    follows it. *)
Fixpoint take_while (P : ascii -> bool) (s : string) : string :=
  match s with
  | EmptyString => EmptyString
  | String c r => if P c then String c (take_while P r) else EmptyString
  end.

Fixpoint drop_while (P : ascii -> bool) (s : string) : string :=
  match s with
  | EmptyString => EmptyString
  | String c r => if P c then drop_while P r else s
  end.

(** A match of the pattern of line 285 (with re.MULTILINE) that starts at
    the start of [s]: an opening bracket, a run of whitespace and digits,
    a closing bracket, a space and, as group 1, a dot with the rest of the
    line.  The result is group 1 and the length of the match.  The run is
    the longest one, since the closing bracket must follow it; the group
    runs to the end of the line, where "$" matches. *)
Definition match_here (s : string) : option (string * nat) :=
  match s with
  | EmptyString => None
  | String c r =>
      if Ascii.eqb c "[" then
        let in_class := fun x => Ascii.is_space x || is_digit x in
        let run := take_while in_class r in
        let after := drop_while in_class r in
        if PyStr.truthy run && PyStr.startswith "] ." after then
          let group :=
            String "." (take_while (fun x => negb (Ascii.eqb x PyStr.LF))
                          (PyStr.drop 3 after)) in
          Some (group, (1 + String.length run + 2 + String.length group)%nat)
        else None
      else None
  end.

(** Group 1 of the matches that [re.finditer] yields: the leftmost match
    first, the next one searched from where it ends.  [skip] counts the
    characters of a match that are still to be passed. *)
Fixpoint finditer_aux (skip : nat) (s : string) : list string :=
  match s with
  | EmptyString => []
  | String _ r =>
      match skip with
      | S k => finditer_aux k r
      | O =>
          match match_here s with
          | Some (group, len) => group :: finditer_aux (len - 1) r
          | None => finditer_aux O r
          end
      end
  end.

Definition finditer (s : string) : list string := finditer_aux O s.

Section SectionSizes.

Variable check_output : list string -> result string.

(** [int(x, 16)], which raises ValueError on what is no hexadecimal
    literal. *)
Variable int16 : string -> result Z.

(** The body of the loop, lines 286-287: the right-hand side of the
    assignment is evaluated first. *)
Definition record_section (section_sizes : gmap string Z) (group : string)
  : result (gmap string Z) :=
  let items := String.words group in
  item4 ← (match items !! 4%nat with Some x => Ok x | None => Err IndexError end);
  value ← int16 item4;
  item0 ← (match items !! 0%nat with Some x => Ok x | None => Err IndexError end);
  Ok (<[item0 := value]> section_sizes).

Fixpoint record_sections (section_sizes : gmap string Z) (groups : list string)
  : result (gmap string Z) :=
  match groups with
  | [] => Ok section_sizes
  | group :: rest =>
      section_sizes ← record_section section_sizes group;
      record_sections section_sizes rest
  end.

Definition _SectionSizesFromElf (elf_path tool_prefix : string)
  : result (gmap string Z) :=
  let args := [tool_prefix +:+ "readelf"; "-S"; "--wide"; elf_path] in
  stdout ← check_output args;
  record_sections ∅ (finditer stdout).

End SectionSizes.

End Elf.

(** The comparison of two (key, value) tuples of strings: by the keys,
    and by the values when the keys are equal. *)
Definition tuple_le (x y : string * string) : Prop :=
  String.le (fst x) (fst y) /\ (fst x = fst y -> String.le (snd x) (snd y)).

#[global] Instance tuple_le_dec : RelDecision tuple_le.
Proof. intros x y. unfold tuple_le. apply _. Defined.

(** [sorted(d.iteritems())]: the items in increasing order, whatever the
    order in which the dict hands them out. *)
Definition sorted_items (d : gmap string string) : list (string * string) :=
  merge_sort tuple_le (map_to_list d).

(** The body of the loop of lines 295-300 on one line of the file. *)
Definition parse_gn_line (args : gmap string string) (l : string)
  : gmap string string :=
  let parts := PyText.split "=" (List.hd "" (PyText.split "#" l)) in
  match parts with
  | [key; value] => <[PyText.strip key := PyText.strip value]> args
  | _ => args
  end.

(** The dict [args] after the loop over the lines [f] of the file. *)
Definition gn_dict (f : list string) : gmap string string :=
  foldl parse_gn_line ∅ f.

(** Lines 291-301, on the lines of the file as the iteration over the
    file object yields them. *)
Definition _ParseGnArgs (f : list string) : list string :=
  (fun x => fst x +:+ "=" +:+ snd x) <$> sorted_items (gn_dict f).

(** ** Observations used to state the properties *)

(** The attributes of a symbol other than [size] and [padding]. *)
Definition untouched_fields (s : Symbol)
  : string * string * Z * string * string * string * string * bool :=
  (name s, full_name s, address s, section s, section_name s,
   object_path s, source_path s, is_anonymous s).

(** A symbol after the gap [gap] was attributed to it (lines 198-199). *)
Definition attribute_gap (gap : Z) (symbol : Symbol) : Symbol :=
  set_size (size symbol + gap) (set_padding gap symbol).

Definition nonneg_size (s : Symbol) : Prop := 0 <= size s.


(** The attributes other than the two paths. *)
Definition core_fields (s : Symbol)
  : string * string * Z * Z * Z * string * string * bool :=
  (name s, full_name s, address s, size s, padding s, section s, section_name s,
   is_anonymous s).


(** A symbol for which [_ExtractSourcePaths] asks the mapper and gets no
    source path: no [source_path] yet, an [object_path] that does not
    start with "..", and a lookup that returns None or an empty string. *)
Definition unresolved (find : string -> option string) (s : Symbol) : Prop :=
  PyStr.truthy (source_path s) = false
  /\ PyStr.truthy (object_path s) = true
  /\ PyStr.startswith ".." (object_path s) = false
  /\ (forall sp : string, find (object_path s) = Some sp -> PyStr.truthy sp = false).


(** The two path attributes. *)
Definition path_fields (s : Symbol) : string * string :=
  (object_path s, source_path s).

(** A name on which no rule of the name normalizer fires outside the
    code sections: no " for " or " to " inside the first 30 characters,
    no anonymous-namespace token, no parenthesis. *)
Definition settled (n : string) : bool :=
  match PyStr.find_upto " for " n 30, PyStr.find_upto " to " n 30 with
  | None, None =>
      negb (PyStr.contains anonymous_namespace n) && negb (PyStr.contains "(" n)
  | _, _ => false
  end.

(** A symbol that a pass of the name normalizer leaves as it is: its
    name starts with a star, or it is outside the code sections and its
    name is settled. *)
Definition stable (s : Symbol) : Prop :=
  PyStr.startswith "*" (name s) = true
  \/ (section s <> "t" /\ settled (name s) = true).

(** A raw symbol with no derived attribute set, as a parser creates it. *)
Definition raw_symbol (n : string) (a sz : Z) (sec secn obj : string) : Symbol :=
  mkSymbol n "" a sz 0 sec secn obj "" false.

(** The section names at which the loop of the reconciler sees a change
    of section: those of the symbols of [rest] whose predecessor has
    another section name, [prev] being the section name before [rest]. *)
Fixpoint section_starts (prev : string) (rest : list Symbol) : list string :=
  match rest with
  | [] => []
  | s :: rest' =>
      if String.eqb prev (section_name s)
      then section_starts (section_name s) rest'
      else section_name s :: section_starts (section_name s) rest'
  end.

(** A string without LF and CR. *)
Fixpoint no_line_break (s : string) : bool :=
  match s with
  | EmptyString => true
  | String c r =>
      negb (Ascii.eqb c PyStr.LF) && negb (Ascii.eqb c PyStr.CR) && no_line_break r
  end.

(** What a process does that reads its input line by line and writes
    [d line] for each line, with exit code 0. *)
Definition line_filter (d : string -> string) (stdin : string) : Z * string :=
  (0, PyStr.join (String PyStr.LF "") (d <$> PyStr.splitlines stdin)).

(** The group in which every symbol with a mangled name is renamed by [d]. *)
Definition unmangled_with (d : string -> string) (g : SymbolGroup) : SymbolGroup :=
  (fun s => if PyStr.startswith "_Z" (name s) then set_name (d (name s)) s else s) <$> g.

(** The attributes that the name normalizer has no assignment to. *)
Definition not_a_name (s : Symbol) : Z * Z * Z * string * string * string * string :=
  (address s, size s, padding s, section s, section_name s, object_path s,
   source_path s).

(** The object path once the build prefix of lines 110-115 is cut off. *)
Definition without_build_prefix (path : string) : string :=
  if PyStr.startswith "obj/" path then PyStr.drop 4 path
  else if PyStr.startswith "../../" path then PyStr.drop 6 path
  else path.

(** A path that ends with ")" and has no "(" once its build prefix is cut
    off. *)
Definition unbalanced (s : Symbol) : bool :=
  PyStr.endswith ")" (without_build_prefix (object_path s))
  && negb (PyStr.contains "(" (without_build_prefix (object_path s))).

(** Where a symbol is: the attributes that no pass assigns. *)
Definition placement (s : Symbol) : Z * string * string :=
  (address s, section s, section_name s).

(** [c in s], for a character. *)
Fixpoint has_char (c : ascii) (s : string) : bool :=
  match s with
  | EmptyString => false
  | String x r => Ascii.eqb x c || has_char c r
  end.

(** Every character of [s] satisfies [P]. *)
Fixpoint all_chars (P : ascii -> bool) (s : string) : bool :=
  match s with
  | EmptyString => true
  | String x r => P x && all_chars P r
  end.

(** A key or value as the loop stores it: stripped, and with no "#" and
    no "=" inside. *)
Definition gn_token (x : string) : Prop :=
  has_char "#" x = false /\ has_char "=" x = false /\ PyText.strip x = x.

(** The key of a returned "key=value" string. *)
Definition gn_key (line : string) : string := List.hd "" (PyText.split "=" line).

(** ** Sample symbols *)

Definition rodata_table : Symbol :=
  raw_symbol "kTable" 4096 16 "r" ".rodata" "obj/base/table.o".

(** At the address of [rodata_table]. *)
Definition rodata_alias : Symbol :=
  raw_symbol "kAlias" 4096 8 "r" ".rodata" "obj/base/table.o".

(** 256 bytes after the end of [rodata_table]. *)
Definition rodata_far : Symbol :=
  raw_symbol "kFar" 4368 4 "r" ".rodata" "obj/base/far.o".

(** 255 bytes after the end of [rodata_table]. *)
Definition rodata_near : Symbol :=
  raw_symbol "kNear" 4367 4 "r" ".rodata" "obj/base/near.o".

(** Inside [rodata_table]: the gap is -12 and the size 4. *)
Definition rodata_overlap : Symbol :=
  raw_symbol "kOverlap" 4100 4 "r" ".rodata" "obj/base/overlap.o".

Definition text_first : Symbol :=
  raw_symbol "first()" 8192 32 "t" ".text" "obj/base/first.o".

(** 64 bytes after the end of [text_first]. *)
Definition text_far : Symbol :=
  raw_symbol "far()" 8288 8 "t" ".text" "obj/base/far.o".

(** 63 bytes after the end of [text_first]. *)
Definition text_near : Symbol :=
  raw_symbol "near()" 8287 8 "t" ".text" "obj/base/near.o".

Definition vtable_foo : Symbol :=
  raw_symbol "vtable for Foo" 0 0 "d" ".data.rel.ro" "obj/base/foo.o".




(** " for " occurs twice. *)
Definition typeinfo_twice : Symbol :=
  raw_symbol "typeinfo for Wrapper for Foo" 0 0 "d" ".data.rel.ro" "obj/base/w.o".

Definition mangled_foo : Symbol :=
  raw_symbol "_Z3foov" 0 0 "d" ".data" "obj/base/foo.o".

Definition mangled_bar : Symbol :=
  raw_symbol "_Z3barv" 0 0 "d" ".data" "obj/base/bar.o".

(** A demangler that exits with 0 after one line of output. *)
Definition one_line_cxxfilt (stdin : string) : Z * string :=
  (0, "foo()" +:+ String PyStr.LF "").

(** A demangler that exits with 1. *)
Definition failing_cxxfilt (stdin : string) : Z * string := (1, "").

Definition sample_metadata : Metadata :=
  mkMetadata (Some "0123abcd") "libchrome.so.map" "libchrome.so" 1491000000 "9f2e"
    ["is_debug = false"].

Definition sample_args : Args :=
  mkArgs "out/Release/libchrome.so" "chrome.size" None.

Definition sample_sizes : gmap string Z :=
  <[".rodata" := 275]> (<[".text" := 4096]> ∅).

(** The section sizes of an ELF file whose [.text] is one byte longer. *)
Definition sample_sizes_off_by_one : gmap string Z :=
  <[".rodata" := 275]> (<[".text" := 4097]> ∅).

(** Collaborators of a run on a map file with two symbols: [find] is the
    source lookup, [elf_sizes] what readelf reports. *)
Definition sample_collaborators (find : string -> option string)
  (elf_sizes : gmap string Z) : Collaborators :=
  mkCollaborators spec_size_without_padding spec_end_address
    failing_cxxfilt (fun s => (s, s)) find
    (fun _ => Ok (mkSizeInfo sample_sizes [rodata_table; rodata_near] None))
    (fun _ => Ok (sample_sizes, [rodata_table; rodata_near]))
    (Ok "out/Release") (Ok "")
    (fun _ => true)
    (fun _ _ => Ok sample_metadata)
    (fun _ => Ok elf_sizes).

Definition find_in_base (object_path : string) : option string :=
  Some "../../base/table.cc".


Definition find_nothing (object_path : string) : option string := None.

Definition data_flag : Symbol :=
  raw_symbol "kFlag" 20480 4 "d" ".data" "obj/base/flag.o".

(** In the section of [rodata_table], after [data_flag]. *)
Definition rodata_back : Symbol :=
  raw_symbol "kBack" 4400 4 "r" ".rodata" "obj/base/back.o".

(** In the section of [data_flag], after [rodata_back]. *)
Definition data_again : Symbol :=
  raw_symbol "kAgain" 20484 4 "d" ".data" "obj/base/again.o".

(** A zero-size anchor at the address of [rodata_table]. *)
Definition rodata_anchor : Symbol :=
  raw_symbol "kAnchor" 4096 0 "r" ".rodata" "obj/base/anchor.o".




Definition anonymous_table : Symbol :=
  raw_symbol "(anonymous namespace)::kTable" 0 0 "r" ".rodata" "obj/base/table.o".

(** Strips the two characters of the mangling marker. *)
Definition drop_marker (n : string) : string := PyStr.drop 2 n.

(** A member of a static library. *)
Definition archive_member : Symbol :=
  raw_symbol "kMember" 0 0 "r" ".rodata" "obj/base/libbase.a(member.o)".

(** An object path that closes a parenthesis it never opened. *)
Definition stray_paren : Symbol :=
  raw_symbol "kStray" 0 0 "r" ".rodata" "obj/base/stray.o)".

(** A symbol of a prebuilt library outside the output directory. *)
Definition prebuilt_symbol : Symbol :=
  raw_symbol "kPrebuilt" 0 0 "r" ".rodata" "../../third_party/lib/libfoo.a(foo.o)".

(** A snapshot given as the ELF file, and no map file. *)
Definition snapshot_args : Args :=
  mkArgs "out/Release/libchrome.so.size" "out/Release/copy.size" None.

(** What readelf -n prints for a library with a build id. *)
Definition readelf_notes : string :=
  "Displaying notes found in: .note.gnu.build-id" +:+ String PyStr.LF ""
  +:+ "    Build ID: 0a1b2c3d4e5f" +:+ String PyStr.LF "".

(** A process table in which git prints a revision and readelf the notes
    above. *)
Definition sample_check_output (args : list string) : result string :=
  match args with
  | "git" :: _ => Ok ("4f2a9c1" +:+ String PyStr.LF "")
  | _ => Ok readelf_notes
  end.

(** The lines of an args.gn file. *)
Definition sample_args_gn : list string :=
  ["# Build arguments" +:+ String PyStr.LF "";
   "target_os = android  # the target" +:+ String PyStr.LF "";
   "is_debug = true" +:+ String PyStr.LF "";
   String PyStr.LF "";
   "is_debug = false" +:+ String PyStr.LF ""].

(** What readelf -S --wide prints for a library with two sections: the
    entry of index 0 has no name. *)
Definition readelf_sections : string :=
  "Section Headers:" +:+ String PyStr.LF ""
  +:+ "  [Nr] Name Type Address Off Size ES Flg Lk Inf Al" +:+ String PyStr.LF ""
  +:+ "  [ 0]      NULL 0000000000000000 000000 000000 00      0   0  0"
  +:+ String PyStr.LF ""
  +:+ "  [ 1] .text PROGBITS 0000000000001000 001000 001000 00  AX  0   0 16"
  +:+ String PyStr.LF ""
  +:+ "  [ 2] .rodata PROGBITS 0000000000002000 002000 000113 00   A  0   0  8"
  +:+ String PyStr.LF "".

(** Reads the two sizes of [readelf_sections]. *)
Definition sample_int16 (x : string) : result Z :=
  if String.eqb x "001000" then Ok 4096
  else if String.eqb x "000113" then Ok 275
  else Err ValueError.

(** An output of readelf -S --wide whose entry of index 1 stops after
    the address, with the header and the nameless entry before it and an
    entry after it. *)
Definition readelf_truncated : string :=
  "Section Headers:" +:+ String PyStr.LF ""
  +:+ "  [Nr] Name Type Address Off Size ES Flg Lk Inf Al" +:+ String PyStr.LF ""
  +:+ "  [ 0]      NULL 0000000000000000 000000 000000 00      0   0  0"
  +:+ String PyStr.LF ""
  +:+ "  [ 1] .text PROGBITS 0000000000001000"
  +:+ String PyStr.LF ""
  +:+ "  [ 2] .rodata PROGBITS 0000000000002000 002000 000113 00   A  0   0  8"
  +:+ String PyStr.LF "".

(** * Properties *)

(** ** The error monad *)

Lemma bind_Ok {A B} (m : result A) (f : A -> result B) (b : B) :
  m ≫= f = Ok b -> exists a, m = Ok a /\ f a = Ok b.
Proof. destruct m as [a|e]; simpl; [eauto | discriminate]. Qed.

Ltac inv_bind H :=
  let a := fresh "a" in
  let Ha := fresh "Ha" in
  apply bind_Ok in H; destruct H as (a & Ha & H).

Lemma last_cons {A} (l : list A) (x d : A) : List.last (x :: l) d = List.last l x.
Proof.
  revert x d. induction l as [|y l IH]; intros x d; [reflexivity|].
  change (List.last (x :: y :: l) d) with (List.last (y :: l) d).
  rewrite (IH y d). symmetry. apply (IH y x).
Qed.

(** ** The interval reconciler *)

Section ReconcilerProperties.

Variable size_without_padding : Symbol -> Z.
Variable end_address : Symbol -> Z.

Local Abbreviation body := (loop_body size_without_padding end_address).
Local Abbreviation run_loop := (loop size_without_padding end_address).
Local Abbreviation run_pass :=
  (_RemoveDuplicatesAndCalculatePadding size_without_padding end_address).

(** An iteration that does not raise leaves the symbol as it was, or
    attributes the gap to it and the new size is not negative. *)
Lemma loop_body_Ok seen prev symbol seen' symbol' :
  body seen prev symbol = Ok (seen', symbol') ->
  symbol' = symbol
  \/ (symbol' = attribute_gap (address symbol - end_address prev) symbol
      /\ 0 <= size symbol').
Proof.
  unfold loop_body.
  destruct (negb _).
  { destruct (existsb _ _); [discriminate|]. intros [= _ <-]. now left. }
  destruct (_ || _).
  { intros [= _ <-]. now left. }
  destruct (_ && _); [discriminate|].
  destruct (large_padding _ _).
  { intros [= _ <-]. now left. }
  simpl. destruct (Z.ltb_spec (size symbol + (address symbol - end_address prev)) 0);
    [discriminate|].
  intros [= _ <-]. right. split; [reflexivity | simpl; lia].
Qed.

Lemma loop_body_untouched seen prev symbol seen' symbol' :
  body seen prev symbol = Ok (seen', symbol') ->
  untouched_fields symbol' = untouched_fields symbol.
Proof.
  intros H. apply loop_body_Ok in H as [-> | [-> _]]; reflexivity.
Qed.

Lemma loop_body_nonneg seen prev symbol seen' symbol' :
  body seen prev symbol = Ok (seen', symbol') ->
  nonneg_size symbol -> nonneg_size symbol'.
Proof.
  intros H Hs. apply loop_body_Ok in H as [-> | [_ H]]; assumption.
Qed.

Lemma loop_untouched rest : forall seen prev seen' out,
  run_loop seen prev rest = Ok (seen', out) ->
  List.map untouched_fields out = List.map untouched_fields rest.
Proof.
  induction rest as [|symbol rest IH]; intros seen prev seen' out H; simpl in H.
  - now injection H as _ <-.
  - inv_bind H. destruct a as [seen1 symbol1]. simpl in H.
    inv_bind H. destruct a as [seen2 out2]. simpl in H.
    injection H as _ <-. simpl. f_equal.
    + eapply loop_body_untouched; eassumption.
    + eapply IH; eassumption.
Qed.

Lemma loop_nonneg rest : forall seen prev seen' out,
  run_loop seen prev rest = Ok (seen', out) ->
  Forall nonneg_size rest -> Forall nonneg_size out.
Proof.
  induction rest as [|symbol rest IH]; intros seen prev seen' out H Hall; simpl in H.
  - injection H as _ <-. constructor.
  - inv_bind H. destruct a as [seen1 symbol1]. simpl in H.
    inv_bind H. destruct a as [seen2 out2]. simpl in H.
    injection H as _ <-. inversion Hall; subst. constructor.
    + eapply loop_body_nonneg; eassumption.
    + eapply IH; eassumption.
Qed.

(** The pass returns the first symbol followed by what the loop made of
    the others: nothing is removed, since [to_remove] stays empty. *)
Lemma reconcile_Ok first rest g' :
  run_pass (first :: rest) = Ok g' ->
  exists seen out, run_loop [] first rest = Ok (seen, out) /\ g' = first :: out.
Proof.
  unfold _RemoveDuplicatesAndCalculatePadding. intros H.
  inv_bind H. destruct a as [seen out]. simpl in H.
  injection H as <-. eauto.
Qed.

(** The loop over a concatenation: the second part starts from the
    state the first part ends in. *)
Lemma loop_app pre : forall post seen prev,
  run_loop seen prev (pre ++ post) =
  '(seen1, out1) ← run_loop seen prev pre;
  '(seen2, out2) ← run_loop seen1 (List.last out1 prev) post;
  Ok (seen2, out1 ++ out2).
Proof.
  induction pre as [|symbol pre IH]; intros post seen prev.
  - simpl. destruct (run_loop seen prev post) as [[seen2 out2]|e]; reflexivity.
  - change ((symbol :: pre) ++ post) with (symbol :: (pre ++ post)).
    simpl. destruct (body seen prev symbol) as [[seen1 symbol1]|e]; [|reflexivity].
    simpl. rewrite IH.
    destruct (run_loop seen1 symbol1 pre) as [[seen2 out2]|e]; [|reflexivity].
    simpl.
    pose proof (last_cons out2 symbol1 prev) as Hlast. simpl in Hlast. rewrite Hlast.
    destruct (run_loop seen2 (List.last out2 symbol1) post) as [[seen3 out3]|e];
      reflexivity.
Qed.

(** The branch conditions of an iteration that reaches line 181. *)
Lemma loop_body_gap seen prev symbol :
  section_name prev = section_name symbol ->
  0 < address symbol -> 0 < address prev ->
  (address symbol <> address prev \/ size_without_padding prev = 0) ->
  body seen prev symbol =
  let gap := address symbol - end_address prev in
  if large_padding symbol gap then Ok (seen, symbol)
  else if size symbol + gap <? 0 then Err (AssertionError msg_negative_size)
  else Ok (seen, attribute_gap gap symbol).
Proof.
  intros Hsec Hs Hp Hfold. unfold loop_body.
  rewrite Hsec, String.eqb_refl. simpl negb. cbv iota.
  replace (address symbol <=? 0) with false by (symmetry; apply Z.leb_gt; lia).
  replace (address prev <=? 0) with false by (symmetry; apply Z.leb_gt; lia).
  simpl orb. cbv iota.
  replace ((address symbol =? address prev) && negb (size_without_padding prev =? 0))
    with false.
  - reflexivity.
  - symmetry. destruct Hfold as [Hne | Hz].
    + apply Z.eqb_neq in Hne. now rewrite Hne.
    + rewrite Hz. simpl. apply andb_false_r.
Qed.

(** C1: two symbols of one section at the same positive address, the
    earlier one not a zero-size anchor, are meant to be folded into one.
    The pass raises AttributeError instead: [to_remove] is a list (line
    162) and line 177 calls its missing method [add]. *)
Theorem fold_raises_AttributeError (prev symbol : Symbol) :
  section_name prev = section_name symbol ->
  0 < address prev ->
  address symbol = address prev ->
  size_without_padding prev <> 0 ->
  _RemoveDuplicatesAndCalculatePadding size_without_padding end_address [prev; symbol]
  = Err (AttributeError msg_list_add).
Proof.
  intros Hsec Hp Haddr Hswp.
  unfold _RemoveDuplicatesAndCalculatePadding, loop, loop_body.
  rewrite Hsec, String.eqb_refl, Haddr, Z.eqb_refl.
  apply Z.eqb_neq in Hswp. rewrite Hswp.
  replace (address prev <=? 0) with false by (symmetry; apply Z.leb_gt; lia).
  reflexivity.
Qed.

(** Without a leading star in the name the thresholds are 256 in the
    sections of letter r and d, and 64 in those of letter t. *)
Lemma large_padding_threshold (symbol : Symbol) (gap : Z) :
  PyStr.startswith "*" (name symbol) = false ->
  (section symbol = "r" \/ section symbol = "d" ->
   large_padding symbol gap = (256 <=? gap))
  /\ (section symbol = "t" -> large_padding symbol gap = (64 <=? gap)).
Proof.
  intros Hstar. unfold large_padding. rewrite Hstar. cbn [negb andb]. split.
  - intros Hrd.
    assert (PyStr.contains (section symbol) "rd" = true
            /\ PyStr.contains (section symbol) "t" = false) as [-> ->]
      by (destruct Hrd as [-> | ->]; split; reflexivity).
    now rewrite andb_false_l, orb_false_r, andb_true_l.
  - intros ->.
    change (PyStr.contains "t" "rd") with false.
    change (PyStr.contains "t" "t") with true.
    now rewrite andb_false_l, orb_false_l, andb_true_l.
Qed.

(** What an iteration that returns made of a symbol of the section of
    its predecessor, both at positive addresses. *)
Lemma loop_body_same_section seen prev symbol seen' symbol' :
  body seen prev symbol = Ok (seen', symbol') ->
  section_name prev = section_name symbol ->
  0 < address symbol -> 0 < address prev ->
  symbol' = if large_padding symbol (address symbol - end_address prev) then symbol
            else attribute_gap (address symbol - end_address prev) symbol.
Proof.
  intros H Hsec Hs Hp. unfold loop_body in H.
  rewrite Hsec, String.eqb_refl in H. cbn [negb] in H.
  replace (address symbol <=? 0) with false in H by (symmetry; apply Z.leb_gt; lia).
  replace (address prev <=? 0) with false in H by (symmetry; apply Z.leb_gt; lia).
  cbn [orb] in H. destruct (_ && _); [discriminate|]. cbv zeta in H.
  destruct (large_padding _ _); [now injection H as _ <-|].
  destruct (_ <? 0); [discriminate|]. now injection H as _ <-.
Qed.

(** Every symbol that the loop returns is what an iteration made of the
    input symbol at its position, with the returned symbol before it as
    the previous one. *)
Lemma loop_step rest : forall seen prev seen' out,
  run_loop seen prev rest = Ok (seen', out) ->
  forall (i : nat) (a symbol : Symbol),
    (prev :: out) !! i = Some a -> rest !! i = Some symbol ->
    exists (seen1 seen2 : list string) (symbol' : Symbol),
      body seen1 a symbol = Ok (seen2, symbol') /\ out !! i = Some symbol'.
Proof.
  induction rest as [|s rest IH]; intros seen prev seen' out H i a symbol Ha Hs;
    [discriminate|].
  simpl in H.
  destruct (body seen prev s) as [[seen1 s1]|e] eqn:Hbody; [|discriminate]. simpl in H.
  destruct (run_loop seen1 s1 rest) as [[seen2 out2]|e] eqn:Hrest; [|discriminate].
  injection H as _ <-. destruct i as [|i].
  - injection Ha as <-. injection Hs as <-. eauto.
  - exact (IH _ _ _ _ Hrest i a symbol Ha Hs).
Qed.

(** C2: the pass leaves a gap of 256 bytes or more before a symbol of a
    section of letter r or d unattributed and attributes a smaller one (so
    256 is skipped, and 255 becomes the padding and is added to the size);
    in a section of letter t the threshold is 64.  This holds for two
    consecutive symbols of one section at positive addresses, the later
    one not named with a leading star.  First part: the pass on a group
    that ends with such a pair, after a run of symbols that the loop has
    passed, returns the later symbol as it was or with the gap attributed.
    Second part: the same at every position of every group that the pass
    returns. *)
Theorem padding_threshold :
  (forall (first : Symbol) (pre : list Symbol) (symbol : Symbol)
      (seen : list string) (out : list Symbol),
     loop size_without_padding end_address [] first pre = Ok (seen, out) ->
     let prev := List.last out first in
     let gap := address symbol - end_address prev in
     let skipped := Ok (first :: out ++ [symbol]) in
     let attributed := Ok (first :: out ++ [attribute_gap gap symbol]) in
     section_name prev = section_name symbol ->
     0 < address symbol -> 0 < address prev ->
     (address symbol <> address prev \/ size_without_padding prev = 0) ->
     PyStr.startswith "*" (name symbol) = false ->
     (section symbol = "r" \/ section symbol = "d" ->
      (256 <= gap ->
       _RemoveDuplicatesAndCalculatePadding size_without_padding end_address
         (first :: pre ++ [symbol]) = skipped)
      /\ (gap < 256 -> 0 <= size symbol + gap ->
          _RemoveDuplicatesAndCalculatePadding size_without_padding end_address
            (first :: pre ++ [symbol]) = attributed))
     /\ (section symbol = "t" ->
         (64 <= gap ->
          _RemoveDuplicatesAndCalculatePadding size_without_padding end_address
            (first :: pre ++ [symbol]) = skipped)
         /\ (gap < 64 -> 0 <= size symbol + gap ->
             _RemoveDuplicatesAndCalculatePadding size_without_padding end_address
               (first :: pre ++ [symbol]) = attributed)))
  /\ (forall (g g' : SymbolGroup) (i : nat) (prev symbol : Symbol),
        _RemoveDuplicatesAndCalculatePadding size_without_padding end_address g = Ok g' ->
        g' !! i = Some prev -> g !! S i = Some symbol ->
        section_name prev = section_name symbol ->
        0 < address symbol -> 0 < address prev ->
        PyStr.startswith "*" (name symbol) = false ->
        let gap := address symbol - end_address prev in
        (section symbol = "r" \/ section symbol = "d" ->
         (256 <= gap -> g' !! S i = Some symbol)
         /\ (gap < 256 -> g' !! S i = Some (attribute_gap gap symbol)))
        /\ (section symbol = "t" ->
            (64 <= gap -> g' !! S i = Some symbol)
            /\ (gap < 64 -> g' !! S i = Some (attribute_gap gap symbol)))).
Proof.
  split.
  - intros first pre symbol seen out Hpre prev gap skipped attributed
      Hsec Hs Hp Hfold Hstar.
    assert (Hpass :
      _RemoveDuplicatesAndCalculatePadding size_without_padding end_address
        (first :: pre ++ [symbol])
      = if large_padding symbol gap then skipped
        else if size symbol + gap <? 0 then Err (AssertionError msg_negative_size)
        else attributed).
    { unfold _RemoveDuplicatesAndCalculatePadding.
      rewrite loop_app, Hpre. simpl. fold prev.
      rewrite (loop_body_gap seen prev symbol Hsec Hs Hp Hfold). fold gap. cbv zeta.
      destruct (large_padding symbol gap); [reflexivity|].
      destruct (size symbol + gap <? 0); reflexivity. }
    destruct (large_padding_threshold symbol gap Hstar) as [Hrd Ht].
    split.
    + intros Hsection. rewrite Hpass, (Hrd Hsection). split.
      * intros Hge. apply Z.leb_le in Hge. now rewrite Hge.
      * intros Hlt Hsize. apply Z.leb_gt in Hlt. rewrite Hlt.
        apply Z.ltb_ge in Hsize. now rewrite Hsize.
    + intros Hsection. rewrite Hpass, (Ht Hsection). split.
      * intros Hge. apply Z.leb_le in Hge. now rewrite Hge.
      * intros Hlt Hsize. apply Z.leb_gt in Hlt. rewrite Hlt.
        apply Z.ltb_ge in Hsize. now rewrite Hsize.
  - intros g g' i prev symbol H Hprev Hsymbol Hsec Hs Hp Hstar gap.
    destruct g as [|first rest]; [discriminate|].
    apply reconcile_Ok in H as (seen & out & H & ->).
    destruct (loop_step _ _ _ _ _ H i prev symbol Hprev Hsymbol)
      as (seen1 & seen2 & symbol' & Hbody & Hout).
    pose proof (loop_body_same_section _ _ _ _ _ Hbody Hsec Hs Hp) as Hsymbol'.
    fold gap in Hsymbol'. change ((first :: out) !! S i) with (out !! i).
    rewrite Hout, Hsymbol'.
    destruct (large_padding_threshold symbol gap Hstar) as [Hrd Ht].
    split.
    + intros Hsection. rewrite (Hrd Hsection). split.
      * intros Hge. apply Z.leb_le in Hge. now rewrite Hge.
      * intros Hlt. apply Z.leb_gt in Hlt. now rewrite Hlt.
    + intros Hsection. rewrite (Ht Hsection). split.
      * intros Hge. apply Z.leb_le in Hge. now rewrite Hge.
      * intros Hlt. apply Z.leb_gt in Hlt. now rewrite Hlt.
Qed.

(** C3: when no symbol of the input has a negative size, no symbol of a
    group the pass returns has one; and when the loop reaches a symbol
    whose size plus the attributed gap is negative, the whole pass raises
    the assertion of line 200. *)
Theorem reconciler_no_negative_size :
  (forall g g' : SymbolGroup,
     Forall nonneg_size g ->
     _RemoveDuplicatesAndCalculatePadding size_without_padding end_address g = Ok g' ->
     Forall nonneg_size g')
  /\ (forall (first : Symbol) (pre : list Symbol) (symbol : Symbol) (post : list Symbol)
        (seen : list string) (out : list Symbol),
       loop size_without_padding end_address [] first pre = Ok (seen, out) ->
       let prev := List.last out first in
       let gap := address symbol - end_address prev in
       section_name prev = section_name symbol ->
       0 < address symbol -> 0 < address prev ->
       (address symbol <> address prev \/ size_without_padding prev = 0) ->
       large_padding symbol gap = false ->
       size symbol + gap < 0 ->
       _RemoveDuplicatesAndCalculatePadding size_without_padding end_address
         (first :: pre ++ symbol :: post)
       = Err (AssertionError msg_negative_size)).
Proof.
  split.
  - intros [|first rest] g' Hall H.
    + injection H as <-. constructor.
    + apply reconcile_Ok in H as (seen & out & H & ->).
      inversion Hall; subst. constructor; [assumption|].
      eapply loop_nonneg; eassumption.
  - intros first pre symbol post seen out Hpre prev gap Hsec Hs Hp Hfold Hlarge Hneg.
    unfold _RemoveDuplicatesAndCalculatePadding.
    rewrite loop_app, Hpre. simpl.
    fold prev. rewrite (loop_body_gap seen prev symbol Hsec Hs Hp Hfold).
    fold gap. cbv zeta. rewrite Hlarge.
    apply Z.ltb_lt in Hneg. rewrite Hneg. reflexivity.
Qed.

(** C10: the pass assigns only [size] and [padding]: a group it returns
    has the symbols of the input, in the same order, each with the name,
    full_name, address, section, section_name, object_path, source_path
    and is_anonymous it had. *)
Theorem reconciler_frame (g g' : SymbolGroup) :
  _RemoveDuplicatesAndCalculatePadding size_without_padding end_address g = Ok g' ->
  List.map untouched_fields g' = List.map untouched_fields g.
Proof.
  destruct g as [|first rest]; intros H.
  - now injection H as <-.
  - apply reconcile_Ok in H as (seen & out & H & ->).
    simpl. f_equal. eapply loop_untouched; eassumption.
Qed.

End ReconcilerProperties.

Lemma fold_raises_AttributeError_witness :
  spec_size_without_padding rodata_table <> 0
  /\ _RemoveDuplicatesAndCalculatePadding spec_size_without_padding spec_end_address
       [rodata_table; rodata_alias]
     = Err (AttributeError msg_list_add).
Proof.
  split; [discriminate|].
  apply (fold_raises_AttributeError spec_size_without_padding spec_end_address
           rodata_table rodata_alias);
    [reflexivity | reflexivity | reflexivity | discriminate].
Defined.

Lemma padding_threshold_witness :
  _RemoveDuplicatesAndCalculatePadding spec_size_without_padding spec_end_address
    [rodata_table; rodata_far]
  = Ok [rodata_table; rodata_far]
  /\ _RemoveDuplicatesAndCalculatePadding spec_size_without_padding spec_end_address
       [rodata_table; rodata_near]
     = Ok [rodata_table; set_size 259 (set_padding 255 rodata_near)]
  /\ _RemoveDuplicatesAndCalculatePadding spec_size_without_padding spec_end_address
       [text_first; text_far]
     = Ok [text_first; text_far]
  /\ _RemoveDuplicatesAndCalculatePadding spec_size_without_padding spec_end_address
       [text_first; text_near]
     = Ok [text_first; set_size 71 (set_padding 63 text_near)]
  /\ [rodata_table; set_size 259 (set_padding 255 rodata_near)] !! 1%nat
     = Some (set_size 259 (set_padding 255 rodata_near)).
Proof.
  split; [|split; [|split; [|split]]].
  - refine (proj1 (proj1 (proj1 (padding_threshold spec_size_without_padding
                                   spec_end_address)
                            rodata_table [] rodata_far [] [] eq_refl eq_refl eq_refl
                            eq_refl (or_introl _) eq_refl) (or_introl eq_refl)) _);
      [discriminate | vm_compute; discriminate].
  - refine (proj2 (proj1 (proj1 (padding_threshold spec_size_without_padding
                                   spec_end_address)
                            rodata_table [] rodata_near [] [] eq_refl eq_refl eq_refl
                            eq_refl (or_introl _) eq_refl) (or_introl eq_refl))
              eq_refl _);
      [discriminate | vm_compute; discriminate].
  - refine (proj1 (proj2 (proj1 (padding_threshold spec_size_without_padding
                                   spec_end_address)
                            text_first [] text_far [] [] eq_refl eq_refl eq_refl
                            eq_refl (or_introl _) eq_refl) eq_refl) _);
      [discriminate | vm_compute; discriminate].
  - refine (proj2 (proj2 (proj1 (padding_threshold spec_size_without_padding
                                   spec_end_address)
                            text_first [] text_near [] [] eq_refl eq_refl eq_refl
                            eq_refl (or_introl _) eq_refl) eq_refl) eq_refl _);
      [discriminate | vm_compute; discriminate].
  - exact (proj2 (proj1 (proj2 (padding_threshold spec_size_without_padding
                                  spec_end_address)
                           [rodata_table; rodata_near]
                           [rodata_table; set_size 259 (set_padding 255 rodata_near)]
                           0%nat rodata_table rodata_near eq_refl eq_refl eq_refl
                           eq_refl eq_refl eq_refl eq_refl) (or_introl eq_refl))
             eq_refl).
Defined.

Lemma reconciler_no_negative_size_witness :
  Forall nonneg_size [rodata_table; rodata_near]
  /\ Forall nonneg_size [rodata_table; set_size 259 (set_padding 255 rodata_near)]
  /\ _RemoveDuplicatesAndCalculatePadding spec_size_without_padding spec_end_address
       [rodata_table; rodata_overlap]
     = Err (AssertionError msg_negative_size).
Proof.
  assert (Hall : Forall nonneg_size [rodata_table; rodata_near])
    by (repeat constructor; discriminate).
  split; [exact Hall | split].
  - apply (proj1 (reconciler_no_negative_size spec_size_without_padding spec_end_address)
             [rodata_table; rodata_near]);
      [exact Hall | reflexivity].
  - apply (proj2 (reconciler_no_negative_size spec_size_without_padding spec_end_address)
             rodata_table [] rodata_overlap [] [] []);
      [reflexivity | reflexivity | reflexivity | reflexivity | left; discriminate
      | reflexivity | reflexivity].
Defined.

Lemma reconciler_frame_witness :
  _RemoveDuplicatesAndCalculatePadding spec_size_without_padding spec_end_address
    [rodata_table; rodata_near]
  = Ok [rodata_table; set_size 259 (set_padding 255 rodata_near)]
  /\ List.map untouched_fields [rodata_table; set_size 259 (set_padding 255 rodata_near)]
     = List.map untouched_fields [rodata_table; rodata_near].
Proof.
  split; [reflexivity|].
  apply (reconciler_frame spec_size_without_padding spec_end_address
           [rodata_table; rodata_near]).
  reflexivity.
Defined.

(** ** Strings *)

Example find_inside_window : PyStr.find_upto " for " "vtable for Foo" 30 = Some 6%nat.
Proof. reflexivity. Qed.

Example find_outside_window :
  PyStr.find_upto " for " "some::very::long::Qualified for Foo" 30 = None.
Proof. reflexivity. Qed.

Example replace_anonymous :
  PyStr.replace anonymous_namespace "" "a::(anonymous namespace)::b" = "a::b".
Proof. reflexivity. Qed.

Example re_sub_is_greedy : PyStr.re_sub_parens "f(a)::g(b)::h" = "f::h".
Proof. reflexivity. Qed.

Example re_sub_needs_close : PyStr.re_sub_parens "f(a" = "f(a".
Proof. reflexivity. Qed.

Example splitlines_terminators :
  PyStr.splitlines
    ("a" +:+ String PyStr.CR (String PyStr.LF "b") +:+ String PyStr.LF (String PyStr.LF "c"))
  = ["a"; "b"; ""; "c"].
Proof. reflexivity. Qed.

Example object_path_of_archive_member :
  normalize_object_path (raw_symbol "x" 0 0 "d" ".data" "obj/foo/bar.a(baz.o)")
  = Ok (raw_symbol "x" 0 0 "d" ".data" "foo/bar.a/baz.o").
Proof. reflexivity. Qed.

Lemma append_cons (c : ascii) (s t : string) : String c s +:+ t = String c (s +:+ t).
Proof. reflexivity. Qed.


Lemma drop_drop (a b : nat) (s : string) :
  PyStr.drop a (PyStr.drop b s) = PyStr.drop (b + a) s.
Proof.
  revert s. induction b as [|b IH]; intros s; [reflexivity|].
  destruct s as [|c s]; simpl; [now destruct a | apply IH].
Qed.



Lemma startswith_append (p s : string) :
  PyStr.startswith p s = true -> s = p +:+ PyStr.drop (String.length p) s.
Proof.
  revert s. induction p as [|a p IH]; intros s H; [reflexivity|].
  destruct s as [|b s]; [discriminate|]. simpl in H.
  apply andb_true_iff in H as [Hab H]. apply Ascii.eqb_eq in Hab as ->.
  simpl. rewrite append_cons. f_equal. now apply IH.
Qed.




(** No occurrence starts before the position that [find] returns. *)
Lemma find_first (sub s : string) (i : nat) :
  PyStr.find sub s = Some i ->
  forall j : nat, (j < i)%nat -> PyStr.startswith sub (PyStr.drop j s) = false.
Proof.
  revert i. induction s as [|c s IH]; intros i H j Hj.
  - simpl in H. destruct (PyStr.startswith sub ""); [|discriminate].
    injection H as <-. lia.
  - unfold PyStr.find in H; fold PyStr.find in H.
    destruct (PyStr.startswith sub (String c s)) eqn:Hs.
    + injection H as <-. lia.
    + destruct (PyStr.find sub s) as [k|] eqn:Hk; [|discriminate].
      injection H as <-. destruct j as [|j]; [exact Hs|].
      simpl. apply (IH k eq_refl). lia.
Qed.


(** A string without the token is left as it is by [replace]. *)
Lemma replace_absent (old new s : string) :
  PyStr.contains old s = false -> PyStr.replace old new s = s.
Proof.
  unfold PyStr.contains, PyStr.replace.
  induction s as [|c s IH]; intros H; [reflexivity|].
  unfold PyStr.find in H; fold PyStr.find in H.
  simpl PyStr.replace_aux.
  destruct (PyStr.startswith old (String c s)); [discriminate|].
  f_equal. apply IH. now destruct (PyStr.find old s).
Qed.

(** ** The name normalizer *)

Lemma set_full_name_same (s : Symbol) (v : string) :
  full_name s = v -> set_full_name v s = s.
Proof. intros <-. now destruct s. Qed.

Section NormalizerProperties.

Variable Parse : string -> string * string.

Local Abbreviation rename s := (snd (normalize_symbol Parse ∅ s)).

Lemma move_prefix_snd sep fp fp' symbol :
  snd (move_prefix sep fp symbol) = snd (move_prefix sep fp' symbol).
Proof. unfold move_prefix. now destruct (PyStr.find_upto _ _ _). Qed.

Lemma move_prefix_None sep fp symbol :
  PyStr.find_upto sep (name symbol) 30 = None ->
  move_prefix sep fp symbol = (fp, symbol).
Proof. unfold move_prefix. now intros ->. Qed.

(** The symbol that an iteration leaves does not depend on the prefixes
    found so far. *)
Lemma normalize_symbol_snd fp symbol :
  snd (normalize_symbol Parse fp symbol) =
  if PyStr.startswith "*" (name symbol) then symbol
  else drop_same_full_name
         (strip_parens
            (remove_anonymous
               (parse_signature Parse
                  (snd (move_prefix " to " fp
                          (snd (move_prefix " for " fp symbol))))))).
Proof.
  unfold normalize_symbol. destruct (PyStr.startswith "*" (name symbol)); [reflexivity|].
  destruct (move_prefix " for " fp symbol) as [fp1 s1] eqn:E1.
  destruct (move_prefix " to " fp1 s1) as [fp2 s2] eqn:E2.
  simpl. rewrite (move_prefix_snd " to " fp fp1), E2. reflexivity.
Qed.

Lemma normalize_symbol_irrelevant fp fp' symbol :
  snd (normalize_symbol Parse fp symbol) = snd (normalize_symbol Parse fp' symbol).
Proof.
  rewrite !normalize_symbol_snd.
  destruct (PyStr.startswith "*" (name symbol)); [reflexivity|].
  now rewrite (move_prefix_snd " for " fp fp'), (move_prefix_snd " to " fp fp').
Qed.

Lemma normalize_loop_snd g : forall fp,
  snd (normalize_loop Parse fp g) = List.map (fun s => rename s) g.
Proof.
  induction g as [|symbol g IH]; intros fp; [reflexivity|].
  simpl. destruct (normalize_symbol Parse fp symbol) as [fp1 s1] eqn:E1.
  specialize (IH fp1). destruct (normalize_loop Parse fp1 g) as [fp2 g2].
  simpl in *. rewrite IH. f_equal.
  rewrite (normalize_symbol_irrelevant ∅ fp), E1. reflexivity.
Qed.

Lemma NormalizeNames_map g :
  _NormalizeNames Parse g = List.map (fun s => rename s) g.
Proof. apply normalize_loop_snd. Qed.

(** The symbol at a position of the returned group is what the pass
    makes of the symbol at that position of the input. *)
Lemma NormalizeNames_lookup (g : SymbolGroup) (i : nat) :
  _NormalizeNames Parse g !! i = (fun s => rename s) <$> g !! i.
Proof.
  rewrite NormalizeNames_map. revert i.
  induction g as [|s g IH]; intros [|i]; cbn [List.map]; [reflexivity.. | apply IH].
Qed.

(** After the last rule the full name is empty or differs from the name. *)
Lemma drop_same_full_name_post (s : Symbol) :
  String.eqb (full_name (drop_same_full_name s)) (name (drop_same_full_name s)) = true ->
  full_name (drop_same_full_name s) = "".
Proof.
  unfold drop_same_full_name.
  destruct (String.eqb (full_name s) (name s)) eqn:E; [reflexivity|].
  rewrite E. discriminate.
Qed.

(** A pass is the identity on a stable symbol whose full name a pass
    already cleared. *)
Lemma rename_stable (s : Symbol) :
  stable s ->
  (String.eqb (full_name s) (name s) = true -> full_name s = "") ->
  rename s = s.
Proof.
  intros Hstable Hpost. rewrite normalize_symbol_snd.
  destruct (PyStr.startswith "*" (name s)) eqn:Hstar; [reflexivity|].
  destruct Hstable as [Hs | [Hsec Hset]]; [congruence|].
  unfold settled in Hset.
  destruct (PyStr.find_upto " for " (name s) 30) eqn:Hfor; [discriminate|].
  destruct (PyStr.find_upto " to " (name s) 30) eqn:Hto; [discriminate|].
  apply andb_true_iff in Hset as [Hanon Hparen].
  apply negb_true_iff in Hanon, Hparen.
  rewrite (move_prefix_None " for " _ _ Hfor). simpl snd.
  rewrite (move_prefix_None " to " _ _ Hto). simpl snd.
  apply String.eqb_neq in Hsec.
  unfold parse_signature. rewrite Hsec.
  unfold remove_anonymous. rewrite (replace_absent _ _ _ Hanon), String.eqb_refl.
  simpl negb. cbv iota.
  unfold strip_parens. rewrite Hparen, andb_false_r.
  unfold drop_same_full_name.
  destruct (String.eqb (full_name s) (name s)) eqn:E; [|reflexivity].
  apply set_full_name_same. now apply Hpost.
Qed.

Lemma rename_post (s : Symbol) :
  PyStr.startswith "*" (name (rename s)) = false ->
  String.eqb (full_name (rename s)) (name (rename s)) = true ->
  full_name (rename s) = "".
Proof.
  rewrite normalize_symbol_snd.
  destruct (PyStr.startswith "*" (name s)) eqn:Hstar; [congruence|].
  intros _. apply drop_same_full_name_post.
Qed.

Lemma rename_idempotent (s : Symbol) : stable (rename s) -> rename (rename s) = rename s.
Proof.
  intros Hstable.
  destruct (PyStr.startswith "*" (name (rename s))) eqn:Hstar.
  - rewrite (normalize_symbol_snd ∅ (rename s)), Hstar. reflexivity.
  - apply rename_stable; [exact Hstable | now apply rename_post].
Qed.




(** C6 (amended): a second pass of the name normalizer leaves unchanged
    every symbol that the first pass returned stable, whatever the other
    symbols of the group are: a symbol is stable when its name starts with
    a star, or when it lies outside the code sections and its name has no
    " for " or " to " inside the first 30 characters, no
    anonymous-namespace token and no parenthesis. *)
Theorem normalizer_idempotent_on_stable (g : SymbolGroup) (i : nat) (s' : Symbol) :
  _NormalizeNames Parse g !! i = Some s' ->
  stable s' ->
  _NormalizeNames Parse (_NormalizeNames Parse g) !! i = Some s'.
Proof.
  intros Hs' Hstable. rewrite NormalizeNames_lookup, Hs'. cbn [fmap option_fmap option_map].
  rewrite NormalizeNames_lookup in Hs'.
  destruct (g !! i) as [s|]; [|discriminate]. injection Hs' as <-.
  now rewrite rename_idempotent.
Qed.


End NormalizerProperties.

Lemma normalizer_idempotent_on_stable_witness :
  _NormalizeNames (fun s => (s, s)) [text_first; vtable_foo; typeinfo_twice] !! 1%nat
  = Some (set_name "Foo [vtable]" vtable_foo)
  /\ stable (set_name "Foo [vtable]" vtable_foo)
  /\ _NormalizeNames (fun s => (s, s))
       (_NormalizeNames (fun s => (s, s)) [text_first; vtable_foo; typeinfo_twice])
     !! 1%nat
     = Some (set_name "Foo [vtable]" vtable_foo).
Proof.
  assert (Hstable : stable (set_name "Foo [vtable]" vtable_foo))
    by (right; split; [discriminate | reflexivity]).
  split; [reflexivity | split; [exact Hstable|]].
  exact (normalizer_idempotent_on_stable (fun s => (s, s))
           [text_first; vtable_foo; typeinfo_twice] 1%nat
           (set_name "Foo [vtable]" vtable_foo) eq_refl Hstable).
Defined.

(** The claim's idempotence fails on a name with two " for ". *)
Lemma normalizer_not_idempotent :
  (forall Parse : string -> string * string,
     List.map name (_NormalizeNames Parse [typeinfo_twice])
     = ["Wrapper for Foo [typeinfo]"])
  /\ (forall Parse : string -> string * string,
        List.map name (_NormalizeNames Parse (_NormalizeNames Parse [typeinfo_twice]))
        = ["Foo [typeinfo] [Wrapper]"]).
Proof. split; intros Parse; reflexivity. Qed.



(** ** The unmangler *)

(** [enumerate] from a first position [a] on. *)
Lemma enumerate_from_lookup {A} (l : list A) : forall (a k pos : nat) (x : A),
  List.combine (List.seq a (length l)) l !! k = Some (pos, x) <->
  pos = (a + k)%nat /\ l !! k = Some x.
Proof.
  induction l as [|y l IH]; intros a k pos x; simpl.
  - split; [discriminate | intros [_ H]; discriminate].
  - destruct k as [|k]; simpl.
    + split; [intros [= <- <-]; split; [lia | reflexivity]
             | intros [-> [= <-]]; do 2 f_equal; lia].
    + rewrite IH. split; intros [-> H]; (split; [lia | exact H]).
Qed.

Lemma enumerate_elem_of {A} (l : list A) (pos : nat) (x : A) :
  (pos, x) ∈ enumerate l <-> l !! pos = Some x.
Proof.
  unfold enumerate. rewrite list_elem_of_lookup. split.
  - intros [k H]. apply enumerate_from_lookup in H as [-> H]. exact H.
  - intros H. exists pos. apply enumerate_from_lookup. split; [reflexivity | exact H].
Qed.

Lemma filter_elem_of {A} (P : A -> bool) (l : list A) (x : A) :
  x ∈ List.filter P l <-> x ∈ l /\ P x = true.
Proof. rewrite !list_elem_of_In. apply List.filter_In. Qed.

(** The positions kept by a filter of [enumerate] are distinct. *)
Lemma filter_enumerate_NoDup {A} (P : nat * A -> bool) (l : list A) : forall a : nat,
  NoDup (fst <$> List.filter P (List.combine (List.seq a (length l)) l))
  /\ (forall pos : nat,
        pos ∈ fst <$> List.filter P (List.combine (List.seq a (length l)) l) ->
        (a <= pos)%nat).
Proof.
  induction l as [|y l IH]; intros a; simpl.
  - split; [constructor | intros pos H; inversion H].
  - destruct (IH (S a)) as [Hnd Hge].
    destruct (P (a, y)); simpl.
    + split.
      * constructor; [|exact Hnd]. intros H. apply Hge in H. lia.
      * intros pos H. apply elem_of_cons in H as [-> | H]; [lia|].
        apply Hge in H. lia.
    + split; [exact Hnd|]. intros pos H. apply Hge in H. lia.
Qed.

Section UnmanglerProperties.

Variable cxxfilt : string -> Z * string.

Lemma to_process_NoDup (g : SymbolGroup) : NoDup (fst <$> to_process_of g).
Proof. apply (filter_enumerate_NoDup _ g 0). Qed.

Lemma to_process_elem_of (g : SymbolGroup) (pos : nat) (symbol : Symbol) :
  (pos, symbol) ∈ to_process_of g <->
  g !! pos = Some symbol /\ PyStr.startswith "_Z" (name symbol) = true.
Proof.
  unfold to_process_of. rewrite filter_elem_of, enumerate_elem_of. reflexivity.
Qed.

(** More lines than symbols to rename: [to_process[i]] raises. *)
Lemma assign_lines_overflow (tp : list nat) (lines : list string) :
  forall (i : nat) (g : SymbolGroup),
  (i <= length tp)%nat -> (length tp < i + length lines)%nat ->
  assign_lines tp i lines g = Err IndexError.
Proof.
  induction lines as [|line lines IH]; intros i g Hi Hlen; simpl in *; [lia|].
  destruct (tp !! i) as [pos|] eqn:Hpos; [|reflexivity].
  apply IH; [|lia]. apply lookup_lt_Some in Hpos. lia.
Qed.

(** At most as many lines as symbols to rename: the loop ends, line
    [j - i] went to the symbol at [tp[j]], nothing else changed. *)
Lemma assign_lines_Ok (tp : list nat) (lines : list string) :
  NoDup tp ->
  forall (i : nat) (g : SymbolGroup),
  (i + length lines <= length tp)%nat ->
  exists g' : SymbolGroup,
    assign_lines tp i lines g = Ok g'
    /\ length g' = length g
    /\ (forall j pos : nat,
          tp !! j = Some pos ->
          g' !! pos =
          if decide (i <= j)%nat
          then match lines !! (j - i)%nat with
               | Some line => set_name line <$> g !! pos
               | None => g !! pos
               end
          else g !! pos)
    /\ (forall pos : nat, pos ∉ tp -> g' !! pos = g !! pos).
Proof.
  intros Hnd. induction lines as [|line lines IH]; intros i g Hlen; simpl in *.
  - exists g. split; [reflexivity | split; [reflexivity | split]].
    + intros j pos _. now destruct (decide _).
    + reflexivity.
  - destruct (tp !! i) as [p|] eqn:Hp;
      [|apply lookup_ge_None in Hp; lia].
    destruct (IH (S i) (alter (set_name line) p g)) as (g' & Hrun & Hlen' & Hin & Hout);
      [lia|].
    exists g'. split; [exact Hrun | split; [|split]].
    + now rewrite Hlen', length_alter.
    + intros j pos Hj. rewrite (Hin j pos Hj).
      destruct (decide (j = i)) as [-> | Hne].
      * assert (pos = p) as -> by congruence.
        destruct (decide (S i <= i)%nat); [lia|].
        destruct (decide (i <= i)%nat); [|lia].
        rewrite Nat.sub_diag. simpl. apply list_lookup_alter_eq.
      * assert (pos <> p) as Hpos
          by (intros ->; apply Hne; eapply NoDup_lookup; eassumption).
        rewrite list_lookup_alter_ne by congruence.
        destruct (decide (S i <= j)%nat), (decide (i <= j)%nat); try lia; [|reflexivity].
        replace (j - i)%nat with (S (j - S i)) by lia. reflexivity.
    + intros pos Hpos. rewrite (Hout pos Hpos).
      apply list_lookup_alter_ne. intros ->. apply Hpos.
      eapply list_elem_of_lookup_2, Hp.
Qed.

(** C8 (amended): when some symbol is to be unmangled, one c++filt
    process is spawned and no second one, whatever the outcome.  A
    non-zero exit code raises the assertion of line 47.  More output lines
    than submitted names raise IndexError at line 50.  Fewer output lines
    (or as many) are not detected: the call returns, line [i] is the name
    of the symbol at [to_process[i]], and every other symbol, the later
    mangled ones included, is as it was. *)
Theorem unmangle_contract (g : SymbolGroup) :
  to_process_of g <> [] ->
  let to_process := to_process_of g in
  let stdin := PyStr.join (String PyStr.LF "") ((fun p => name (snd p)) <$> to_process) in
  let returncode := fst (cxxfilt stdin) in
  let lines := PyStr.splitlines (snd (cxxfilt stdin)) in
  let outcome := snd (_UnmangleRemainingSymbols cxxfilt g) in
  fst (_UnmangleRemainingSymbols cxxfilt g) = [stdin]
  /\ (returncode <> 0 -> outcome = Err (AssertionError ""))
  /\ (returncode = 0 -> (length to_process < length lines)%nat ->
      outcome = Err IndexError)
  /\ (returncode = 0 -> (length lines <= length to_process)%nat ->
      exists g' : SymbolGroup,
        outcome = Ok g'
        /\ length g' = length g
        /\ (forall (i pos : nat) (symbol : Symbol),
              to_process !! i = Some (pos, symbol) ->
              g' !! pos = Some (match lines !! i with
                                | Some line => set_name line symbol
                                | None => symbol
                                end))
        /\ (forall (pos : nat) (symbol : Symbol),
              g !! pos = Some symbol ->
              PyStr.startswith "_Z" (name symbol) = false ->
              g' !! pos = Some symbol)).
Proof.
  intros Hne to_process stdin returncode lines outcome.
  subst outcome lines returncode stdin to_process.
  unfold _UnmangleRemainingSymbols.
  destruct (to_process_of g) as [|p tp] eqn:Htp; [congruence|].
  cbv zeta.
  destruct (cxxfilt _) as [rc out] eqn:Hrun. cbn [fst snd].
  split; [reflexivity|]. split; [|split].
  - intros Hrc. apply Z.eqb_neq in Hrc. now rewrite Hrc.
  - intros -> Hlen. simpl negb. cbv iota.
    apply assign_lines_overflow; [lia|]. rewrite length_fmap. simpl. exact Hlen.
  - intros -> Hlen. simpl negb. cbv iota.
    destruct (assign_lines_Ok (fst <$> p :: tp) (PyStr.splitlines out)) with (i := 0%nat) (g := g)
      as (g' & Hrun' & Hlen' & Hin & Hout).
    { rewrite <- Htp. apply to_process_NoDup. }
    { rewrite length_fmap. simpl. exact Hlen. }
    exists g'. split; [exact Hrun' | split; [exact Hlen' | split]].
    + intros i pos symbol Hi.
      assert (Hpos : (fst <$> p :: tp) !! i = Some pos)
        by (rewrite list_lookup_fmap, Hi; reflexivity).
      rewrite (Hin i pos Hpos).
      destruct (decide (0 <= i)%nat); [|lia]. rewrite Nat.sub_0_r.
      assert (Hg : g !! pos = Some symbol).
      { apply list_elem_of_lookup_2 in Hi. rewrite <- Htp in Hi.
        now apply to_process_elem_of in Hi. }
      rewrite Hg. now destruct (PyStr.splitlines out !! i).
    + intros pos symbol Hg Hname. rewrite <- Hg. apply Hout.
      intros Hin'. apply list_elem_of_fmap in Hin' as ([pos' s'] & -> & Hin').
      rewrite <- Htp in Hin'. apply to_process_elem_of in Hin' as [Hg' Hname'].
      simpl in Hg. congruence.
Qed.

End UnmanglerProperties.

Lemma unmangle_contract_witness :
  to_process_of [mangled_foo; mangled_bar] <> []
  /\ fst (_UnmangleRemainingSymbols failing_cxxfilt [mangled_foo; mangled_bar])
     = ["_Z3foov" +:+ String PyStr.LF "_Z3barv"]
  /\ snd (_UnmangleRemainingSymbols failing_cxxfilt [mangled_foo; mangled_bar])
     = Err (AssertionError "").
Proof.
  assert (H : to_process_of [mangled_foo; mangled_bar] <> []) by discriminate.
  split; [exact H|].
  pose proof (unmangle_contract failing_cxxfilt [mangled_foo; mangled_bar] H) as Hc.
  cbv zeta in Hc. destruct Hc as (Hspawn & Hexit & _).
  split; [exact Hspawn|]. apply Hexit. discriminate.
Defined.

(** One output line for two submitted names: the call returns, and the
    second symbol keeps its mangled name. *)
Lemma unmangle_fewer_lines_not_fatal :
  length (to_process_of [mangled_foo; mangled_bar]) = 2%nat
  /\ fst (one_line_cxxfilt ("_Z3foov" +:+ String PyStr.LF "_Z3barv")) = 0
  /\ length (PyStr.splitlines
               (snd (one_line_cxxfilt ("_Z3foov" +:+ String PyStr.LF "_Z3barv")))) = 1%nat
  /\ snd (_UnmangleRemainingSymbols one_line_cxxfilt [mangled_foo; mangled_bar])
     = Ok [set_name "foo()" mangled_foo; mangled_bar].
Proof. repeat split. Qed.

(** ** The pipeline *)

Lemma validate_section_sizes_Ok (items : list (string * Z)) (sizes : gmap string Z) :
  Forall (fun kv => sizes !! fst kv = Some (snd kv)) items ->
  validate_section_sizes items sizes = Ok tt.
Proof.
  induction 1 as [|[k v] items Hkv _ IH]; [reflexivity|].
  simpl in *. rewrite Hkv, Z.eqb_refl. exact IH.
Qed.

Lemma validate_section_sizes_Err (items : list (string * Z)) (sizes : gmap string Z) :
  Exists (fun kv => sizes !! fst kv <> Some (snd kv)) items ->
  validate_section_sizes items sizes = Err (AssertionError msg_elf_mismatch).
Proof.
  induction items as [|[k v] items IH]; intros H; [inversion H|].
  simpl. destruct (sizes !! k) as [v'|] eqn:Hk; [|reflexivity].
  destruct (Z.eqb_spec v v') as [->|Hne]; [|reflexivity].
  apply IH. inversion H as [? ? Hhd | ? ? Htl]; subst; [|exact Htl].
  simpl in Hhd. congruence.
Qed.

Lemma validate_section_sizes_inv (items : list (string * Z)) (sizes : gmap string Z) u :
  validate_section_sizes items sizes = Ok u ->
  Forall (fun kv => sizes !! fst kv = Some (snd kv)) items.
Proof.
  induction items as [|[k v] items IH]; intros H; [constructor|].
  simpl in H. destruct (sizes !! k) as [v'|] eqn:Hk; [|discriminate].
  destruct (Z.eqb_spec v v') as [->|Hne]; [|discriminate].
  constructor; [exact Hk | now apply IH].
Qed.

Section PipelineProperties.

Variable c : Collaborators.

(** [main] on a fresh ELF input, once the map file is chosen, the
    metadata assembled and the map analysed. *)
Lemma main_fresh (args : Args) (path : string) (m : Metadata) (size_info : SizeInfo) :
  PyStr.truthy (elf_file args) = true ->
  PyStr.endswith ".size" (elf_file args) = false ->
  PyStr.endswith ".size" (output_file args) = true ->
  choose_map_file_path c args = Ok (Some path) ->
  ConstructMetadata c args path = Ok m ->
  Analyze c path = Ok size_info ->
  main c args =
  elf_section_sizes ← _SectionSizesFromElf c (elf_file args);
  _ ← validate_section_sizes (map_to_list elf_section_sizes) (section_sizes size_info);
  Ok (with_metadata size_info (Some m)).
Proof.
  intros Htruthy Hfresh Hout Hpath Hmeta Hanalyze. unfold main.
  rewrite Hout, Hpath, Htruthy, Hfresh. simpl. rewrite Hmeta. simpl.
  rewrite Hanalyze. simpl.
  destruct (_SectionSizesFromElf c (elf_file args)) as [elf|e]; [|reflexivity].
  simpl. now destruct (validate_section_sizes _ _).
Qed.

(** C4: on a run on a fresh ELF file for which readelf reports the
    section sizes [elf_sizes], a snapshot is saved only if every reported
    size equals the entry of that name in [section_sizes]; when some
    reported size differs from the entry or the entry is absent, [main]
    raises the assertion of line 359 and saves nothing; when all agree,
    the snapshot is saved. *)
Theorem section_size_mismatch_aborts (args : Args) (elf_sizes : gmap string Z) :
  PyStr.truthy (elf_file args) = true ->
  PyStr.endswith ".size" (elf_file args) = false ->
  _SectionSizesFromElf c (elf_file args) = Ok elf_sizes ->
  (forall saved : SizeInfo,
     main c args = Ok saved ->
     forall (k : string) (v : Z),
       elf_sizes !! k = Some v -> section_sizes saved !! k = Some v)
  /\ (forall (path : string) (m : Metadata) (size_info : SizeInfo),
        PyStr.endswith ".size" (output_file args) = true ->
        choose_map_file_path c args = Ok (Some path) ->
        ConstructMetadata c args path = Ok m ->
        Analyze c path = Ok size_info ->
        ((exists (k : string) (v : Z),
            elf_sizes !! k = Some v /\ section_sizes size_info !! k <> Some v) ->
         main c args = Err (AssertionError msg_elf_mismatch))
        /\ ((forall (k : string) (v : Z),
               elf_sizes !! k = Some v -> section_sizes size_info !! k = Some v) ->
            main c args = Ok (with_metadata size_info (Some m)))).
Proof.
  intros Htruthy Hfresh Helf. split.
  - intros saved Hmain k v Hk. unfold main in Hmain.
    destruct (negb (PyStr.endswith ".size" (output_file args))); [discriminate|].
    destruct (choose_map_file_path c args) as [map_file_path|e]; [|discriminate].
    rewrite Htruthy, Hfresh in Hmain. simpl in Hmain.
    destruct (ConstructMetadata c args (default "" map_file_path)) as [m|e];
      [|discriminate].
    destruct map_file_path as [path|]; [|discriminate]. simpl in Hmain.
    destruct (Analyze c path) as [size_info|e]; [|discriminate]. simpl in Hmain.
    rewrite Helf in Hmain. simpl in Hmain.
    destruct (validate_section_sizes _ _) as [u|e] eqn:Hval; [|discriminate].
    injection Hmain as <-.
    apply validate_section_sizes_inv in Hval.
    rewrite Forall_forall in Hval.
    apply (Hval (k, v)). now apply elem_of_map_to_list.
  - intros path m size_info Hout Hpath Hmeta Hanalyze.
    rewrite (main_fresh args path m size_info Htruthy Hfresh Hout Hpath Hmeta Hanalyze).
    rewrite Helf. simpl. split.
    + intros (k & v & Hk & Hne).
      rewrite validate_section_sizes_Err; [reflexivity|].
      apply Exists_exists. exists (k, v). split; [|exact Hne].
      now apply elem_of_map_to_list.
    + intros Hall. rewrite validate_section_sizes_Ok; [reflexivity|].
      apply Forall_forall. intros [k v] Hkv. apply Hall.
      now apply elem_of_map_to_list in Hkv.
Qed.

End PipelineProperties.

Lemma section_size_mismatch_aborts_witness :
  _SectionSizesFromElf (sample_collaborators find_in_base sample_sizes_off_by_one)
    (elf_file sample_args) = Ok sample_sizes_off_by_one
  /\ main (sample_collaborators find_in_base sample_sizes_off_by_one) sample_args
     = Err (AssertionError msg_elf_mismatch)
  /\ is_ok (main (sample_collaborators find_in_base sample_sizes) sample_args) = true.
Proof.
  split; [reflexivity|]. split.
  - pose proof (section_size_mismatch_aborts
                  (sample_collaborators find_in_base sample_sizes_off_by_one)
                  sample_args sample_sizes_off_by_one eq_refl eq_refl eq_refl) as [_ H].
    edestruct (H "out/Release/libchrome.so.map" sample_metadata) as [Hbad _];
      [reflexivity | reflexivity | reflexivity | vm_compute; reflexivity |].
    apply Hbad. exists ".text", 4097. split; [reflexivity | vm_compute; discriminate].
  - pose proof (section_size_mismatch_aborts
                  (sample_collaborators find_in_base sample_sizes)
                  sample_args sample_sizes eq_refl eq_refl eq_refl) as [_ H].
    edestruct (H "out/Release/libchrome.so.map" sample_metadata) as [_ Hgood];
      [reflexivity | reflexivity | reflexivity | vm_compute; reflexivity |].
    rewrite Hgood; [reflexivity|].
    intros k v Hk. vm_compute in Hk |- *. exact Hk.
Defined.

(** ** What each pass leaves alone *)

Lemma map_fmap {A B} (f : A -> B) (l : list A) : List.map f l = f <$> l.
Proof. induction l as [|x l IH]; [reflexivity | simpl; now rewrite IH]. Qed.

Lemma fmap_factor {A B C} (f : A -> B) (h : B -> C) (k : A -> C) (l l' : list A) :
  (forall x : A, k x = h (f x)) ->
  f <$> l = f <$> l' -> k <$> l = k <$> l'.
Proof.
  intros Hk H.
  rewrite (list_fmap_ext k (h ∘ f) l) by (intros; apply Hk).
  rewrite (list_fmap_ext k (h ∘ f) l') by (intros; apply Hk).
  now rewrite !list_fmap_compose, H.
Qed.

Lemma fmap_eq_elem_of {A B} (f : A -> B) (l l' : list A) (x : A) :
  f <$> l' = f <$> l -> x ∈ l -> exists x' : A, x' ∈ l' /\ f x' = f x.
Proof.
  intros H Hx. apply (list_elem_of_fmap_2 f) in Hx. rewrite <- H in Hx.
  apply list_elem_of_fmap in Hx as (x' & Hfx & Hx'). eauto.
Qed.

Lemma reconcile_untouched swp ea (g g' : SymbolGroup) :
  _RemoveDuplicatesAndCalculatePadding swp ea g = Ok g' ->
  untouched_fields <$> g' = untouched_fields <$> g.
Proof.
  rewrite <- !map_fmap. destruct g as [|first rest]; intros H.
  - now injection H as <-.
  - apply reconcile_Ok in H as (seen & out & H & ->).
    simpl. f_equal. eapply loop_untouched; eassumption.
Qed.

Lemma reconcile_paths swp ea (g g' : SymbolGroup) :
  _RemoveDuplicatesAndCalculatePadding swp ea g = Ok g' ->
  path_fields <$> g' = path_fields <$> g.
Proof.
  intros H. apply reconcile_untouched in H.
  refine (fmap_factor untouched_fields
            (fun '(_, _, _, _, _, o, sp, _) => (o, sp)) path_fields _ _ _ H).
  reflexivity.
Qed.


(** Renaming keeps the paths. *)
Lemma assign_lines_paths (tp : list nat) (lines : list string) :
  forall (i : nat) (g g' : SymbolGroup),
  assign_lines tp i lines g = Ok g' ->
  path_fields <$> g' = path_fields <$> g.
Proof.
  induction lines as [|line lines IH]; intros i g g' H; simpl in H.
  - now injection H as <-.
  - destruct (tp !! i) as [p|]; [|discriminate].
    rewrite (IH _ _ _ H).
    rewrite (list_fmap_alter path_fields (set_name line) id)
      by (apply Forall_forall; reflexivity).
    now apply list_alter_id.
Qed.

Lemma unmangle_paths cxxfilt (g g' : SymbolGroup) :
  snd (_UnmangleRemainingSymbols cxxfilt g) = Ok g' ->
  path_fields <$> g' = path_fields <$> g.
Proof.
  unfold _UnmangleRemainingSymbols.
  destruct (to_process_of g) as [|p tp].
  - simpl. now intros [= <-].
  - cbv zeta. destruct (cxxfilt _) as [rc out]. cbn [snd].
    destruct (negb (rc =? 0)); [discriminate|]. apply assign_lines_paths.
Qed.

(** Without a mangled name no process is spawned and nothing changes. *)
Lemma unmangle_nothing cxxfilt (g : SymbolGroup) :
  Forall (fun n => PyStr.startswith "_Z" n = false) (name <$> g) ->
  _UnmangleRemainingSymbols cxxfilt g = ([], Ok g).
Proof.
  intros Hall. unfold _UnmangleRemainingSymbols.
  destruct (to_process_of g) as [|[pos s] tp] eqn:Htp; [reflexivity|].
  assert (Hin : (pos, s) ∈ to_process_of g) by (rewrite Htp; left).
  apply to_process_elem_of in Hin as [Hg Hname].
  rewrite Forall_fmap, Forall_forall in Hall.
  apply list_elem_of_lookup_2 in Hg. apply Hall in Hg.
  unfold compose in Hg. congruence.
Qed.

Section SourcePathsProperties.

Variable find : string -> option string.

Lemma extract_source_path_core af s :
  core_fields (snd (extract_source_path find af s)) = core_fields s.
Proof.
  unfold extract_source_path.
  destruct (_ || _); [reflexivity|].
  destruct (negb _); [|reflexivity].
  destruct (find (object_path s)) as [sp|]; [|reflexivity].
  now destruct (PyStr.truthy sp).
Qed.

Lemma extract_loop_core g : forall af,
  core_fields <$> snd (extract_loop find af g) = core_fields <$> g.
Proof.
  induction g as [|s g IH]; intros af; [reflexivity|].
  cbn [extract_loop]. pose proof (extract_source_path_core af s) as Hs.
  destruct (extract_source_path find af s) as [af1 s1].
  specialize (IH af1). destruct (extract_loop find af1 g) as [af2 g2].
  cbn [snd] in *. rewrite !fmap_cons. now rewrite Hs, IH.
Qed.

Lemma extract_loop_false g : fst (extract_loop find false g) = false.
Proof.
  induction g as [|s g IH]; [reflexivity|].
  simpl.
  assert (Hs : fst (extract_source_path find false s) = false).
  { unfold extract_source_path.
    destruct (_ || _); [reflexivity|].
    destruct (negb _); [|reflexivity].
    destruct (find (object_path s)) as [sp|]; [|reflexivity].
    now destruct (PyStr.truthy sp). }
  destruct (extract_source_path find false s) as [af1 s1]. simpl in Hs. subst af1.
  destruct (extract_loop find false g) as [af2 g2]. exact IH.
Qed.

Lemma extract_source_path_unresolved af s :
  unresolved find s -> fst (extract_source_path find af s) = false.
Proof.
  intros (Hsp & Hop & Hdots & Hfind). unfold extract_source_path.
  rewrite Hsp, Hop, Hdots. simpl.
  destruct (find (object_path s)) as [sp|] eqn:E; [|reflexivity].
  now rewrite (Hfind sp eq_refl).
Qed.

(** One unresolved symbol makes [all_found] false. *)
Lemma extract_loop_unresolved g : forall af s,
  s ∈ g -> unresolved find s -> fst (extract_loop find af g) = false.
Proof.
  induction g as [|x g IH]; intros af s Hin Hs; [inversion Hin|].
  simpl. apply elem_of_cons in Hin as [<- | Hin].
  - pose proof (extract_source_path_unresolved af s Hs) as Hx.
    destruct (extract_source_path find af s) as [af1 s1]. simpl in Hx. subst af1.
    pose proof (extract_loop_false g) as Hg.
    now destruct (extract_loop find false g).
  - destruct (extract_source_path find af x) as [af1 x1].
    pose proof (IH af1 s Hin Hs) as Hg.
    now destruct (extract_loop find af1 g).
Qed.

Lemma unresolved_paths s s' :
  path_fields s' = path_fields s -> unresolved find s -> unresolved find s'.
Proof.
  unfold unresolved. intros [= Ho Hsp]. now rewrite Ho, Hsp.
Qed.

End SourcePathsProperties.

Lemma normalize_object_path_core s s' :
  normalize_object_path s = Ok s' -> core_fields s' = core_fields s.
Proof.
  unfold normalize_object_path. intros H.
  match type of H with ?m ≫= _ = _ => destruct m as [path|e]; [|discriminate] end.
  now injection H as <-.
Qed.

Lemma NormalizeObjectPaths_core g : forall g',
  _NormalizeObjectPaths g = Ok g' -> core_fields <$> g' = core_fields <$> g.
Proof.
  induction g as [|s g IH]; intros g' H; simpl in H.
  - now injection H as <-.
  - destruct (normalize_object_path s) as [s1|e] eqn:Hs; [|discriminate].
    simpl in H. destruct (_NormalizeObjectPaths g) as [g1|e]; [|discriminate].
    injection H as <-. rewrite !fmap_cons.
    now rewrite (normalize_object_path_core _ _ Hs), (IH g1 eq_refl).
Qed.

(** ** Runs on a fresh map file *)

Section FreshRunProperties.

Variable c : Collaborators.

(** The fresh branch of [Analyze], as the chain of its passes. *)
Lemma Analyze_fresh (path out tool : string) (sizes : gmap string Z) (raw : list Symbol) :
  PyStr.endswith ".size" path = false ->
  PyStr.endswith ".map" path || PyStr.endswith ".map.gz" path = true ->
  VerifyOutputDirectory c = Ok out ->
  VerifyToolPrefix c = Ok tool ->
  linker_map_Parse c path = Ok (sizes, raw) ->
  Analyze c path =
  g ← reconcile c raw;
  g ← snd (_UnmangleRemainingSymbols (cxxfilt_process c) g);
  if negb (fst (_ExtractSourcePaths (ninja_FindSourceForPath c) g))
  then Err (AssertionError msg_sources_not_found)
  else
    g ← _NormalizeObjectPaths
          (_NormalizeNames (function_signature_Parse c)
             (snd (_ExtractSourcePaths (ninja_FindSourceForPath c) g)));
    Ok (mkSizeInfo sizes g None).
Proof.
  intros Hsize Hmap Hout Htool Hparse. unfold Analyze.
  rewrite Hsize.
  replace (negb (PyStr.endswith ".map" path) && negb (PyStr.endswith ".map.gz" path))
    with false by (rewrite <- negb_orb, Hmap; reflexivity).
  rewrite Hout, Htool, Hparse. simpl.
  destruct (reconcile c raw) as [g1|e]; [|reflexivity]. simpl.
  destruct (snd (_UnmangleRemainingSymbols (cxxfilt_process c) g1)) as [g2|e];
    [|reflexivity].
  simpl. destruct (_ExtractSourcePaths (ninja_FindSourceForPath c) g2) as [af g3].
  simpl. destruct (negb af); [reflexivity|].
  destruct (_NormalizeObjectPaths _); reflexivity.
Qed.

(** An unresolved raw symbol is still unresolved when the source paths
    are extracted. *)
Lemma unresolved_reaches_extraction (raw g1 g2 : SymbolGroup) (symbol : Symbol) :
  symbol ∈ raw ->
  unresolved (ninja_FindSourceForPath c) symbol ->
  reconcile c raw = Ok g1 ->
  snd (_UnmangleRemainingSymbols (cxxfilt_process c) g1) = Ok g2 ->
  fst (_ExtractSourcePaths (ninja_FindSourceForPath c) g2) = false.
Proof.
  intros Hin Hun Hrec Hunm.
  apply reconcile_paths in Hrec. apply unmangle_paths in Hunm.
  rewrite Hrec in Hunm.
  destruct (fmap_eq_elem_of path_fields raw g2 symbol Hunm Hin) as (s2 & Hin2 & Hpaths).
  apply (extract_loop_unresolved _ g2 true s2 Hin2).
  eapply unresolved_paths; eassumption.
Qed.

(** C9: when the map file of a fresh run holds a symbol with an empty
    source path and a non-empty object path that does not start with ".."
    for which the build-dependency lookup returns nothing, [Analyze]
    raises, and so does [main], which then saves no snapshot; when the
    earlier passes succeed, what is raised is the assertion of lines
    246-248. *)
Theorem unresolved_source_aborts (args : Args) (path : string)
  (sizes : gmap string Z) (raw : list Symbol) (symbol : Symbol) :
  PyStr.endswith ".size" path = false ->
  linker_map_Parse c path = Ok (sizes, raw) ->
  symbol ∈ raw ->
  unresolved (ninja_FindSourceForPath c) symbol ->
  (exists e : PyError, Analyze c path = Err e)
  /\ (choose_map_file_path c args = Ok (Some path) ->
      exists e : PyError, main c args = Err e)
  /\ (forall (out tool : string) (g1 g2 : SymbolGroup),
        PyStr.endswith ".map" path || PyStr.endswith ".map.gz" path = true ->
        VerifyOutputDirectory c = Ok out ->
        VerifyToolPrefix c = Ok tool ->
        reconcile c raw = Ok g1 ->
        snd (_UnmangleRemainingSymbols (cxxfilt_process c) g1) = Ok g2 ->
        Analyze c path = Err (AssertionError msg_sources_not_found)).
Proof.
  intros Hsize Hparse Hin Hun.
  assert (Hspecific :
    forall (out tool : string) (g1 g2 : SymbolGroup),
      PyStr.endswith ".map" path || PyStr.endswith ".map.gz" path = true ->
      VerifyOutputDirectory c = Ok out ->
      VerifyToolPrefix c = Ok tool ->
      reconcile c raw = Ok g1 ->
      snd (_UnmangleRemainingSymbols (cxxfilt_process c) g1) = Ok g2 ->
      Analyze c path = Err (AssertionError msg_sources_not_found)).
  { intros out tool g1 g2 Hmap Hout Htool Hrec Hunm.
    rewrite (Analyze_fresh path out tool sizes raw Hsize Hmap Hout Htool Hparse).
    rewrite Hrec. simpl. rewrite Hunm. simpl.
    now rewrite (unresolved_reaches_extraction raw g1 g2 symbol Hin Hun Hrec Hunm). }
  assert (Haborts : exists e : PyError, Analyze c path = Err e).
  { destruct (PyStr.endswith ".map" path || PyStr.endswith ".map.gz" path) eqn:Hmap.
    - destruct (VerifyOutputDirectory c) as [out|e] eqn:Hout;
        [|exists e; unfold Analyze;
          rewrite Hsize, <- negb_orb, Hmap, Hout; reflexivity].
      destruct (VerifyToolPrefix c) as [tool|e] eqn:Htool;
        [|exists e; unfold Analyze;
          rewrite Hsize, <- negb_orb, Hmap, Hout, Htool; reflexivity].
      destruct (reconcile c raw) as [g1|e] eqn:Hrec;
        [|exists e;
          rewrite (Analyze_fresh path out tool sizes raw Hsize Hmap Hout Htool Hparse),
            Hrec; reflexivity].
      destruct (snd (_UnmangleRemainingSymbols (cxxfilt_process c) g1)) as [g2|e] eqn:Hunm;
        [|exists e;
          rewrite (Analyze_fresh path out tool sizes raw Hsize Hmap Hout Htool Hparse),
            Hrec; simpl; rewrite Hunm; reflexivity].
      eexists. eapply Hspecific; eauto.
    - eexists. unfold Analyze. rewrite Hsize, <- negb_orb, Hmap. reflexivity. }
  split; [exact Haborts | split; [|exact Hspecific]].
  intros Hpath. destruct Haborts as [e He]. unfold main.
  destruct (negb (PyStr.endswith ".size" (output_file args))); [eauto|].
  rewrite Hpath. simpl.
  match goal with
  | |- context [if ?b then _ else _] => destruct b
  end.
  - destruct (ConstructMetadata c args path) as [m|e']; [|eauto].
    simpl. rewrite He. eauto.
  - simpl. rewrite He. eauto.
Qed.

End FreshRunProperties.

Lemma unresolved_source_aborts_witness :
  rodata_table ∈ [rodata_table; rodata_near]
  /\ unresolved find_nothing rodata_table
  /\ Analyze (sample_collaborators find_nothing sample_sizes)
       "out/Release/libchrome.so.map"
     = Err (AssertionError msg_sources_not_found)
  /\ is_ok (main (sample_collaborators find_nothing sample_sizes) sample_args) = false.
Proof.
  assert (Hin : rodata_table ∈ [rodata_table; rodata_near]) by left.
  assert (Hun : unresolved find_nothing rodata_table)
    by (repeat split; discriminate).
  split; [exact Hin | split; [exact Hun|]].
  pose proof (unresolved_source_aborts (sample_collaborators find_nothing sample_sizes)
                sample_args "out/Release/libchrome.so.map" sample_sizes
                [rodata_table; rodata_near] rodata_table eq_refl eq_refl Hin Hun)
    as (_ & Hmain & Hspecific).
  split.
  - eapply (Hspecific "out/Release" "");
      [reflexivity | reflexivity | reflexivity | vm_compute; reflexivity | reflexivity].
  - destruct (Hmain eq_refl) as [e He]. now rewrite He.
Defined.

(** ** Loading a snapshot *)


Section RenameFrame.

Variable Parse : string -> string * string.
Variables o sp : string.







End RenameFrame.





(** *** Renaming and the two passes of a reload *)







Section ReconcilerRename.

Variable size_without_padding : Symbol -> Z.
Variable end_address : Symbol -> Z.

(** The two properties of models.Symbol do not read the name. *)
Hypothesis size_without_padding_name :
  forall (n : string) (s : Symbol), size_without_padding (set_name n s) = size_without_padding s.
Hypothesis end_address_name :
  forall (n : string) (s : Symbol), end_address (set_name n s) = end_address s.




End ReconcilerRename.


Section SnapshotProperties.

Variable c : Collaborators.

(** A fresh run that returns went through every pass. *)
Lemma Analyze_fresh_inv (path : string) (sizes : gmap string Z) (raw : list Symbol)
  (fresh : SizeInfo) :
  PyStr.endswith ".size" path = false ->
  linker_map_Parse c path = Ok (sizes, raw) ->
  Analyze c path = Ok fresh ->
  exists g1 g2 g5 : SymbolGroup,
    reconcile c raw = Ok g1
    /\ snd (_UnmangleRemainingSymbols (cxxfilt_process c) g1) = Ok g2
    /\ fst (_ExtractSourcePaths (ninja_FindSourceForPath c) g2) = true
    /\ _NormalizeObjectPaths
         (_NormalizeNames (function_signature_Parse c)
            (snd (_ExtractSourcePaths (ninja_FindSourceForPath c) g2))) = Ok g5
    /\ fresh = mkSizeInfo sizes g5 None.
Proof.
  intros Hsize Hparse H.
  destruct (PyStr.endswith ".map" path || PyStr.endswith ".map.gz" path) eqn:Hmap;
    [|unfold Analyze in H; rewrite Hsize, <- negb_orb, Hmap in H; discriminate].
  destruct (VerifyOutputDirectory c) as [out|e] eqn:Hout;
    [|unfold Analyze in H; rewrite Hsize, <- negb_orb, Hmap, Hout in H; discriminate].
  destruct (VerifyToolPrefix c) as [tool|e] eqn:Htool;
    [|unfold Analyze in H; rewrite Hsize, <- negb_orb, Hmap, Hout, Htool in H;
      discriminate].
  rewrite (Analyze_fresh c path out tool sizes raw Hsize Hmap Hout Htool Hparse) in H.
  destruct (reconcile c raw) as [g1|e] eqn:Hrec; [|discriminate]. simpl in H.
  destruct (snd (_UnmangleRemainingSymbols (cxxfilt_process c) g1)) as [g2|e] eqn:Hunm;
    [|discriminate].
  simpl in H.
  destruct (fst (_ExtractSourcePaths (ninja_FindSourceForPath c) g2)) eqn:Hfound;
    [|discriminate].
  simpl in H.
  destruct (_NormalizeObjectPaths _) as [g5|e] eqn:Hobj; [|discriminate].
  injection H as <-. exists g1, g2, g5.
  split; [reflexivity | split; [exact Hunm | split; [exact Hfound | split]]];
    [exact Hobj | reflexivity].
Qed.


End SnapshotProperties.


(** * Further properties of the passes *)

(** ** The interval reconciler *)

Section ReconcilerInvariants.

Variable size_without_padding : Symbol -> Z.
Variable end_address : Symbol -> Z.

Local Abbreviation body := (loop_body size_without_padding end_address).
Local Abbreviation run_loop := (loop size_without_padding end_address).

(** What holds between every symbol and what an iteration makes of it
    holds between the symbols given to the loop and those it returns. *)
Lemma loop_Forall2 (R : Symbol -> Symbol -> Prop) :
  (forall seen prev s seen' s', body seen prev s = Ok (seen', s') -> R s s') ->
  forall rest seen prev seen' out,
    run_loop seen prev rest = Ok (seen', out) -> Forall2 R rest out.
Proof.
  intros HR. induction rest as [|s rest IH]; intros seen prev seen' out H; simpl in H.
  - injection H as _ <-. constructor.
  - destruct (body seen prev s) as [[seen1 s1]|e] eqn:Hs; [|discriminate]. simpl in H.
    destruct (run_loop seen1 s1 rest) as [[seen2 out2]|e] eqn:Hrest; [|discriminate].
    injection H as _ <-. constructor; [eapply HR, Hs | eapply IH, Hrest].
Qed.

(** The sections seen by an iteration that returns. *)
Lemma loop_body_seen seen prev s seen' s' :
  body seen prev s = Ok (seen', s') ->
  section_name s' = section_name s
  /\ (if String.eqb (section_name prev) (section_name s)
      then seen' = seen
      else ((section_name s ∉ seen) /\ seen' = seen ++ [section_name s])).
Proof.
  intros H. split.
  { apply loop_body_untouched in H. unfold untouched_fields in H. congruence. }
  unfold loop_body in H.
  destruct (String.eqb (section_name prev) (section_name s)); simpl in H.
  - destruct (_ || _); [now injection H|].
    destruct (_ && _); [discriminate|].
    destruct (large_padding _ _); [now injection H|].
    destruct (_ <? 0); [discriminate | now injection H].
  - destruct (existsb _ seen) eqn:Hseen; [discriminate|]. injection H as <- _.
    split; [|reflexivity]. intros Hin.
    assert (existsb (String.eqb (section_name s)) seen = true); [|congruence].
    apply existsb_exists. exists (section_name s).
    split; [now apply list_elem_of_In | apply String.eqb_refl].
Qed.

Lemma loop_seen rest : forall seen prev seen' out,
  run_loop seen prev rest = Ok (seen', out) ->
  NoDup seen ->
  seen' = seen ++ section_starts (section_name prev) rest /\ NoDup seen'.
Proof.
  induction rest as [|s rest IH]; intros seen prev seen' out H Hnd; simpl in H.
  - injection H as <- _. simpl. now rewrite app_nil_r.
  - destruct (body seen prev s) as [[seen1 s1]|e] eqn:Hs; [|discriminate]. simpl in H.
    destruct (run_loop seen1 s1 rest) as [[seen2 out2]|e] eqn:Hrest; [|discriminate].
    injection H as <- _.
    apply loop_body_seen in Hs as [Hname Hseen]. simpl.
    destruct (String.eqb (section_name prev) (section_name s)).
    + subst seen1. rewrite <- Hname. now apply (IH _ _ _ _ Hrest).
    + destruct Hseen as [Hnew ->].
      destruct (IH _ _ _ _ Hrest) as [-> Hnd2].
      * apply NoDup_app. split; [exact Hnd|]. split; [|apply NoDup_singleton].
        intros x Hx Hx'. apply list_elem_of_singleton in Hx'. now subst.
      * split; [|exact Hnd2]. now rewrite <- app_assoc, Hname.
Qed.

(** An iteration that returns did not meet a pair to fold. *)
Lemma loop_body_not_fold seen prev s seen' s' :
  body seen prev s = Ok (seen', s') ->
  section_name prev = section_name s' ->
  0 < address prev ->
  address s' = address prev ->
  size_without_padding prev = 0.
Proof.
  intros H Hsec Hpos Haddr.
  pose proof (loop_body_untouched _ _ _ _ _ _ _ H) as Hfields.
  unfold untouched_fields in Hfields.
  assert (Hsec' : section_name prev = section_name s) by congruence.
  assert (Haddr' : address s = address prev) by congruence.
  unfold loop_body in H.
  rewrite Hsec', String.eqb_refl, Haddr', Z.eqb_refl in H. simpl in H.
  replace (address prev <=? 0) with false in H by (symmetry; apply Z.leb_gt; lia).
  simpl in H.
  destruct (Z.eqb_spec (size_without_padding prev) 0) as [Hz|Hnz]; [exact Hz|].
  discriminate.
Qed.

Lemma loop_no_duplicate rest : forall seen prev seen' out,
  run_loop seen prev rest = Ok (seen', out) ->
  forall (i : nat) (a b : Symbol),
    (prev :: out) !! i = Some a -> (prev :: out) !! S i = Some b ->
    section_name a = section_name b -> 0 < address a -> address b = address a ->
    size_without_padding a = 0.
Proof.
  induction rest as [|s rest IH]; intros seen prev seen' out H i a b Ha Hb; simpl in H.
  - injection H as _ <-. destruct i; discriminate.
  - destruct (body seen prev s) as [[seen1 s1]|e] eqn:Hs; [|discriminate]. simpl in H.
    destruct (run_loop seen1 s1 rest) as [[seen2 out2]|e] eqn:Hrest; [|discriminate].
    injection H as _ <-. destruct i as [|i].
    + injection Ha as <-. injection Hb as <-. eapply loop_body_not_fold, Hs.
    + exact (IH _ _ _ _ Hrest i a b Ha Hb).
Qed.

(** X1: in a group that the pass returns, the section names at which a
    new section starts after the first symbol are pairwise distinct: a
    section that is entered a second time raises the assertion of lines
    167-168 (or an earlier error) instead. *)
Theorem section_starts_distinct (first : Symbol) (rest g' : list Symbol) :
  _RemoveDuplicatesAndCalculatePadding size_without_padding end_address (first :: rest)
  = Ok g' ->
  NoDup (section_starts (section_name first) rest).
Proof.
  intros H. apply reconcile_Ok in H as (seen & out & H & _).
  destruct (loop_seen _ _ _ _ _ H (NoDup_nil_2 (A:=string))) as [-> Hnd]. exact Hnd.
Qed.

(** X2: when the loop has passed the symbols [pre] and the next symbol
    starts a section whose name already started one among [pre], the pass
    raises the assertion of lines 167-168. *)
Theorem reentered_section_raises (first : Symbol) (pre : list Symbol) (symbol : Symbol)
  (post : list Symbol) (seen : list string) (out : list Symbol) :
  loop size_without_padding end_address [] first pre = Ok (seen, out) ->
  section_name (List.last out first) <> section_name symbol ->
  section_name symbol ∈ section_starts (section_name first) pre ->
  _RemoveDuplicatesAndCalculatePadding size_without_padding end_address
    (first :: pre ++ symbol :: post)
  = Err (AssertionError msg_unsorted).
Proof.
  intros Hpre Hne Hin.
  destruct (loop_seen _ _ _ _ _ Hpre (NoDup_nil_2 (A:=string))) as [Hseen _]. simpl in Hseen.
  unfold _RemoveDuplicatesAndCalculatePadding.
  rewrite loop_app, Hpre. simpl. unfold loop_body.
  apply String.eqb_neq in Hne. rewrite Hne. simpl.
  replace (existsb (String.eqb (section_name symbol)) seen) with true; [reflexivity|].
  symmetry. apply existsb_exists. exists (section_name symbol).
  split; [apply list_elem_of_In; now rewrite Hseen | apply String.eqb_refl].
Qed.

(** X3: the name of the first symbol's section is never recorded, so a
    stream that leaves the first section and comes back to it is accepted:
    three symbols of sections A, B, A are returned as they are. *)
Theorem return_to_first_section_accepted (a b a' : Symbol) :
  section_name a <> section_name b ->
  section_name a' = section_name a ->
  _RemoveDuplicatesAndCalculatePadding size_without_padding end_address [a; b; a']
  = Ok [a; b; a'].
Proof.
  intros Hab Ha'.
  assert (Hba' : section_name b <> section_name a') by congruence.
  apply String.eqb_neq in Hab, Hba'.
  unfold _RemoveDuplicatesAndCalculatePadding, loop, loop_body.
  rewrite Hab. simpl. rewrite Hba'. simpl.
  replace (String.eqb (section_name a') (section_name b)) with false; [reflexivity|].
  symmetry. apply String.eqb_neq. apply String.eqb_neq in Hba'. congruence.
Qed.

(** X4: when no symbol of the input has padding yet, the size less the
    padding of every returned symbol is the size it had in the input: the
    pass accounts every byte it adds to a size as padding. *)
Theorem size_less_padding_preserved (g g' : list Symbol) :
  Forall (fun s => padding s = 0) g ->
  _RemoveDuplicatesAndCalculatePadding size_without_padding end_address g = Ok g' ->
  Forall2 (fun s s' => size s' - padding s' = size s) g g'.
Proof.
  intros Hall H.
  assert (Hstep : Forall2 (fun s s' => padding s = 0 -> size s' - padding s' = size s) g g').
  { destruct g as [|first rest].
    - injection H as <-. constructor.
    - apply reconcile_Ok in H as (seen & out & H & ->).
      constructor; [intros Hp; lia|].
      refine (loop_Forall2 _ _ _ _ _ _ _ H).
      intros seen0 prev s seen' s' Hs Hp.
      apply loop_body_Ok in Hs as [-> | [-> _]]; [lia|].
      unfold attribute_gap. simpl. lia. }
  clear H. induction Hstep as [|s s' g g' Hs _ IH]; [constructor|].
  inversion Hall; subst. constructor; auto.
Qed.


(** X6: in a group that the pass returns, two consecutive symbols of one
    section at the same positive address have a zero-size anchor first:
    the pass never returns a group that held a pair to fold. *)
Theorem returned_group_has_no_duplicate (g g' : list Symbol) :
  _RemoveDuplicatesAndCalculatePadding size_without_padding end_address g = Ok g' ->
  forall (i : nat) (a b : Symbol),
    g' !! i = Some a -> g' !! S i = Some b ->
    section_name a = section_name b -> 0 < address a -> address b = address a ->
    size_without_padding a = 0.
Proof.
  destruct g as [|first rest]; intros H i a b Ha Hb.
  - injection H as <-. discriminate.
  - apply reconcile_Ok in H as (seen & out & H & ->).
    exact (loop_no_duplicate _ _ _ _ _ H i a b Ha Hb).
Qed.

End ReconcilerInvariants.

Lemma section_starts_distinct_witness :
  _RemoveDuplicatesAndCalculatePadding spec_size_without_padding spec_end_address
    [rodata_table; data_flag; data_again]
  = Ok [rodata_table; data_flag; data_again]
  /\ NoDup (section_starts (section_name rodata_table) [data_flag; data_again]).
Proof.
  split; [reflexivity|].
  apply (section_starts_distinct spec_size_without_padding spec_end_address
           rodata_table [data_flag; data_again] [rodata_table; data_flag; data_again]).
  reflexivity.
Defined.

Lemma reentered_section_raises_witness :
  _RemoveDuplicatesAndCalculatePadding spec_size_without_padding spec_end_address
    [rodata_table; data_flag; rodata_back; data_again]
  = Err (AssertionError msg_unsorted).
Proof.
  apply (reentered_section_raises spec_size_without_padding spec_end_address
           rodata_table [data_flag; rodata_back] data_again []
           [".data"; ".rodata"] [data_flag; rodata_back]).
  - reflexivity.
  - discriminate.
  - left.
Defined.

Lemma return_to_first_section_accepted_witness :
  section_name rodata_table <> section_name data_flag
  /\ _RemoveDuplicatesAndCalculatePadding spec_size_without_padding spec_end_address
       [rodata_table; data_flag; rodata_back]
     = Ok [rodata_table; data_flag; rodata_back].
Proof.
  split; [discriminate|].
  apply (return_to_first_section_accepted spec_size_without_padding spec_end_address
           rodata_table data_flag rodata_back); [discriminate | reflexivity].
Defined.

Lemma size_less_padding_preserved_witness :
  Forall2 (fun s s' => size s' - padding s' = size s)
    [rodata_table; rodata_near]
    [rodata_table; set_size 259 (set_padding 255 rodata_near)].
Proof.
  apply (size_less_padding_preserved spec_size_without_padding spec_end_address
           [rodata_table; rodata_near]).
  - constructor; [reflexivity | constructor; [reflexivity | constructor]].
  - reflexivity.
Defined.


Lemma returned_group_has_no_duplicate_witness :
  _RemoveDuplicatesAndCalculatePadding spec_size_without_padding spec_end_address
    [rodata_anchor; rodata_table]
  = Ok [rodata_anchor; rodata_table]
  /\ spec_size_without_padding rodata_anchor = 0.
Proof.
  split; [reflexivity|].
  apply (returned_group_has_no_duplicate spec_size_without_padding spec_end_address
           [rodata_anchor; rodata_table] [rodata_anchor; rodata_table] eq_refl
           0%nat rodata_anchor rodata_table);
    reflexivity.
Defined.

(** ** The unmangler *)

Lemma append_assoc (a b c : string) : (a +:+ b) +:+ c = a +:+ (b +:+ c).
Proof. induction a as [|x a IH]; [reflexivity|]. now rewrite !append_cons, IH. Qed.

Lemma append_empty_r (a : string) : a +:+ "" = a.
Proof. induction a as [|x a IH]; [reflexivity|]. now rewrite append_cons, IH. Qed.

(** A piece without line break is read into the current line. *)
Lemma splitlines_aux_plain (x : string) : forall cur r : string,
  no_line_break x = true ->
  PyStr.splitlines_aux false cur (x +:+ r) = PyStr.splitlines_aux false (cur +:+ x) r.
Proof.
  induction x as [|c x IH]; intros cur r H.
  - now rewrite append_empty_r.
  - simpl in H. apply andb_true_iff in H as [H Hx]. apply andb_true_iff in H as [Hlf Hcr].
    apply negb_true_iff in Hlf, Hcr.
    rewrite append_cons. simpl. rewrite Hlf, Hcr.
    rewrite (IH _ _ Hx), append_assoc. reflexivity.
Qed.

(** Splitting the lines of joined pieces gives the pieces back, when
    none is empty or holds a line break. *)
Lemma splitlines_join (l : list string) :
  Forall (fun x => no_line_break x = true /\ x <> "") l ->
  PyStr.splitlines (PyStr.join (String PyStr.LF "") l) = l.
Proof.
  unfold PyStr.splitlines. induction 1 as [|x l [Hx Hne] Hl IH]; [reflexivity|].
  destruct l as [|y l].
  - simpl. rewrite <- (append_empty_r x) at 1.
    rewrite (splitlines_aux_plain x "" "" Hx). simpl.
    change ("" +:+ x) with x.
    apply String.eqb_neq in Hne. now rewrite Hne.
  - change (PyStr.join (String PyStr.LF "") (x :: y :: l))
      with (x +:+ String PyStr.LF "" +:+ PyStr.join (String PyStr.LF "") (y :: l)).
    rewrite (splitlines_aux_plain x "" _ Hx). change ("" +:+ x) with x.
    change (String PyStr.LF "" +:+ PyStr.join (String PyStr.LF "") (y :: l))
      with (String PyStr.LF (PyStr.join (String PyStr.LF "") (y :: l))).
    simpl PyStr.splitlines_aux at 1. f_equal. exact IH.
Qed.

Lemma startswith_nonempty (p s : string) :
  p <> "" -> PyStr.startswith p s = true -> s <> "".
Proof. intros Hp H ->. destruct p; [congruence | discriminate]. Qed.

Section UnmanglerBatch.

Variable cxxfilt : string -> Z * string.

(** X7: the demangler is spawned exactly when some name starts with
    "_Z": without a mangled name no process runs and the group is returned
    as it is; with one, a single process runs. *)
Theorem unmangle_spawns_iff_mangled (g : SymbolGroup) :
  (Forall (fun s => PyStr.startswith "_Z" (name s) = false) g ->
   _UnmangleRemainingSymbols cxxfilt g = ([], Ok g))
  /\ (Exists (fun s => PyStr.startswith "_Z" (name s) = true) g ->
      length (fst (_UnmangleRemainingSymbols cxxfilt g)) = 1%nat).
Proof.
  split.
  - intros H. apply unmangle_nothing. now apply Forall_fmap.
  - intros H. apply Exists_exists in H as (s & Hin & Hs).
    apply list_elem_of_lookup in Hin as [pos Hpos].
    assert (Hp : (pos, s) ∈ to_process_of g) by now apply to_process_elem_of.
    unfold _UnmangleRemainingSymbols.
    destruct (to_process_of g) as [|p tp]; [inversion Hp|].
    cbv zeta. now destruct (cxxfilt _).
Qed.

End UnmanglerBatch.

(** The names sent to the demangler. *)
Lemma to_process_names (g : SymbolGroup) :
  Forall (fun s => PyStr.startswith "_Z" (name s) = true -> no_line_break (name s) = true) g ->
  Forall (fun x => no_line_break x = true /\ x <> "")
    ((fun p => name (snd p)) <$> to_process_of g).
Proof.
  intros H. apply Forall_fmap, Forall_forall. intros [pos s] Hin. simpl.
  apply to_process_elem_of in Hin as [Hg Hs].
  rewrite Forall_forall in H. split.
  - apply H; [eapply list_elem_of_lookup_2, Hg | exact Hs].
  - eapply startswith_nonempty, Hs. discriminate.
Qed.

(** X8: with a demangler that works line by line (it writes [d line]
    for every input line and exits with 0), the one batch call gives every
    symbol whose name starts with "_Z" the demangled form of its own name
    and leaves the others alone, provided the mangled names hold no line
    break and their demangled forms are non-empty and hold none either. *)
Theorem unmangle_batch_is_per_symbol (d : string -> string) (g : SymbolGroup) :
  Forall (fun s => PyStr.startswith "_Z" (name s) = true ->
                   no_line_break (name s) = true
                   /\ no_line_break (d (name s)) = true /\ d (name s) <> "") g ->
  snd (_UnmangleRemainingSymbols (line_filter d) g) = Ok (unmangled_with d g).
Proof.
  intros H.
  assert (Hnames : Forall (fun x => no_line_break x = true /\ x <> "")
                     ((fun p => name (snd p)) <$> to_process_of g)).
  { apply to_process_names. eapply Forall_impl; [exact H|]. intros s Hs Hz.
    now destruct (Hs Hz). }
  assert (Houts : Forall (fun x => no_line_break x = true /\ x <> "")
                    (d <$> ((fun p => name (snd p)) <$> to_process_of g))).
  { apply Forall_fmap, Forall_fmap, Forall_forall. intros [pos s] Hin. simpl.
    apply to_process_elem_of in Hin as [Hg Hs].
    rewrite Forall_forall in H.
    destruct (H s (list_elem_of_lookup_2 _ _ _ Hg) Hs) as (_ & ? & ?). now split. }
  unfold _UnmangleRemainingSymbols.
  destruct (to_process_of g) as [|p tp] eqn:Htp.
  { simpl. f_equal. unfold unmangled_with. symmetry.
    rewrite <- (list_fmap_id g) at 2. apply list_fmap_ext. intros i s Hs.
    destruct (PyStr.startswith "_Z" (name s)) eqn:Hz; [|reflexivity].
    assert (Hp : (i, s) ∈ to_process_of g) by now apply to_process_elem_of.
    rewrite Htp in Hp. inversion Hp. }
  cbv zeta. unfold line_filter at 1. cbn [fst snd]. simpl negb. cbv iota.
  rewrite (splitlines_join _ Hnames), (splitlines_join _ Houts).
  destruct (assign_lines_Ok (fst <$> p :: tp)
              (d <$> ((fun p => name (snd p)) <$> p :: tp)))
    with (i := 0%nat) (g := g) as (g' & Hrun & Hlen & Hin & Hout).
  { rewrite <- Htp. apply to_process_NoDup. }
  { rewrite !length_fmap. simpl. lia. }
  rewrite Hrun. f_equal. apply list_eq. intros pos.
  unfold unmangled_with. rewrite list_lookup_fmap.
  destruct (g !! pos) as [s|] eqn:Hs; cbn [fmap option_fmap option_map].
  - destruct (PyStr.startswith "_Z" (name s)) eqn:Hz.
    + assert (Hp : (pos, s) ∈ to_process_of g) by now apply to_process_elem_of.
      rewrite Htp in Hp. apply list_elem_of_lookup in Hp as [j Hj].
      assert (Hpos : (fst <$> p :: tp) !! j = Some pos)
        by (rewrite list_lookup_fmap, Hj; reflexivity).
      rewrite (Hin j pos Hpos). destruct (decide (0 <= j)%nat); [|lia].
      rewrite Nat.sub_0_r, !list_lookup_fmap, Hj, Hs. reflexivity.
    + rewrite <- Hs. apply Hout. intros Hin'.
      apply list_elem_of_fmap in Hin' as ([pos' s'] & -> & Hin').
      rewrite <- Htp in Hin'. apply to_process_elem_of in Hin' as [Hg' Hz'].
      simpl in Hs. congruence.
  - apply lookup_ge_None. rewrite Hlen. now apply lookup_ge_None.
Qed.

Lemma unmangle_spawns_iff_mangled_witness :
  _UnmangleRemainingSymbols failing_cxxfilt [rodata_table; rodata_near]
  = ([], Ok [rodata_table; rodata_near])
  /\ length (fst (_UnmangleRemainingSymbols failing_cxxfilt [rodata_table; mangled_foo]))
     = 1%nat.
Proof.
  split.
  - apply (proj1 (unmangle_spawns_iff_mangled failing_cxxfilt [rodata_table; rodata_near])).
    constructor; [reflexivity | constructor; [reflexivity | constructor]].
  - apply (proj2 (unmangle_spawns_iff_mangled failing_cxxfilt [rodata_table; mangled_foo])).
    right. left. reflexivity.
Defined.

Lemma unmangle_batch_is_per_symbol_witness :
  snd (_UnmangleRemainingSymbols (line_filter drop_marker)
         [mangled_foo; rodata_table; mangled_bar])
  = Ok [set_name "3foov" mangled_foo; rodata_table; set_name "3barv" mangled_bar].
Proof.
  apply (unmangle_batch_is_per_symbol drop_marker [mangled_foo; rodata_table; mangled_bar]).
  constructor; [|constructor; [|constructor; [|constructor]]];
    intros Hz; try discriminate; (split; [reflexivity | split; [reflexivity | discriminate]]).
Defined.

(** ** The name normalizer *)

Lemma replace_aux_length (old : string) (s : string) : forall skip : nat,
  (String.length (PyStr.replace_aux old "" skip s) <= String.length s)%nat.
Proof.
  induction s as [|c s IH]; intros skip; simpl; [lia|].
  destruct skip as [|k]; [|specialize (IH k); lia].
  destruct (PyStr.startswith old (String c s)).
  - change (String.length ("" +:+ PyStr.replace_aux old "" (String.length old - 1) s))
      with (String.length (PyStr.replace_aux old "" (String.length old - 1) s)).
    specialize (IH (String.length old - 1)%nat). lia.
  - simpl. specialize (IH 0%nat). lia.
Qed.

(** A string that holds the token gets shorter when it is removed. *)
Lemma replace_present (old s : string) :
  old <> "" -> PyStr.contains old s = true -> PyStr.replace old "" s <> s.
Proof.
  intros Hold H Heq. apply (f_equal String.length) in Heq.
  assert (Hlt : (String.length (PyStr.replace old "" s) < String.length s)%nat);
    [|lia].
  clear Heq. unfold PyStr.contains in H. unfold PyStr.replace.
  induction s as [|c s IH].
  - simpl in H. destruct old; [congruence | discriminate].
  - unfold PyStr.find in H; fold PyStr.find in H. simpl PyStr.replace_aux.
    destruct (PyStr.startswith old (String c s)).
    + change (String.length ("" +:+ PyStr.replace_aux old "" (String.length old - 1) s))
        with (String.length (PyStr.replace_aux old "" (String.length old - 1) s)).
      pose proof (replace_aux_length old s (String.length old - 1)). simpl. lia.
    + simpl. destruct (PyStr.find old s); [|discriminate].
      specialize (IH eq_refl). lia.
Qed.

Section NormalizerFrame.

Variable Parse : string -> string * string.

Local Abbreviation rename s := (snd (normalize_symbol Parse ∅ s)).

Lemma move_prefix_not_a_name sep fp s :
  not_a_name (snd (move_prefix sep fp s)) = not_a_name s.
Proof. unfold move_prefix. now destruct (PyStr.find_upto _ _ _). Qed.

Lemma parse_signature_not_a_name s : not_a_name (parse_signature Parse s) = not_a_name s.
Proof.
  unfold parse_signature. destruct (String.eqb _ _); [|reflexivity].
  now destruct (Parse (name s)).
Qed.

Lemma remove_anonymous_not_a_name s : not_a_name (remove_anonymous s) = not_a_name s.
Proof. unfold remove_anonymous. now destruct (negb _). Qed.

Lemma strip_parens_not_a_name s : not_a_name (strip_parens s) = not_a_name s.
Proof. unfold strip_parens. now destruct (_ && _). Qed.

Lemma drop_same_full_name_not_a_name s :
  not_a_name (drop_same_full_name s) = not_a_name s.
Proof. unfold drop_same_full_name. now destruct (String.eqb _ _). Qed.

Lemma rename_not_a_name s : not_a_name (rename s) = not_a_name s.
Proof.
  rewrite normalize_symbol_snd. destruct (PyStr.startswith "*" (name s)); [reflexivity|].
  now rewrite drop_same_full_name_not_a_name, strip_parens_not_a_name,
    remove_anonymous_not_a_name, parse_signature_not_a_name, !move_prefix_not_a_name.
Qed.

(** X9: the name normalizer returns as many symbols as it is given, in
    the same order, and assigns nothing but name, full_name and
    is_anonymous: address, size, padding, section, section_name,
    object_path and source_path of every symbol are as before. *)
Theorem NormalizeNames_frame (g : SymbolGroup) :
  not_a_name <$> _NormalizeNames Parse g = not_a_name <$> g.
Proof.
  rewrite NormalizeNames_map.
  induction g as [|s g IH]; [reflexivity|].
  cbn [List.map]. rewrite !fmap_cons, IH. f_equal. apply rename_not_a_name.
Qed.

(** X10: the pass never leaves the same non-empty string in name and
    full_name: every returned symbol whose name does not start with a
    star has an empty full_name or a full_name that differs from its
    name. *)
Theorem full_name_differs_or_empty (g : SymbolGroup) (i : nat) (s' : Symbol) :
  _NormalizeNames Parse g !! i = Some s' ->
  PyStr.startswith "*" (name s') = false ->
  full_name s' = "" \/ full_name s' <> name s'.
Proof.
  rewrite NormalizeNames_lookup. intros H Hstar.
  destruct (g !! i) as [s|]; [|discriminate]. injection H as <-.
  destruct (String.eqb (full_name (rename s)) (name (rename s))) eqn:Heq.
  - left. now apply rename_post.
  - right. now apply String.eqb_neq.
Qed.

Lemma rename_anonymous (s : Symbol) :
  PyStr.startswith "*" (name s) = false ->
  section s <> "t" ->
  PyStr.find_upto " for " (name s) 30 = None ->
  PyStr.find_upto " to " (name s) 30 = None ->
  is_anonymous (rename s)
  = is_anonymous s || PyStr.contains anonymous_namespace (name s)
  /\ (PyStr.contains "(" (PyStr.replace anonymous_namespace "" (name s)) = false ->
      name (rename s) = PyStr.replace anonymous_namespace "" (name s)).
Proof.
  intros Hstar Hsec Hfor Hto. rewrite normalize_symbol_snd, Hstar.
  rewrite (move_prefix_None " for " _ _ Hfor). cbn [snd].
  rewrite (move_prefix_None " to " _ _ Hto). cbn [snd].
  apply String.eqb_neq in Hsec. unfold parse_signature. rewrite Hsec.
  assert (Hflag : forall x, is_anonymous (drop_same_full_name (strip_parens x))
                            = is_anonymous x).
  { intros x. unfold drop_same_full_name, strip_parens.
    destruct (negb _ && _);
      match goal with |- context [if ?b then _ else _] => destruct b end;
      reflexivity. }
  rewrite Hflag. unfold remove_anonymous.
  destruct (PyStr.contains anonymous_namespace (name s)) eqn:Hanon.
  - pose proof (replace_present anonymous_namespace (name s)
                  ltac:(discriminate) Hanon) as Hne.
    replace (String.eqb (name s) (PyStr.replace anonymous_namespace "" (name s)))
      with false by (symmetry; apply String.eqb_neq; congruence).
    simpl negb. cbv iota. split; [now rewrite orb_true_r|].
    intros Hparen. unfold strip_parens.
    change (name (set_full_name ?f (set_name ?n ?x))) with n.
    change (section (set_full_name ?f (set_name ?n ?x))) with (section x).
    change (section (set_is_anonymous true s)) with (section s).
    rewrite Hparen, andb_false_r. unfold drop_same_full_name.
    match goal with |- context [if ?b then _ else _] => destruct b end; reflexivity.
  - rewrite (replace_absent _ _ _ Hanon), String.eqb_refl. simpl negb. cbv iota.
    split; [now rewrite orb_false_r|].
    intros Hparen. unfold strip_parens. rewrite Hparen, andb_false_r.
    unfold drop_same_full_name.
    match goal with |- context [if ?b then _ else _] => destruct b end; reflexivity.
Qed.

(** X11: a symbol outside the code sections whose name starts with no
    star and holds no " for " or " to " in its first 30 characters is
    returned with is_anonymous set exactly when it was set before or the
    name holds the anonymous-namespace token (the flag is never reset);
    when what is left of the name after removing the token has no
    parenthesis, that is the returned name. *)
Theorem anonymous_namespace_folded (g : SymbolGroup) (i : nat) (s : Symbol) :
  g !! i = Some s ->
  PyStr.startswith "*" (name s) = false ->
  section s <> "t" ->
  PyStr.find_upto " for " (name s) 30 = None ->
  PyStr.find_upto " to " (name s) 30 = None ->
  exists s' : Symbol,
    _NormalizeNames Parse g !! i = Some s'
    /\ is_anonymous s'
       = is_anonymous s || PyStr.contains anonymous_namespace (name s)
    /\ (PyStr.contains "(" (PyStr.replace anonymous_namespace "" (name s)) = false ->
        name s' = PyStr.replace anonymous_namespace "" (name s)).
Proof.
  intros Hs Hstar Hsec Hfor Hto. exists (rename s).
  split; [now rewrite NormalizeNames_lookup, Hs|].
  now apply rename_anonymous.
Qed.

End NormalizerFrame.

Lemma full_name_differs_or_empty_witness :
  _NormalizeNames (fun s => (s, s)) [vtable_foo] !! 0%nat
  = Some (set_name "Foo [vtable]" vtable_foo)
  /\ (full_name (set_name "Foo [vtable]" vtable_foo) = ""
      \/ full_name (set_name "Foo [vtable]" vtable_foo)
         <> name (set_name "Foo [vtable]" vtable_foo)).
Proof.
  split; [reflexivity|].
  apply (full_name_differs_or_empty (fun s => (s, s)) [vtable_foo] 0%nat);
    reflexivity.
Defined.

Lemma anonymous_namespace_folded_witness :
  exists s' : Symbol,
    _NormalizeNames (fun s => (s, s)) [rodata_table; anonymous_table] !! 1%nat
    = Some s'
    /\ is_anonymous s' = true /\ name s' = "kTable".
Proof.
  destruct (anonymous_namespace_folded (fun s => (s, s))
              [rodata_table; anonymous_table] 1%nat anonymous_table
              eq_refl eq_refl ltac:(discriminate) eq_refl eq_refl)
    as (s' & Hget & Hflag & Hname).
  exists s'. split; [exact Hget|]. split; [exact Hflag | exact (Hname eq_refl)].
Defined.

(** ** The object paths *)






Lemma normalize_object_path_unfold (s : Symbol) :
  normalize_object_path s =
  let path := without_build_prefix (object_path s) in
  path ←
    (if PyStr.endswith ")" path then
       start_idx ← PyStr.index "(" path;
       Ok (posixpath_join (PyStr.take start_idx path)
             (PyStr.take (String.length path - 1 - (start_idx + 1))
                (PyStr.drop (start_idx + 1) path)))
     else Ok path);
  Ok (set_object_path path s).
Proof. reflexivity. Qed.

(** The body of the loop raises on the unbalanced paths only, and
    otherwise hands back the symbol with another object path. *)
Lemma normalize_object_path_cases (s : Symbol) :
  (unbalanced s = true /\ normalize_object_path s = Err ValueError)
  \/ (unbalanced s = false
      /\ exists path : string, normalize_object_path s = Ok (set_object_path path s)).
Proof.
  rewrite normalize_object_path_unfold. unfold unbalanced, PyStr.contains, PyStr.index.
  cbv zeta. destruct (PyStr.endswith ")" _); [|right; eauto].
  destruct (PyStr.find "(" _); [right; eauto | left; eauto].
Qed.

(** X12: the object-path pass assigns nothing but object_path: when it
    returns, the group has one symbol per symbol of the input, in the same
    order, each equal to its input symbol up to the object path. *)
Theorem NormalizeObjectPaths_frame (g g' : SymbolGroup) :
  _NormalizeObjectPaths g = Ok g' ->
  Forall2 (fun s s' => s' = set_object_path (object_path s') s) g g'.
Proof.
  revert g'. induction g as [|s g IH]; intros g' H.
  - injection H as <-. constructor.
  - cbn [_NormalizeObjectPaths] in H.
    apply bind_Ok in H as (s' & Hs & H). apply bind_Ok in H as (r & Hr & H).
    injection H as <-. constructor; [|now apply IH].
    destruct (normalize_object_path_cases s) as [[_ He] | [_ [path Hp]]];
      [congruence|].
    rewrite Hp in Hs. now injection Hs as <-.
Qed.

(** X13: the object-path pass raises exactly when some object path of
    the group, once its build prefix is cut off, ends with ")" and holds
    no "(": then it raises ValueError, wherever the symbol stands in the
    group; otherwise it returns. *)
Theorem object_paths_raise_iff_unbalanced (g : SymbolGroup) :
  if existsb unbalanced g then _NormalizeObjectPaths g = Err ValueError
  else exists g' : SymbolGroup, _NormalizeObjectPaths g = Ok g'.
Proof.
  induction g as [|s g IH]; [now exists []|].
  cbn [existsb _NormalizeObjectPaths].
  destruct (normalize_object_path_cases s) as [[-> ->] | [-> [path ->]]];
    [reflexivity|].
  cbn [orb mbind result_bind]. destruct (existsb unbalanced g).
  - now rewrite IH.
  - destruct IH as [g' ->]. eexists. reflexivity.
Qed.


Lemma NormalizeObjectPaths_frame_witness :
  _NormalizeObjectPaths [rodata_table; archive_member]
  = Ok [set_object_path "base/table.o" rodata_table;
        set_object_path "base/libbase.a/member.o" archive_member]
  /\ Forall2 (fun s s' => s' = set_object_path (object_path s') s)
       [rodata_table; archive_member]
       [set_object_path "base/table.o" rodata_table;
        set_object_path "base/libbase.a/member.o" archive_member].
Proof.
  split; [reflexivity|].
  apply (NormalizeObjectPaths_frame [rodata_table; archive_member]). reflexivity.
Defined.


(** ** The source paths *)

Section SourcePathsPointwise.

Variable find : string -> option string.

(** What the body of the loop does to one symbol: it leaves it, or fills
    in the empty source path from a non-empty answer of the mapper. *)
Lemma extract_source_path_cases (af : bool) (s : Symbol) :
  (unresolved find s /\ extract_source_path find af s = (false, s))
  \/ (~ unresolved find s
      /\ fst (extract_source_path find af s) = af
      /\ (snd (extract_source_path find af s) = s
          \/ (source_path s = "" /\ PyStr.startswith ".." (object_path s) = false
              /\ exists sp : string,
                   find (object_path s) = Some sp /\ sp <> ""
                   /\ snd (extract_source_path find af s)
                      = set_source_path (_NormalizeSourcePath sp) s))).
Proof.
  unfold extract_source_path, unresolved, PyStr.truthy.
  destruct (String.eqb (source_path s) "") eqn:Hsrc; cbn [negb orb];
    [|right; split; [intros [H _]; discriminate | split; [reflexivity | now left]]].
  destruct (String.eqb (object_path s) "") eqn:Hobj; cbn [negb];
    [right; split; [intros (_ & H & _); discriminate | split; [reflexivity | now left]]|].
  destruct (PyStr.startswith ".." (object_path s)) eqn:Hup; cbn [negb];
    [right; split; [intros (_ & _ & H & _); discriminate | split; [reflexivity | now left]]|].
  destruct (find (object_path s)) as [sp|] eqn:Hfind.
  - destruct (String.eqb sp "") eqn:Hsp; cbn [negb].
    + left. split; [|reflexivity]. repeat split. intros sp' [= <-]. now rewrite Hsp.
    + right. split; [intros (_ & _ & _ & H); specialize (H sp eq_refl);
                     rewrite Hsp in H; discriminate|].
      split; [reflexivity|]. right. apply String.eqb_eq in Hsrc.
      apply String.eqb_neq in Hsp. eauto 8.
  - left. split; [|reflexivity]. repeat split. discriminate.
Qed.

Lemma extract_loop_cons (af : bool) (s : Symbol) (g : SymbolGroup) :
  extract_loop find af (s :: g)
  = (fst (extract_loop find (fst (extract_source_path find af s)) g),
     snd (extract_source_path find af s)
     :: snd (extract_loop find (fst (extract_source_path find af s)) g)).
Proof.
  cbn [extract_loop]. destruct (extract_source_path find af s) as [af' s'].
  cbn [fst snd]. now destruct (extract_loop find af' g).
Qed.

Lemma extract_loop_fst (g : SymbolGroup) : forall af : bool,
  fst (extract_loop find af g) = false ->
  af = false \/ exists s : Symbol, s ∈ g /\ unresolved find s.
Proof.
  induction g as [|s g IH]; intros af H; [now left|].
  rewrite extract_loop_cons in H. cbn [fst] in H.
  destruct (extract_source_path_cases af s) as [[Hs _] | (_ & Haf & _)].
  - right. exists s. split; [left | exact Hs].
  - rewrite Haf in H. destruct (IH _ H) as [-> | (x & Hx & Hu)]; [now left|].
    right. exists x. split; [now right | exact Hu].
Qed.

(** X15: the extraction reports failure exactly when some symbol of the
    group has no source path yet, has an object path that does not start
    with "..", and gets no source from the mapper; symbols of prebuilt
    libraries and symbols without an object path never count. *)
Theorem all_found_iff_none_unresolved (g : SymbolGroup) :
  fst (_ExtractSourcePaths find g) = false
  <-> exists s : Symbol, s ∈ g /\ unresolved find s.
Proof.
  split.
  - intros H. destruct (extract_loop_fst g true H) as [?|?]; [discriminate | assumption].
  - intros (s & Hin & Hs). exact (extract_loop_unresolved find g true s Hin Hs).
Qed.

(** X16: the extraction returns one symbol per symbol of the group, in
    the same order; each is the symbol it was, or the symbol with its
    empty source path set to the normalized answer of the mapper for its
    object path.  A source path that is set is never overwritten, and no
    other attribute is assigned. *)
Theorem ExtractSourcePaths_pointwise (g : SymbolGroup) :
  Forall2 (fun s s' =>
             s' = s
             \/ (source_path s = "" /\ PyStr.startswith ".." (object_path s) = false
                 /\ exists sp : string,
                      find (object_path s) = Some sp /\ sp <> ""
                      /\ s' = set_source_path (_NormalizeSourcePath sp) s))
    g (snd (_ExtractSourcePaths find g)).
Proof.
  unfold _ExtractSourcePaths.
  match goal with
  | |- Forall2 ?R g _ =>
      enough (Hgen : forall af, Forall2 R g (snd (extract_loop find af g)))
        by apply Hgen
  end.
  induction g as [|s g IH]; intros af; [constructor|].
  rewrite extract_loop_cons. cbn [snd]. constructor; [|apply IH].
  destruct (extract_source_path_cases af s) as [[_ ->] | (_ & _ & [-> | H])];
    [now left | now left | right; exact H].
Qed.

End SourcePathsPointwise.

(** ** What the unmangler may rename *)

Lemma assign_lines_renames (g0 : SymbolGroup) (tp : list nat) :
  Forall (fun pos => exists s : Symbol,
            g0 !! pos = Some s /\ PyStr.startswith "_Z" (name s) = true) tp ->
  forall (lines : list string) (i : nat) (g g' : SymbolGroup),
  Forall2 (fun s s' => s' = s
                       \/ (PyStr.startswith "_Z" (name s) = true
                           /\ s' = set_name (name s') s)) g0 g ->
  assign_lines tp i lines g = Ok g' ->
  Forall2 (fun s s' => s' = s
                       \/ (PyStr.startswith "_Z" (name s) = true
                           /\ s' = set_name (name s') s)) g0 g'.
Proof.
  intros Htp. induction lines as [|line lines IH]; intros i g g' HR H;
    cbn [assign_lines] in H.
  - now injection H as <-.
  - destruct (tp !! i) as [pos|] eqn:Hpos; [|discriminate].
    refine (IH (S i) _ g' _ H).
    apply Forall2_alter_r; [exact HR|].
    intros x y Hx Hy Hxy.
    destruct (Forall_lookup_1 _ _ _ _ Htp Hpos) as (s & Hs & Hmangled).
    assert (s = x) as -> by congruence.
    right. split; [exact Hmangled|].
    destruct Hxy as [-> | [_ ->]]; reflexivity.
Qed.

(** X17: whatever the demangler prints, when the unmangler returns it
    has assigned nothing but names, and only names of symbols whose name
    started with "_Z": every other symbol is returned as it was, at its
    position. *)
Theorem unmangle_renames_mangled_only (cxxfilt : string -> Z * string)
  (g g' : SymbolGroup) :
  snd (_UnmangleRemainingSymbols cxxfilt g) = Ok g' ->
  Forall2 (fun s s' => s' = s
                       \/ (PyStr.startswith "_Z" (name s) = true
                           /\ s' = set_name (name s') s)) g g'.
Proof.
  unfold _UnmangleRemainingSymbols.
  destruct (to_process_of g) as [|p tp] eqn:Htp.
  - cbn [snd]. intros [= <-]. apply Forall_Forall2_diag, Forall_forall. now left.
  - cbv zeta. destruct (cxxfilt _) as [rc out]. cbn [snd].
    destruct (negb (rc =? 0)); [discriminate|]. rewrite <- Htp.
    apply assign_lines_renames.
    + apply Forall_fmap, Forall_forall. intros [pos s] Hin.
      apply to_process_elem_of in Hin. exists s. exact Hin.
    + apply Forall_Forall2_diag, Forall_forall. now left.
Qed.

Lemma unmangle_renames_mangled_only_witness :
  snd (_UnmangleRemainingSymbols one_line_cxxfilt [rodata_table; mangled_foo])
  = Ok [rodata_table; set_name "foo()" mangled_foo]
  /\ Forall2 (fun s s' => s' = s
                          \/ (PyStr.startswith "_Z" (name s) = true
                              /\ s' = set_name (name s') s))
       [rodata_table; mangled_foo] [rodata_table; set_name "foo()" mangled_foo].
Proof.
  split; [reflexivity|].
  apply (unmangle_renames_mangled_only one_line_cxxfilt [rodata_table; mangled_foo]).
  reflexivity.
Defined.

(** ** The pipeline *)

Lemma NormalizeNames_placement Parse (g : SymbolGroup) :
  placement <$> _NormalizeNames Parse g = placement <$> g.
Proof.
  rewrite NormalizeNames_map.
  induction g as [|s g IH]; [reflexivity|].
  cbn [List.map]. rewrite !fmap_cons, IH. f_equal.
  pose proof (rename_not_a_name Parse s) as H. unfold not_a_name in H.
  unfold placement. congruence.
Qed.

Lemma assign_lines_placement (tp : list nat) (lines : list string) :
  forall (i : nat) (g g' : SymbolGroup),
  assign_lines tp i lines g = Ok g' ->
  placement <$> g' = placement <$> g.
Proof.
  induction lines as [|line lines IH]; intros i g g' H; cbn [assign_lines] in H.
  - now injection H as <-.
  - destruct (tp !! i) as [pos|]; [|discriminate].
    rewrite (IH _ _ _ H).
    rewrite (list_fmap_alter placement (set_name line) id)
      by (apply Forall_forall; reflexivity).
    now apply list_alter_id.
Qed.

Lemma unmangle_placement (cxxfilt : string -> Z * string) (g g' : SymbolGroup) :
  snd (_UnmangleRemainingSymbols cxxfilt g) = Ok g' ->
  placement <$> g' = placement <$> g.
Proof.
  unfold _UnmangleRemainingSymbols.
  destruct (to_process_of g) as [|p tp].
  - cbn [snd]. now intros [= <-].
  - cbv zeta. destruct (cxxfilt _) as [rc out]. cbn [snd].
    destruct (negb (rc =? 0)); [discriminate|]. apply assign_lines_placement.
Qed.

Section PipelineFrame.

Variable c : Collaborators.

(** X18: a run on a map file that returns hands back the section sizes
    as the parser read them, no metadata, and one symbol per parsed
    symbol, in the parsed order, each at the address and in the section of
    the parsed one: no pass adds, drops, reorders or moves a symbol. *)
Theorem Analyze_keeps_placement (path : string) (size_info : SizeInfo) :
  PyStr.endswith ".size" path = false ->
  Analyze c path = Ok size_info ->
  exists (sizes : gmap string Z) (raw : list Symbol),
    linker_map_Parse c path = Ok (sizes, raw)
    /\ section_sizes size_info = sizes
    /\ metadata size_info = None
    /\ placement <$> symbols size_info = placement <$> raw.
Proof.
  intros Hsize H.
  assert (Hparse : exists sizes raw, linker_map_Parse c path = Ok (sizes, raw)).
  { unfold Analyze in H. rewrite Hsize in H.
    destruct (negb _ && negb _); [discriminate|].
    destruct (VerifyOutputDirectory c); [|discriminate].
    destruct (VerifyToolPrefix c); [|discriminate].
    destruct (linker_map_Parse c path) as [[sizes raw]|]; [eauto | discriminate]. }
  destruct Hparse as (sizes & raw & Hparse). exists sizes, raw.
  destruct (Analyze_fresh_inv c path sizes raw size_info Hsize Hparse H)
    as (g1 & g2 & g5 & Hrec & Hunm & _ & Hobj & ->).
  split; [exact Hparse | split; [reflexivity | split; [reflexivity|]]].
  cbn [symbols].
  rewrite (fmap_factor core_fields
             (fun '(_, _, a, _, _, sec, secn, _) => (a, sec, secn)) placement
             _ _ (fun x => eq_refl) (NormalizeObjectPaths_core _ _ Hobj)).
  rewrite NormalizeNames_placement. unfold _ExtractSourcePaths.
  rewrite (fmap_factor core_fields
             (fun '(_, _, a, _, _, sec, secn, _) => (a, sec, secn)) placement
             _ _ (fun x => eq_refl) (extract_loop_core _ g2 true)).
  rewrite (unmangle_placement _ _ _ Hunm).
  exact (fmap_factor untouched_fields
           (fun '(_, _, a, sec, secn, _, _, _) => (a, sec, secn)) placement
           _ _ (fun x => eq_refl) (reconcile_untouched _ _ _ _ Hrec)).
Qed.

(** X19: a snapshot given as the ELF file with no map file (none, or
    an empty one) and an output name that ends with ".size": no map file
    path is chosen and no metadata is built, and the call of Analyze on
    line 352 reads a local variable that was never assigned.  No
    collaborator of the model changes that. *)
Theorem snapshot_input_needs_map_file (args : Args) :
  PyStr.endswith ".size" (output_file args) = true ->
  PyStr.endswith ".size" (elf_file args) = true ->
  map_file args = None \/ map_file args = Some "" ->
  main c args = Err UnboundLocalError.
Proof.
  intros Hout Helf Hmap. unfold main, choose_map_file_path.
  rewrite Hout, Helf. cbn [negb].
  destruct Hmap as [-> | ->]; cbn [PyStr.truthy String.eqb negb];
    now rewrite andb_false_r.
Qed.

(** X20: a call of [main] that reaches the saving of the snapshot saves
    the symbols and section sizes that Analyze returned for the chosen map
    file; the only thing [main] adds is the metadata, and only for an ELF
    input that is no snapshot. *)
Theorem main_saves_what_Analyze_returns (args : Args) (saved : SizeInfo) :
  main c args = Ok saved ->
  exists (p : string) (analyzed : SizeInfo),
    choose_map_file_path c args = Ok (Some p)
    /\ Analyze c p = Ok analyzed
    /\ symbols saved = symbols analyzed
    /\ section_sizes saved = section_sizes analyzed
    /\ (metadata saved = metadata analyzed
        \/ exists m : Metadata,
             ConstructMetadata c args p = Ok m /\ metadata saved = Some m).
Proof.
  unfold main. destruct (negb _); [discriminate|]. intros H.
  apply bind_Ok in H as (chosen & Hchoose & H).
  apply bind_Ok in H as (built & Hbuilt & H).
  apply bind_Ok in H as (p & Hp & H).
  apply bind_Ok in H as (analyzed & Han & H).
  apply bind_Ok in H as (final & Hfinal & H). injection H as <-.
  destruct chosen as [p'|]; [|discriminate]. injection Hp as ->.
  exists p, analyzed. split; [exact Hchoose | split; [exact Han|]].
  destruct built as [m|].
  - apply bind_Ok in Hfinal as (es & _ & Hfinal).
    apply bind_Ok in Hfinal as (u & _ & Hfinal). injection Hfinal as <-.
    split; [reflexivity | split; [reflexivity|]]. right. exists m.
    split; [|reflexivity].
    destruct (PyStr.truthy (elf_file args) && _); [|discriminate].
    apply bind_Ok in Hbuilt as (m' & Hm & Hbuilt). cbn [default] in Hm. unfold id in Hm. congruence.
  - injection Hfinal as <-. split; [reflexivity | split; [reflexivity|]]. now left.
Qed.

End PipelineFrame.

Lemma Analyze_keeps_placement_witness :
  exists (size_info : SizeInfo) (sizes : gmap string Z) (raw : list Symbol),
    Analyze (sample_collaborators find_in_base sample_sizes)
      "out/Release/libchrome.so.map" = Ok size_info
    /\ linker_map_Parse (sample_collaborators find_in_base sample_sizes)
         "out/Release/libchrome.so.map" = Ok (sizes, raw)
    /\ placement <$> symbols size_info = placement <$> raw.
Proof.
  destruct (Analyze (sample_collaborators find_in_base sample_sizes)
              "out/Release/libchrome.so.map") as [size_info|e] eqn:Han;
    [|vm_compute in Han; discriminate].
  destruct (Analyze_keeps_placement (sample_collaborators find_in_base sample_sizes)
              "out/Release/libchrome.so.map" size_info eq_refl Han)
    as (sizes & raw & Hparse & _ & _ & Hplacement).
  exists size_info, sizes, raw.
  split; [reflexivity | split; [exact Hparse | exact Hplacement]].
Defined.

Lemma snapshot_input_needs_map_file_witness :
  main (sample_collaborators find_in_base sample_sizes) snapshot_args
  = Err UnboundLocalError.
Proof.
  apply (snapshot_input_needs_map_file
           (sample_collaborators find_in_base sample_sizes) snapshot_args);
    [reflexivity | reflexivity | left; reflexivity].
Defined.

Lemma main_saves_what_Analyze_returns_witness :
  exists (saved : SizeInfo) (p : string) (analyzed : SizeInfo),
    main (sample_collaborators find_in_base sample_sizes) sample_args = Ok saved
    /\ Analyze (sample_collaborators find_in_base sample_sizes) p = Ok analyzed
    /\ symbols saved = symbols analyzed
    /\ section_sizes saved = section_sizes analyzed.
Proof.
  destruct (main (sample_collaborators find_in_base sample_sizes) sample_args)
    as [saved|e] eqn:Hmain; [|vm_compute in Hmain; discriminate].
  destruct (main_saves_what_Analyze_returns
              (sample_collaborators find_in_base sample_sizes) sample_args saved Hmain)
    as (p & analyzed & _ & Han & Hsym & Hsizes & _).
  exists saved, p, analyzed.
  split; [reflexivity | split; [exact Han | split; [exact Hsym | exact Hsizes]]].
Defined.

(** ** The helpers of the metadata *)

Lemma startswith_app (p q s : string) :
  PyStr.startswith p s = true ->
  PyStr.startswith q (PyStr.drop (String.length p) s) = true ->
  PyStr.startswith (p +:+ q) s = true.
Proof.
  revert s. induction p as [|a p IH]; intros s Hp Hq.
  - now destruct s.
  - destruct s as [|b s]; [discriminate|]. rewrite append_cons.
    simpl in *. apply andb_true_iff in Hp as [-> Hp]. now apply IH.
Qed.

Lemma word_prefix_startswith (s : string) :
  PyStr.startswith (PyText.word_prefix s) s = true.
Proof.
  induction s as [|c s IH]; [reflexivity|]. simpl.
  destruct (PyText.is_word c); [|reflexivity]. simpl. now rewrite Ascii.eqb_refl.
Qed.

Lemma word_prefix_all_word (s : string) :
  all_chars PyText.is_word (PyText.word_prefix s) = true.
Proof.
  induction s as [|c s IH]; [reflexivity|]. simpl.
  destruct (PyText.is_word c) eqn:Hc; [|reflexivity]. simpl. now rewrite Hc.
Qed.

Lemma search_build_id_unfold (s : string) :
  PyText.search_build_id s =
  if PyStr.startswith "Build ID: " s && PyStr.truthy (PyText.word_prefix (PyStr.drop 10 s))
  then Some (PyText.word_prefix (PyStr.drop 10 s))
  else match s with
       | EmptyString => None
       | String _ r => PyText.search_build_id r
       end.
Proof.
  destruct s as [|c r]; [reflexivity|].
  unfold PyText.search_build_id at 1; fold PyText.search_build_id.
  cbv zeta. destruct (PyStr.startswith "Build ID: " (String c r)); [|reflexivity].
  cbn [andb]. reflexivity.
Qed.

Lemma search_build_id_Some (s id : string) :
  PyText.search_build_id s = Some id ->
  id <> "" /\ all_chars PyText.is_word id = true
  /\ exists i : nat, PyStr.startswith ("Build ID: " +:+ id) (PyStr.drop i s) = true.
Proof.
  induction s as [|c r IH]; rewrite search_build_id_unfold.
  - discriminate.
  - set (w := PyText.word_prefix (PyStr.drop 10 (String c r))).
    destruct (PyStr.startswith "Build ID: " (String c r) && PyStr.truthy w) eqn:Hhere.
    + intros H. assert (id = w) as -> by congruence. clear H.
      apply andb_true_iff in Hhere as [Hstart Hword].
      split; [|split; [apply word_prefix_all_word|]].
      * intros Hempty. unfold PyStr.truthy in Hword. rewrite Hempty in Hword.
        discriminate.
      * exists 0%nat. apply startswith_app; [exact Hstart|].
        apply word_prefix_startswith.
    + intros H. destruct (IH H) as (Hne & Hall & i & Hi).
      split; [exact Hne | split; [exact Hall|]]. now exists (S i).
Qed.

Lemma search_build_id_first (s : string) : forall i : nat,
  PyStr.find "Build ID: " s = Some i ->
  PyText.word_prefix (PyStr.drop (i + 10) s) <> "" ->
  PyText.search_build_id s = Some (PyText.word_prefix (PyStr.drop (i + 10) s)).
Proof.
  induction s as [|c r IH]; intros i Hfind Hword; [discriminate|].
  rewrite search_build_id_unfold.
  unfold PyStr.find in Hfind; fold PyStr.find in Hfind.
  destruct (PyStr.startswith "Build ID: " (String c r)) eqn:Hstart.
  - injection Hfind as <-. change (0 + 10)%nat with 10%nat in *.
    unfold PyStr.truthy.
    set (w := PyText.word_prefix (PyStr.drop 10 (String c r))) in *.
    destruct (String.eqb w "") eqn:Hw; [|reflexivity].
    apply String.eqb_eq in Hw. contradiction.
  - cbn [andb]. destruct (PyStr.find "Build ID: " r) as [j|] eqn:Hj; [|discriminate].
    injection Hfind as <-. exact (IH j eq_refl Hword).
Qed.

Lemma search_build_id_None (s : string) :
  PyStr.find "Build ID: " s = None -> PyText.search_build_id s = None.
Proof.
  induction s as [|c r IH]; intros Hfind; rewrite search_build_id_unfold.
  - reflexivity.
  - unfold PyStr.find in Hfind; fold PyStr.find in Hfind.
    destruct (PyStr.startswith "Build ID: " (String c r)); [discriminate|].
    cbn [andb]. apply IH. now destruct (PyStr.find "Build ID: " r).
Qed.

Lemma rstrip_spec (s : string) :
  exists trail : string,
    s = PyText.rstrip s +:+ trail /\ all_chars Ascii.is_space trail = true.
Proof.
  induction s as [|c r (trail & Hr & Htrail)]; [now exists ""|].
  cbn [PyText.rstrip]. destruct (PyText.rstrip r) as [|k kept] eqn:Hkept.
  - destruct (Ascii.is_space c) eqn:Hc.
    + exists (String c r). split; [reflexivity|].
      change ("" +:+ trail) with trail in Hr. subst trail.
      cbn [all_chars]. now rewrite Hc.
    + exists r. split; [reflexivity|].
      change ("" +:+ trail) with trail in Hr. now subst trail.
  - exists trail. split; [|exact Htrail]. rewrite append_cons. now f_equal.
Qed.

Lemma rstrip_idem (s : string) : PyText.rstrip (PyText.rstrip s) = PyText.rstrip s.
Proof.
  induction s as [|c r IH]; [reflexivity|].
  cbn [PyText.rstrip]. destruct (PyText.rstrip r) as [|k kept] eqn:Hkept.
  - destruct (Ascii.is_space c) eqn:Hc; [reflexivity|].
    cbn [PyText.rstrip]. now rewrite Hc.
  - cbn [PyText.rstrip] in *. now rewrite IH.
Qed.

Section MetadataHelpersProperties.

Variable check_output : list string -> result string.

(** X21: the git revision of the metadata is what git printed without
    its trailing whitespace (the line terminator), and has no trailing
    whitespace itself. *)
Theorem DetectGitRevision_strips_trail (directory rev : string) :
  _DetectGitRevision check_output directory = Ok (Some rev) ->
  exists out trail : string,
    check_output ["git"; "-C"; directory; "rev-parse"; "HEAD"] = Ok out
    /\ out = rev +:+ trail
    /\ all_chars Ascii.is_space trail = true
    /\ PyText.rstrip rev = rev.
Proof.
  unfold _DetectGitRevision.
  destruct (check_output _) as [out|e]; [|destruct e; discriminate].
  intros [= <-]. destruct (rstrip_spec out) as (trail & Hout & Htrail).
  exists out, trail. split; [reflexivity | split; [exact Hout | split]];
    [exact Htrail | apply rstrip_idem].
Qed.

(** X22: a build id that [BuildIdFromElf] returns is a non-empty run of
    letters, digits and underscores that follows "Build ID: " somewhere in
    the output of readelf -n. *)
Theorem BuildIdFromElf_returns_word (elf_path tool_prefix build_id : string) :
  BuildIdFromElf check_output elf_path tool_prefix = Ok build_id ->
  build_id <> ""
  /\ all_chars PyText.is_word build_id = true
  /\ exists (stdout : string) (i : nat),
       check_output [tool_prefix +:+ "readelf"; "-n"; elf_path] = Ok stdout
       /\ PyStr.startswith ("Build ID: " +:+ build_id) (PyStr.drop i stdout) = true.
Proof.
  unfold BuildIdFromElf. cbv zeta.
  destruct (check_output _) as [stdout|e]; [|discriminate]. cbn [mbind result_bind].
  destruct (PyText.search_build_id stdout) as [id|] eqn:Hsearch; [|discriminate].
  intros [= <-]. destruct (search_build_id_Some _ _ Hsearch) as (Hne & Hall & i & Hi).
  split; [exact Hne | split; [exact Hall|]]. now exists stdout, i.
Qed.

(** X23: when the first "Build ID: " of the output is followed by a
    letter, digit or underscore, the build id is the longest run of such
    characters after it. *)
Theorem BuildIdFromElf_first_occurrence (elf_path tool_prefix stdout : string) (i : nat) :
  check_output [tool_prefix +:+ "readelf"; "-n"; elf_path] = Ok stdout ->
  PyStr.find "Build ID: " stdout = Some i ->
  PyText.word_prefix (PyStr.drop (i + 10) stdout) <> "" ->
  BuildIdFromElf check_output elf_path tool_prefix
  = Ok (PyText.word_prefix (PyStr.drop (i + 10) stdout)).
Proof.
  intros Hout Hfind Hword. unfold BuildIdFromElf. cbv zeta. rewrite Hout.
  cbn [mbind result_bind]. now rewrite (search_build_id_first _ _ Hfind Hword).
Qed.

(** X24: when the output of readelf -n holds no "Build ID: ", the
    assertion of line 276 fails, with the command line in its message. *)
Theorem BuildIdFromElf_without_note (elf_path tool_prefix stdout : string) :
  check_output [tool_prefix +:+ "readelf"; "-n"; elf_path] = Ok stdout ->
  PyStr.contains "Build ID: " stdout = false ->
  BuildIdFromElf check_output elf_path tool_prefix
  = Err (AssertionError
           ("Build ID not found from running: "
            +:+ tool_prefix +:+ "readelf -n " +:+ elf_path)).
Proof.
  intros Hout Hnone. unfold BuildIdFromElf. cbv zeta. rewrite Hout.
  cbn [mbind result_bind]. unfold PyStr.contains in Hnone.
  rewrite search_build_id_None by (now destruct (PyStr.find _ _)).
  cbn [PyStr.join]. rewrite !append_assoc. reflexivity.
Qed.

End MetadataHelpersProperties.

Lemma DetectGitRevision_strips_trail_witness :
  exists out trail : string,
    sample_check_output ["git"; "-C"; "out/Release"; "rev-parse"; "HEAD"] = Ok out
    /\ out = "4f2a9c1" +:+ trail
    /\ all_chars Ascii.is_space trail = true
    /\ PyText.rstrip "4f2a9c1" = "4f2a9c1".
Proof.
  apply (DetectGitRevision_strips_trail sample_check_output "out/Release" "4f2a9c1").
  reflexivity.
Defined.

Lemma BuildIdFromElf_returns_word_witness :
  "0a1b2c3d4e5f" <> ""
  /\ all_chars PyText.is_word "0a1b2c3d4e5f" = true
  /\ exists (stdout : string) (i : nat),
       sample_check_output ["readelf"; "-n"; "lib.so"] = Ok stdout
       /\ PyStr.startswith ("Build ID: " +:+ "0a1b2c3d4e5f") (PyStr.drop i stdout) = true.
Proof.
  apply (BuildIdFromElf_returns_word sample_check_output "lib.so" "" "0a1b2c3d4e5f").
  reflexivity.
Defined.

Lemma BuildIdFromElf_first_occurrence_witness :
  BuildIdFromElf sample_check_output "lib.so" "" = Ok "0a1b2c3d4e5f".
Proof.
  apply (BuildIdFromElf_first_occurrence sample_check_output "lib.so" ""
           readelf_notes 50%nat); [reflexivity | reflexivity | discriminate].
Defined.

Lemma BuildIdFromElf_without_note_witness :
  BuildIdFromElf (fun _ => Ok "") "lib.so" "arm-"
  = Err (AssertionError "Build ID not found from running: arm-readelf -n lib.so").
Proof.
  apply (BuildIdFromElf_without_note (fun _ => Ok "") "lib.so" "arm-" "");
    reflexivity.
Defined.

(** *** The arguments of args.gn *)

Lemma has_char_append (c : ascii) (a b : string) :
  has_char c (a +:+ b) = has_char c a || has_char c b.
Proof.
  induction a as [|x a IH]; [reflexivity|].
  rewrite append_cons. cbn [has_char]. now rewrite IH, orb_assoc.
Qed.

Lemma split_nonempty (sep : ascii) (s : string) : PyText.split sep s <> [].
Proof.
  destruct s as [|c r]; [discriminate|]. cbn [PyText.split].
  destruct (Ascii.eqb c sep); [discriminate|].
  destruct (PyText.split sep r); discriminate.
Qed.

Lemma split_unfold (sep c : ascii) (r : string) :
  PyText.split sep (String c r) =
  if Ascii.eqb c sep then "" :: PyText.split sep r
  else String c (List.hd "" (PyText.split sep r)) :: List.tl (PyText.split sep r).
Proof.
  cbn [PyText.split]. destruct (Ascii.eqb c sep); [reflexivity|].
  pose proof (split_nonempty sep r). now destruct (PyText.split sep r).
Qed.

Lemma split_absent (sep : ascii) (s : string) :
  has_char sep s = false -> PyText.split sep s = [s].
Proof.
  induction s as [|c r IH]; [reflexivity|]. cbn [has_char]. intros H.
  apply orb_false_iff in H as [Hc Hr]. rewrite split_unfold, Hc, (IH Hr). reflexivity.
Qed.

Lemma split_app (sep : ascii) (a b : string) :
  has_char sep a = false ->
  PyText.split sep (a +:+ String sep b) = a :: PyText.split sep b.
Proof.
  induction a as [|c a IH]; intros H.
  - change ("" +:+ String sep b) with (String sep b).
    now rewrite split_unfold, Ascii.eqb_refl.
  - cbn [has_char] in H. apply orb_false_iff in H as [Hc Ha].
    rewrite append_cons, split_unfold, Hc, (IH Ha). reflexivity.
Qed.

Lemma split_pieces_lack (sep c : ascii) (s : string) :
  has_char c s = false ->
  Forall (fun piece => has_char c piece = false) (PyText.split sep s).
Proof.
  induction s as [|x r IH]; intros H; [now repeat constructor|].
  cbn [has_char] in H. apply orb_false_iff in H as [Hx Hr]. specialize (IH Hr).
  rewrite split_unfold. destruct (Ascii.eqb x sep); [now constructor|].
  pose proof (split_nonempty sep r). destruct (PyText.split sep r) as [|piece pieces];
    [congruence|].
  apply Forall_cons in IH as [Hpiece Hpieces]. cbn [List.hd List.tl].
  constructor; [|exact Hpieces]. cbn [has_char]. now rewrite Hx, Hpiece.
Qed.

Lemma split_pieces_lack_sep (sep : ascii) (s : string) :
  Forall (fun piece => has_char sep piece = false) (PyText.split sep s).
Proof.
  induction s as [|x r IH]; [now repeat constructor|].
  rewrite split_unfold. destruct (Ascii.eqb x sep) eqn:Hx; [now constructor|].
  pose proof (split_nonempty sep r). destruct (PyText.split sep r) as [|piece pieces];
    [congruence|].
  apply Forall_cons in IH as [Hpiece Hpieces]. cbn [List.hd List.tl].
  constructor; [|exact Hpieces]. cbn [has_char]. now rewrite Hx, Hpiece.
Qed.

Lemma lstrip_lacks (c : ascii) (s : string) :
  has_char c s = false -> has_char c (PyText.lstrip s) = false.
Proof.
  induction s as [|x r IH]; [reflexivity|]. intros H. cbn [PyText.lstrip].
  destruct (Ascii.is_space x); [|exact H].
  cbn [has_char] in H. apply orb_false_iff in H as [_ Hr]. now apply IH.
Qed.

Lemma rstrip_lacks (c : ascii) (s : string) :
  has_char c s = false -> has_char c (PyText.rstrip s) = false.
Proof.
  induction s as [|x r IH]; [reflexivity|]. intros H.
  cbn [has_char] in H. apply orb_false_iff in H as [Hx Hr]. specialize (IH Hr).
  cbn [PyText.rstrip]. destruct (PyText.rstrip r) as [|k kept].
  - destruct (Ascii.is_space x); [reflexivity|]. cbn [has_char]. now rewrite Hx.
  - cbn [has_char] in *. now rewrite Hx, IH.
Qed.

Lemma strip_lacks (c : ascii) (s : string) :
  has_char c s = false -> has_char c (PyText.strip s) = false.
Proof. intros H. now apply rstrip_lacks, lstrip_lacks. Qed.

Lemma lstrip_head (s : string) :
  PyText.lstrip s = ""
  \/ exists (c : ascii) (r : string),
       PyText.lstrip s = String c r /\ Ascii.is_space c = false.
Proof.
  induction s as [|x r IH]; [now left|]. cbn [PyText.lstrip].
  destruct (Ascii.is_space x) eqn:Hx; [exact IH|]. right. eauto.
Qed.

Lemma rstrip_head (c : ascii) (r : string) :
  Ascii.is_space c = false ->
  exists kept : string, PyText.rstrip (String c r) = String c kept.
Proof.
  intros Hc. cbn [PyText.rstrip]. destruct (PyText.rstrip r) as [|k kept].
  - rewrite Hc. eauto.
  - eauto.
Qed.

Lemma strip_idem (s : string) : PyText.strip (PyText.strip s) = PyText.strip s.
Proof.
  unfold PyText.strip.
  destruct (lstrip_head s) as [-> | (c & r & -> & Hc)]; [reflexivity|].
  destruct (rstrip_head c r Hc) as [kept Hkept].
  rewrite <- (rstrip_idem (String c r)) at 2. rewrite Hkept.
  cbn [PyText.lstrip]. now rewrite Hc.
Qed.

Lemma rstrip_app_space (c : ascii) (s : string) :
  Ascii.is_space c = true -> PyText.rstrip (s +:+ String c "") = PyText.rstrip s.
Proof.
  intros Hc. induction s as [|x r IH].
  - change ("" +:+ String c "") with (String c ""). cbn [PyText.rstrip]. now rewrite Hc.
  - rewrite append_cons. cbn [PyText.rstrip]. now rewrite IH.
Qed.

Lemma strip_app_space (c : ascii) (s : string) :
  Ascii.is_space c = true -> PyText.strip (s +:+ String c "") = PyText.strip s.
Proof.
  intros Hc. unfold PyText.strip. induction s as [|x r IH].
  - change ("" +:+ String c "") with (String c ""). cbn [PyText.lstrip]. now rewrite Hc.
  - rewrite append_cons. cbn [PyText.lstrip]. destruct (Ascii.is_space x); [exact IH|].
    rewrite <- append_cons. now apply rstrip_app_space.
Qed.

(** What one line does to the dict: nothing, or the assignment of a
    token to a token. *)
Lemma parse_gn_line_cases (args : gmap string string) (l : string) :
  (parse_gn_line args l = args)
  \/ exists key value : string,
       gn_token key /\ gn_token value /\ parse_gn_line args l = <[key := value]> args.
Proof.
  unfold parse_gn_line. cbv zeta.
  assert (Hbody : has_char "#" (List.hd "" (PyText.split "#" l)) = false).
  { pose proof (split_pieces_lack_sep "#" l) as H.
    destruct (PyText.split "#" l) as [|body rest]; [reflexivity|].
    now apply Forall_cons in H as [H _]. }
  pose proof (split_pieces_lack "=" "#" _ Hbody) as Hhash.
  pose proof (split_pieces_lack_sep "=" (List.hd "" (PyText.split "#" l))) as Heq.
  destruct (PyText.split "=" _) as [|key [|value [|extra parts]]]; [now left.. | | now left].
  right. exists (PyText.strip key), (PyText.strip value).
  apply Forall_cons in Hhash as [Hk1 Hhash]. apply Forall_cons in Hhash as [Hv1 _].
  apply Forall_cons in Heq as [Hk2 Heq]. apply Forall_cons in Heq as [Hv2 _].
  unfold gn_token.
  repeat split; auto using strip_lacks, strip_idem.
Qed.

Lemma gn_fold_tokens (f : list string) : forall args : gmap string string,
  map_Forall (fun key value => gn_token key /\ gn_token value) args ->
  map_Forall (fun key value => gn_token key /\ gn_token value)
    (foldl parse_gn_line args f).
Proof.
  induction f as [|l f IH]; intros args Hargs; [exact Hargs|].
  cbn [foldl]. apply IH.
  destruct (parse_gn_line_cases args l) as [-> | (key & value & Hk & Hv & ->)];
    [exact Hargs|].
  now apply map_Forall_insert_2.
Qed.

Lemma gn_dict_tokens (f : list string) :
  map_Forall (fun key value => gn_token key /\ gn_token value) (gn_dict f).
Proof. apply gn_fold_tokens, map_Forall_empty. Qed.

Lemma sorted_items_elem_of (d : gmap string string) (key value : string) :
  (key, value) ∈ sorted_items d <-> d !! key = Some value.
Proof.
  unfold sorted_items. rewrite merge_sort_Permutation. apply elem_of_map_to_list.
Qed.

Lemma sorted_items_NoDup (d : gmap string string) : NoDup (sorted_items d).*1.
Proof.
  unfold sorted_items. rewrite merge_sort_Permutation. apply NoDup_fst_map_to_list.
Qed.

Lemma tuple_le_total : Total tuple_le.
Proof.
  intros [k1 v1] [k2 v2]. unfold tuple_le. cbn [fst snd].
  destruct (decide (k1 = k2)) as [->|Hne].
  - destruct (String.le_total v1 v2); [left | right]; split; try reflexivity; auto.
  - destruct (String.le_total k1 k2); [left | right]; split; auto; congruence.
Qed.

Lemma tuple_le_trans : Transitive tuple_le.
Proof.
  intros [k1 v1] [k2 v2] [k3 v3]. unfold tuple_le. cbn [fst snd].
  intros [H12 Hv12] [H23 Hv23]. split; [now transitivity k2|].
  intros <-. assert (k1 = k2) as <- by (now apply (anti_symm String.le)).
  transitivity v2; auto.
Qed.

Lemma sorted_items_sorted (d : gmap string string) :
  StronglySorted String.le (sorted_items d).*1.
Proof.
  apply (StronglySorted_fmap fst tuple_le); [now intros x y [H _]|].
  apply StronglySorted_merge_sort; [apply tuple_le_trans | apply tuple_le_total].
Qed.

Lemma StronglySorted_strict {A} (R : relation A) (l : list A) :
  AntiSymm eq R -> StronglySorted R l -> NoDup l -> StronglySorted (strict R) l.
Proof.
  intros Hanti Hsorted. induction Hsorted as [|x l _ IH Hall]; intros Hnodup;
    [constructor|].
  apply NoDup_cons in Hnodup as [Hx Hnodup]. constructor; [now apply IH|].
  rewrite Forall_forall in *. intros y Hy. split; [now apply Hall|].
  intros Hyx. assert (x = y) as -> by (apply Hanti; auto). contradiction.
Qed.

Lemma gn_key_token (key value : string) :
  has_char "=" key = false -> gn_key (key +:+ "=" +:+ value) = key.
Proof.
  intros H. unfold gn_key.
  change ("=" +:+ value) with (String "=" value). now rewrite (split_app "=" key value H).
Qed.

Lemma sorted_items_tokens (f : list string) :
  Forall (fun x => gn_token (fst x) /\ gn_token (snd x)) (sorted_items (gn_dict f)).
Proof.
  apply Forall_forall. intros [key value] Hin.
  apply sorted_items_elem_of in Hin. exact (gn_dict_tokens f key value Hin).
Qed.

Lemma gn_keys_of_items (items : list (string * string)) :
  Forall (fun x => gn_token (fst x) /\ gn_token (snd x)) items ->
  gn_key <$> ((fun x => fst x +:+ "=" +:+ snd x) <$> items) = items.*1.
Proof.
  intros H. rewrite <- list_fmap_compose. apply Forall_fmap_ext_1.
  eapply Forall_impl; [exact H|]. intros [key value] [(_ & Hk & _) _].
  now apply gn_key_token.
Qed.

Lemma foldl_insert_list_to_map (items : list (string * string)) :
  NoDup items.*1 ->
  foldl (fun (args : gmap string string) x => <[fst x := snd x]> args) ∅ items
  = list_to_map items.
Proof.
  induction items as [|x items IH] using rev_ind; intros Hnodup; [reflexivity|].
  rewrite fmap_app in Hnodup. apply NoDup_app in Hnodup as (Hitems & Hx & _).
  rewrite foldl_app. cbn [foldl]. rewrite (IH Hitems). destruct x as [key value].
  symmetry. apply list_to_map_snoc. intros Hin. apply (Hx key Hin). cbn. left.
Qed.

(** Parsing the line written for a stored item stores the item again. *)
Lemma parse_gn_line_item (args : gmap string string) (key value : string) :
  gn_token key -> gn_token value ->
  parse_gn_line args ((key +:+ "=" +:+ value) +:+ String PyStr.LF "")
  = <[key := value]> args.
Proof.
  intros (Hk1 & Hk2 & Hk3) (Hv1 & Hv2 & Hv3). unfold parse_gn_line. cbv zeta.
  rewrite (split_absent "#")
    by (rewrite !has_char_append, Hk1, Hv1; reflexivity).
  cbn [List.hd]. rewrite !append_assoc.
  change ("=" +:+ value +:+ String PyStr.LF "")
    with (String "=" (value +:+ String PyStr.LF "")).
  rewrite (split_app "=" key _ Hk2).
  rewrite (split_absent "=") by (rewrite has_char_append, Hv2; reflexivity).
  now rewrite Hk3, (strip_app_space PyStr.LF value eq_refl), Hv3.
Qed.

Lemma gn_fold_items (items : list (string * string)) :
  Forall (fun x => gn_token (fst x) /\ gn_token (snd x)) items ->
  forall args : gmap string string,
  foldl parse_gn_line args
    ((fun line => line +:+ String PyStr.LF "")
       <$> ((fun x => fst x +:+ "=" +:+ snd x) <$> items))
  = foldl (fun (args : gmap string string) x => <[fst x := snd x]> args) args items.
Proof.
  induction 1 as [|[key value] items [Hk Hv] _ IH]; intros args; [reflexivity|].
  rewrite !fmap_cons. cbn [foldl fst snd]. rewrite (parse_gn_line_item _ _ _ Hk Hv).
  apply IH.
Qed.

(** X25: a line that, before its first "#", holds no "=" or more than
    one (an empty line, a comment, a line with two "=") changes nothing,
    wherever it stands in the file. *)
Theorem ParseGnArgs_skips_line (before after : list string) (l : string) :
  length (PyText.split "=" (List.hd "" (PyText.split "#" l))) <> 2%nat ->
  _ParseGnArgs (before ++ l :: after) = _ParseGnArgs (before ++ after).
Proof.
  intros H. unfold _ParseGnArgs, gn_dict. rewrite !foldl_app. cbn [foldl].
  replace (parse_gn_line (foldl parse_gn_line ∅ before) l)
    with (foldl parse_gn_line ∅ before); [reflexivity|].
  unfold parse_gn_line. cbv zeta.
  destruct (PyText.split "=" _) as [|key [|value [|extra parts]]]; try reflexivity.
  now contradiction H.
Qed.

(** X26: the last assignment of a key wins: when the last line of the
    file assigns [value] to [key], the stripped pair is among the returned
    strings, and no other returned string has that key. *)
Theorem ParseGnArgs_last_assignment_wins (f : list string) (l key value : string) :
  PyText.split "=" (List.hd "" (PyText.split "#" l)) = [key; value] ->
  (PyText.strip key +:+ "=" +:+ PyText.strip value) ∈ _ParseGnArgs (f ++ [l])
  /\ (forall line : string,
        line ∈ _ParseGnArgs (f ++ [l]) ->
        gn_key line = PyText.strip key ->
        line = PyText.strip key +:+ "=" +:+ PyText.strip value).
Proof.
  intros Hparts.
  assert (Hdict : gn_dict (f ++ [l])
                  = <[PyText.strip key := PyText.strip value]> (gn_dict f)).
  { unfold gn_dict. rewrite foldl_app. cbn [foldl]. unfold parse_gn_line at 1.
    cbv zeta. now rewrite Hparts. }
  split.
  - unfold _ParseGnArgs.
    apply (list_elem_of_fmap_2 (fun x => fst x +:+ "=" +:+ snd x) _
             (PyText.strip key, PyText.strip value)).
    apply sorted_items_elem_of. rewrite Hdict. apply lookup_insert_eq.
  - intros line Hin Hkey. unfold _ParseGnArgs in Hin.
    apply list_elem_of_fmap in Hin as ([k v] & -> & Hin). cbn [fst snd] in *.
    apply sorted_items_elem_of in Hin.
    destruct (gn_dict_tokens _ _ _ Hin) as [(_ & Hk & _) _].
    rewrite (gn_key_token _ _ Hk) in Hkey. subst k.
    rewrite Hdict, lookup_insert_eq in Hin. now injection Hin as <-.
Qed.

(** X27: the keys of the returned strings increase strictly in the
    order of byte strings: the list is sorted by key and holds every key
    once. *)
Theorem ParseGnArgs_keys_increase (f : list string) :
  StronglySorted (strict String.le) (gn_key <$> _ParseGnArgs f).
Proof.
  unfold _ParseGnArgs. rewrite (gn_keys_of_items _ (sorted_items_tokens f)).
  apply StronglySorted_strict;
    [apply _ | apply sorted_items_sorted | apply sorted_items_NoDup].
Qed.

(** X28: the returned list is a normal form: a file that holds the
    returned strings, one per line, parses to the same list. *)
Theorem ParseGnArgs_round_trip (f : list string) :
  _ParseGnArgs ((fun line => line +:+ String PyStr.LF "") <$> _ParseGnArgs f)
  = _ParseGnArgs f.
Proof.
  unfold _ParseGnArgs at 1 3. f_equal. f_equal. unfold _ParseGnArgs, gn_dict at 1.
  rewrite (gn_fold_items _ (sorted_items_tokens f)).
  rewrite (foldl_insert_list_to_map _ (sorted_items_NoDup _)).
  unfold sorted_items.
  rewrite (list_to_map_proper _ (map_to_list (gn_dict f)));
    [apply list_to_map_to_list | apply (sorted_items_NoDup (gn_dict f))
     | apply merge_sort_Permutation].
Qed.

Lemma ParseGnArgs_skips_line_witness :
  _ParseGnArgs (["is_debug = true"] ++ "# a = b" :: ["target_os = android"])
  = _ParseGnArgs (["is_debug = true"] ++ ["target_os = android"]).
Proof.
  apply (ParseGnArgs_skips_line ["is_debug = true"] ["target_os = android"] "# a = b").
  vm_compute. lia.
Defined.

Lemma ParseGnArgs_last_assignment_wins_witness :
  "is_debug=false" ∈ _ParseGnArgs (["is_debug = true"] ++ ["is_debug = false # off"]).
Proof.
  exact (proj1 (ParseGnArgs_last_assignment_wins ["is_debug = true"]
                  "is_debug = false # off" "is_debug " " false " eq_refl)).
Defined.

(** *** The section sizes of the ELF file *)

Lemma take_while_startswith (P : ascii -> bool) (s : string) :
  PyStr.startswith (Elf.take_while P s) s = true.
Proof.
  induction s as [|c s IH]; [reflexivity|]. cbn [Elf.take_while].
  destruct (P c); [|reflexivity]. cbn [PyStr.startswith]. now rewrite Ascii.eqb_refl.
Qed.

Lemma drop_take_while (P : ascii -> bool) (s : string) :
  PyStr.drop (String.length (Elf.take_while P s)) s = Elf.drop_while P s.
Proof.
  induction s as [|c s IH]; [reflexivity|]. cbn [Elf.take_while Elf.drop_while].
  destruct (P c); [exact IH | reflexivity].
Qed.

(** A match yields a group that starts with a dot and stands in the
    text, after the bracket, the run and the two characters that follow
    it. *)
Lemma match_here_group (s group : string) (len : nat) :
  Elf.match_here s = Some (group, len) ->
  (exists r : string, group = String "." r)
  /\ exists i : nat, PyStr.startswith group (PyStr.drop i s) = true.
Proof.
  destruct s as [|c s]; [discriminate|]. unfold Elf.match_here.
  destruct (Ascii.eqb c "["); [|discriminate]. cbv zeta.
  set (in_class := fun x => Ascii.is_space x || Elf.is_digit x).
  destruct (PyStr.truthy _ && PyStr.startswith "] ." (Elf.drop_while in_class s))
    eqn:Hcond; [|discriminate].
  apply andb_true_iff in Hcond as [_ Hafter]. intros [= <- _].
  split; [eauto|].
  exists (S (String.length (Elf.take_while in_class s) + 2)).
  cbn [PyStr.drop]. rewrite <- drop_drop, drop_take_while.
  rewrite (startswith_append _ _ Hafter) at 2.
  change (String.length "] .") with 3%nat.
  change (PyStr.drop 2 ("] ." +:+ ?x)) with (String "." x).
  cbn [PyStr.startswith]. rewrite Ascii.eqb_refl. apply take_while_startswith.
Qed.

Lemma finditer_aux_groups (s : string) : forall skip : nat,
  Forall (fun group =>
            (exists r : string, group = String "." r)
            /\ exists i : nat, PyStr.startswith group (PyStr.drop i s) = true)
    (Elf.finditer_aux skip s).
Proof.
  assert (Hnext : forall (c : ascii) (s : string) (l : list string),
            Forall (fun group =>
                      (exists r : string, group = String "." r)
                      /\ exists i : nat, PyStr.startswith group (PyStr.drop i s) = true) l ->
            Forall (fun group =>
                      (exists r : string, group = String "." r)
                      /\ exists i : nat,
                           PyStr.startswith group (PyStr.drop i (String c s)) = true) l).
  { intros c s0 l H. eapply Forall_impl; [exact H|]. intros group [Hdot [i Hi]].
    split; [exact Hdot|]. now exists (S i). }
  induction s as [|c s IH]; intros skip; [constructor|].
  cbn [Elf.finditer_aux]. destruct skip as [|k]; [|apply Hnext, IH].
  destruct (Elf.match_here (String c s)) as [[group len]|] eqn:Hmatch;
    [|apply Hnext, IH].
  constructor; [exact (match_here_group _ _ _ Hmatch) | apply Hnext, IH].
Qed.

Lemma rev_app_append (a b : string) : String.rev_app a b = String.rev a +:+ b.
Proof.
  revert b. unfold String.rev. induction a as [|c a IH]; intros b; [reflexivity|].
  cbn [String.rev_app]. rewrite (IH (String c b)), (IH (String c "")).
  now rewrite append_assoc.
Qed.

Lemma words_go_head (c : ascii) (s : string) : forall acc w : string,
  String.rev acc = String c w ->
  exists (k : string) (rest : list string),
    String.words_go (Some acc) s = String c k :: rest.
Proof.
  induction s as [|a s IH]; intros acc w Hacc; cbn [String.words_go].
  - cbn. rewrite Hacc. eauto.
  - destruct (Ascii.is_space a).
    + cbn. rewrite Hacc. eauto.
    + cbn [from_option]. apply (IH (String a acc) (w +:+ String a "")).
      unfold String.rev. cbn [String.rev_app]. rewrite rev_app_append.
      fold (String.rev acc). now rewrite Hacc.
Qed.

Lemma words_head (c : ascii) (r : string) :
  Ascii.is_space c = false ->
  exists (k : string) (rest : list string),
    String.words (String c r) = String c k :: rest.
Proof.
  intros Hc. unfold String.words. cbn [String.words_go]. rewrite Hc.
  cbn [from_option]. now apply (words_go_head c r (String c "") "").
Qed.

(** A run of the class ends at the first character outside it. *)
Lemma take_while_app (P : ascii -> bool) (run : string) (c : ascii) (r : string) :
  all_chars P run = true -> P c = false ->
  Elf.take_while P (run +:+ String c r) = run
  /\ Elf.drop_while P (run +:+ String c r) = String c r.
Proof.
  intros Hrun Hc. induction run as [|x run IH].
  - change ("" +:+ String c r) with (String c r). cbn. now rewrite Hc.
  - cbn [all_chars] in Hrun. apply andb_true_iff in Hrun as [Hx Hrun].
    rewrite append_cons. cbn [Elf.take_while Elf.drop_while]. rewrite Hx.
    destruct (IH Hrun) as [-> ->]. now split.
Qed.

(** A character outside the class stops the run wherever it stands. *)
Lemma take_while_stop (P : ascii -> bool) (b : string) (c : ascii) (r : string) :
  P c = false ->
  Elf.take_while P (b +:+ String c r) = Elf.take_while P b
  /\ Elf.drop_while P (b +:+ String c r) = Elf.drop_while P b +:+ String c r.
Proof.
  intros Hc. induction b as [|x b [IHt IHd]].
  - change ("" +:+ String c r) with (String c r). cbn. now rewrite Hc.
  - rewrite append_cons. cbn [Elf.take_while Elf.drop_while].
    destruct (P x); [now rewrite IHt, IHd | now rewrite append_cons].
Qed.

(** The rest of the line, up to the line feed that follows it or to the
    end of the text. *)
Lemma take_while_line (line after : string) :
  has_char PyStr.LF line = false ->
  after = "" \/ PyStr.startswith (String PyStr.LF "") after = true ->
  Elf.take_while (fun x => negb (Ascii.eqb x PyStr.LF)) (line +:+ after) = line.
Proof.
  intros Hline Hafter. induction line as [|x line IH].
  - change ("" +:+ after) with after. destruct Hafter as [-> | Hlf]; [reflexivity|].
    destruct after as [|a after]; [reflexivity|]. cbn [PyStr.startswith] in Hlf.
    apply andb_true_iff in Hlf as [Hlf _]. apply Ascii.eqb_eq in Hlf as <-.
    reflexivity.
  - cbn [has_char] in Hline. apply orb_false_iff in Hline as [Hx Hline].
    rewrite append_cons. cbn [Elf.take_while]. now rewrite Hx, (IH Hline).
Qed.

(** A prefix that lacks a character starts a text before that character
    only if it starts the text that ends there. *)
Lemma startswith_stop (p d : string) (c : ascii) (r : string) :
  has_char c p = false ->
  PyStr.startswith p (d +:+ String c r) = true -> PyStr.startswith p d = true.
Proof.
  revert d. induction p as [|a p IH]; intros d Hp H; [now destruct d|].
  cbn [has_char] in Hp. apply orb_false_iff in Hp as [Ha Hp].
  destruct d as [|x d].
  - change ("" +:+ String c r) with (String c r) in H. cbn [PyStr.startswith] in H.
    rewrite Ha in H. discriminate.
  - rewrite append_cons in H. cbn [PyStr.startswith] in *.
    apply andb_true_iff in H as [-> H]. now apply (IH d).
Qed.

(** No match starts in a text before an opening bracket unless it starts
    in that text alone. *)
Lemma match_here_stop (c : ascii) (b r : string) :
  Elf.match_here (String c b) = None ->
  Elf.match_here (String c (b +:+ String "[" r)) = None.
Proof.
  unfold Elf.match_here. destruct (Ascii.eqb c "["); [|reflexivity]. cbv zeta.
  destruct (take_while_stop (fun x => Ascii.is_space x || Elf.is_digit x) b "[" r eq_refl)
    as [-> ->].
  destruct (PyStr.truthy _); [|reflexivity]. cbn [andb].
  destruct (PyStr.startswith "] ." (Elf.drop_while _ b)) eqn:Hb; [discriminate|].
  intros _.
  destruct (PyStr.startswith "] ." (Elf.drop_while _ b +:+ String "[" r)) eqn:Hbr;
    [|reflexivity].
  apply startswith_stop in Hbr; [congruence | reflexivity].
Qed.

Lemma finditer_aux_stop (before r : string) :
  Elf.finditer_aux 0 before = [] ->
  Elf.finditer_aux 0 (before +:+ String "[" r) = Elf.finditer_aux 0 (String "[" r).
Proof.
  induction before as [|c before IH]; intros H; [reflexivity|].
  rewrite append_cons. cbn [Elf.finditer_aux] in H.
  destruct (Elf.match_here (String c before)) as [[group len]|] eqn:Hmatch;
    [discriminate|].
  change (Elf.finditer_aux 0 (String c (before +:+ String "[" r)))
    with (match Elf.match_here (String c (before +:+ String "[" r)) with
          | Some (group, len) =>
              group :: Elf.finditer_aux (len - 1) (before +:+ String "[" r)
          | None => Elf.finditer_aux 0 (before +:+ String "[" r)
          end).
  rewrite (match_here_stop c before r Hmatch). exact (IH H).
Qed.

Section SectionSizesProperties.

Variable check_output : list string -> result string.
Variable int16 : string -> result Z.

Lemma record_sections_fields (Q : string -> Prop) (groups : list string) :
  Forall (fun group => (exists r : string, group = String "." r) /\ Q group) groups ->
  forall sizes sizes' : gmap string Z,
  map_Forall (fun k v =>
                PyStr.startswith "." k = true
                /\ exists group x : string,
                     Q group
                     /\ String.words group !! 0%nat = Some k
                     /\ String.words group !! 4%nat = Some x
                     /\ int16 x = Ok v) sizes ->
  Elf.record_sections int16 sizes groups = Ok sizes' ->
  map_Forall (fun k v =>
                PyStr.startswith "." k = true
                /\ exists group x : string,
                     Q group
                     /\ String.words group !! 0%nat = Some k
                     /\ String.words group !! 4%nat = Some x
                     /\ int16 x = Ok v) sizes'.
Proof.
  induction 1 as [|group groups [[r Hdot] HQ] _ IH]; intros sizes sizes' Hsizes H.
  - now injection H as <-.
  - cbn [Elf.record_sections] in H. apply bind_Ok in H as (sizes1 & Hone & H).
    refine (IH sizes1 sizes' _ H). unfold Elf.record_section in Hone.
    cbv zeta in Hone.
    apply bind_Ok in Hone as (item4 & Hitem4 & Hone).
    apply bind_Ok in Hone as (value & Hvalue & Hone).
    apply bind_Ok in Hone as (item0 & Hitem0 & Hone). injection Hone as <-.
    destruct (String.words group !! 4%nat) as [x|] eqn:H4; [|discriminate].
    injection Hitem4 as <-.
    destruct (String.words group !! 0%nat) as [k|] eqn:H0; [|discriminate].
    injection Hitem0 as <-.
    apply map_Forall_insert_2; [|exact Hsizes]. split.
    + subst group. destruct (words_head "." r eq_refl) as (k' & rest & Hwords).
      rewrite Hwords in H0. now injection H0 as <-.
    + exists group, x. auto.
Qed.

(** X29: every entry that [_SectionSizesFromElf] returns comes from a
    line of the output of readelf that the pattern matches: the section
    name starts with a dot and is the first whitespace-separated field of
    the matched text, and the size is what [int] made of its fifth
    field. *)
Theorem SectionSizesFromElf_names (elf_path tool_prefix : string)
  (sizes : gmap string Z) :
  Elf._SectionSizesFromElf check_output int16 elf_path tool_prefix = Ok sizes ->
  exists stdout : string,
    check_output [tool_prefix +:+ "readelf"; "-S"; "--wide"; elf_path] = Ok stdout
    /\ map_Forall (fun k v =>
                    PyStr.startswith "." k = true
                    /\ exists group x : string,
                         (group ∈ Elf.finditer stdout
                          /\ exists i : nat,
                               PyStr.startswith group (PyStr.drop i stdout) = true)
                         /\ String.words group !! 0%nat = Some k
                         /\ String.words group !! 4%nat = Some x
                         /\ int16 x = Ok v) sizes.
Proof.
  unfold Elf._SectionSizesFromElf. cbv zeta. intros H.
  apply bind_Ok in H as (stdout & Hout & H). exists stdout. split; [exact Hout|].
  refine (record_sections_fields _ (Elf.finditer stdout) _ ∅ sizes _ H);
    [|apply map_Forall_empty].
  apply Forall_forall. intros group Hin.
  pose proof (finditer_aux_groups stdout 0) as Hall. rewrite Forall_forall in Hall.
  destruct (Hall group Hin) as [Hdot Hsub]. auto.
Qed.

(** X30: a matching line is never skipped: when the first line of the
    output that the pattern matches has fewer than five
    whitespace-separated fields from the section name on, the call raises
    IndexError, whatever the text before the match (which holds none) and
    the lines after it are. *)
Theorem short_section_line_raises
  (elf_path tool_prefix before run line after : string) :
  check_output [tool_prefix +:+ "readelf"; "-S"; "--wide"; elf_path]
  = Ok (before +:+ "[" +:+ run +:+ "] ." +:+ line +:+ after) ->
  Elf.finditer before = [] ->
  run <> "" ->
  all_chars (fun x => Ascii.is_space x || Elf.is_digit x) run = true ->
  has_char PyStr.LF line = false ->
  after = "" \/ PyStr.startswith (String PyStr.LF "") after = true ->
  (length (String.words ("." +:+ line)) < 5)%nat ->
  Elf._SectionSizesFromElf check_output int16 elf_path tool_prefix = Err IndexError.
Proof.
  intros Hout Hbefore Hrun Hclass Hline Hafter Hshort.
  unfold Elf._SectionSizesFromElf. cbv zeta. rewrite Hout. cbn [mbind result_bind].
  enough (Hfirst : exists rest : list string,
            Elf.finditer (before +:+ "[" +:+ run +:+ "] ." +:+ line +:+ after)
            = ("." +:+ line) :: rest).
  { destruct Hfirst as [rest ->]. cbn [Elf.record_sections].
    unfold Elf.record_section. cbv zeta.
    rewrite (lookup_ge_None_2 (String.words ("." +:+ line)) 4) by lia.
    reflexivity. }
  unfold Elf.finditer in *.
  change ("[" +:+ run +:+ "] ." +:+ line +:+ after)
    with (String "[" (run +:+ String "]" (" ." +:+ line +:+ after))).
  rewrite (finditer_aux_stop before _ Hbefore).
  cbn [Elf.finditer_aux]. unfold Elf.match_here.
  change (Ascii.eqb "[" "[") with true. cbv iota zeta.
  destruct (take_while_app (fun x => Ascii.is_space x || Elf.is_digit x)
              run "]" (" ." +:+ line +:+ after) Hclass eq_refl) as [-> ->].
  replace (PyStr.truthy run) with true
    by (symmetry; unfold PyStr.truthy; apply negb_true_iff, String.eqb_neq, Hrun).
  change (PyStr.startswith "] ." (String "]" (" ." +:+ line +:+ after))) with true.
  cbn [andb].
  change (PyStr.drop 3 (String "]" (" ." +:+ line +:+ after))) with (line +:+ after).
  rewrite (take_while_line line after Hline Hafter). eauto.
Qed.

End SectionSizesProperties.

Lemma SectionSizesFromElf_names_witness :
  exists stdout : string,
    stdout = readelf_sections
    /\ map_Forall (fun k v =>
                    PyStr.startswith "." k = true
                    /\ exists group x : string,
                         (group ∈ Elf.finditer stdout
                          /\ exists i : nat,
                               PyStr.startswith group (PyStr.drop i stdout) = true)
                         /\ String.words group !! 0%nat = Some k
                         /\ String.words group !! 4%nat = Some x
                         /\ sample_int16 x = Ok v)
         (<[".rodata" := 275]> (<[".text" := 4096]> (∅ : gmap string Z))).
Proof.
  destruct (SectionSizesFromElf_names (fun _ => Ok readelf_sections) sample_int16
              "lib.so" "" (<[".rodata" := 275]> (<[".text" := 4096]> ∅)))
    as (stdout & Hout & Hall); [vm_compute; reflexivity|].
  exists stdout. split; [congruence | exact Hall].
Defined.

Lemma short_section_line_raises_witness :
  Elf._SectionSizesFromElf (fun _ => Ok readelf_truncated) sample_int16 "lib.so" ""
  = Err IndexError.
Proof.
  apply (short_section_line_raises (fun _ => Ok readelf_truncated) sample_int16
           "lib.so" ""
           ("Section Headers:" +:+ String PyStr.LF ""
            +:+ "  [Nr] Name Type Address Off Size ES Flg Lk Inf Al" +:+ String PyStr.LF ""
            +:+ "  [ 0]      NULL 0000000000000000 000000 000000 00      0   0  0"
            +:+ String PyStr.LF "" +:+ "  ")
           " 1" "text PROGBITS 0000000000001000"
           (String PyStr.LF ""
            +:+ "  [ 2] .rodata PROGBITS 0000000000002000 002000 000113 00   A  0   0  8"
            +:+ String PyStr.LF ""));
    [reflexivity | reflexivity | discriminate | reflexivity | reflexivity
     | right; reflexivity | vm_compute; lia].
Defined.
